(** * Wind-plant QA refinement pipeline ([Backend/utils/refine.py])

    A shallow embedding of the refinement module: the per-dataset refiners
    [refine_scada], [refine_meter], [refine_curtail], [refine_asset],
    [refine_reanalysis], their helpers [_safe_int] and [_drop_duplicates], and
    the orchestrator [refine_all].

    The refiners are Python functions that mutate a local dataframe and a
    report dictionary and wrap every call into the analytics library in
    [try ... except Exception].  They are embedded in a state-and-exception
    monad whose state survives an exception, exactly as the mutations of the
    Python locals do.  The analytics library (OpenOA's [qa] and [filters]
    modules) is not part of the repository: its five entry points are section
    variables, so that every statement proved in the section holds whatever
    the library answers. *)

From Stdlib Require Import QArith Qcanon DecimalString.
From stdpp Require Import numbers gmap strings list.

Local Open Scope string_scope.
Local Open Scope Z_scope.
Local Open Scope list_scope.

(** ** Cell values and dataframes *)

(** A cell of a pandas dataframe.  Finite floats are the rationals they
    denote; [VNa] is the missing value (NaN / NaT); timestamps are instants
    counted in seconds. *)
Inductive value : Type :=
  | VNum (q : Qc)
  | VStr (s : string)
  | VBool (b : bool)
  | VTime (t : Z)
  | VNa.

#[global] Instance value_eq_dec : EqDecision value.
Proof. solve_decision. Defined.

(** A row carries its index label and its cells by column name. *)
Record Row : Type := mkRow {
  label : value;
  cells : gmap string value
}.

Record DataFrame : Type := mkDF {
  columns : list string;
  rows : list Row
}.

(** [df[col]] read row by row; a cell that is missing reads as NaN. *)
Definition get_cell (col : string) (r : Row) : value :=
  default VNa (cells r !! col).

(** [df[col]]: the series of a column, positionally. *)
Definition column (col : string) (df : DataFrame) : list value :=
  map (get_cell col) (rows df).

(** [len(df)] *)
Definition len (df : DataFrame) : Z := Z.of_nat (length (rows df)).

(** [col in df.columns] *)
Definition has_column (col : string) (df : DataFrame) : bool :=
  bool_decide (col ∈ columns df).

(** [df.copy()] *)
Definition df_copy (df : DataFrame) : DataFrame := df.

(** Rows kept by pandas' [keep="last"]: a row is dropped when a later row has
    the same key. *)
Fixpoint keep_last {A K : Type} `{EqDecision K} (key : A → K) (l : list A) : list A :=
  match l with
  | [] => []
  | x :: l' =>
      if bool_decide (key x ∈ map key l') then keep_last key l'
      else x :: keep_last key l'
  end.

(** [df.drop_duplicates(subset=[col], keep="last")] *)
Definition drop_duplicates (col : string) (df : DataFrame) : DataFrame :=
  mkDF (columns df) (keep_last (get_cell col) (rows df)).

(** [df[~df.index.duplicated(keep="last")]] *)
Definition drop_index_duplicated (df : DataFrame) : DataFrame :=
  mkDF (columns df) (keep_last label (rows df)).

(** Writing one flag into a row: [None] is the NaN pandas fills in where
    the assigned series has no entry for the row. *)
Definition set_cell (col : string) (r : Row) (b : option bool) : Row :=
  mkRow (label r) (<[col := from_option VBool VNa b]> (cells r)).

Fixpoint assign_cells (col : string) (rs : list Row) (flags : list bool) : list Row :=
  match rs with
  | [] => []
  | r :: rs' =>
      match flags with
      | [] => set_cell col r None :: assign_cells col rs' []
      | b :: flags' => set_cell col r (Some b) :: assign_cells col rs' flags'
      end
  end.

(** [df[col] = flags]: the column is appended when new and overwritten in
    place otherwise; the rows are untouched apart from that cell. *)
Definition set_column (col : string) (flags : list bool) (df : DataFrame) : DataFrame :=
  mkDF (if has_column col df then columns df else columns df ++ [col])
       (assign_cells col (rows df) flags).

(** [int(df[col].sum())] on a flag column: the number of [True] cells. *)
Definition is_true (v : value) : bool :=
  match v with VBool true => true | _ => false end.

Definition count_true (col : string) (df : DataFrame) : Z :=
  Z.of_nat (length (filter (λ v, is_true v = true) (column col df))).

(** [int(df[col].isna().sum())] *)
Definition is_na (v : value) : bool :=
  match v with VNa => true | _ => false end.

Definition count_na (col : string) (df : DataFrame) : Z :=
  Z.of_nat (length (filter (λ v, is_na v = true) (column col df))).

(** ** Exceptions and the Python objects the reports are built from *)

Inductive exn_kind : Type :=
  | TypeError | ValueError | OverflowError | KeyError | AttributeError | OtherError.

(** An exception; [str] is what [str(e)] yields. *)
Record exn : Type := mkExn { kind : exn_kind; str : string }.

(** The objects met behind a [.size] attribute. *)
Inductive pyobj : Type :=
  | PyInt (z : Z)
  | PyFloat (q : Qc)
  | PyNaN
  | PyInf (negative : bool)
  | PyNone.

(** [int(val)]: floats truncate towards zero, NaN raises [ValueError],
    an infinity raises [OverflowError], [None] raises [TypeError]. *)
Definition py_int (val : pyobj) : exn + Z :=
  match val with
  | PyInt z => inr z
  | PyFloat q => inr (Z.quot (Qnum (this q)) (Z.pos (Qden (this q))))
  | PyNaN => inl (mkExn ValueError "cannot convert float NaN to integer")
  | PyInf _ => inl (mkExn OverflowError "cannot convert float infinity to integer")
  | PyNone => inl (mkExn TypeError "int() argument must be a string, a bytes-like object or a real number, not 'NoneType'")
  end.

(** [val > 0] *)
Definition py_gt0 (val : pyobj) : exn + bool :=
  match val with
  | PyInt z => inr (bool_decide (0 < z))
  | PyFloat q => inr (bool_decide (0 < q)%Qc)
  | PyNaN => inr false
  | PyInf negative => inr (negb negative)
  | PyNone => inl (mkExn TypeError "'>' not supported between instances of 'NoneType' and 'int'")
  end.

(** The timestamp collections the QA checks hand back: their [.size] and
    what [.astype(str).tolist()] gives. *)
Record TimeIndex : Type := mkTimeIndex {
  size : pyobj;
  astype_str : exn + list string
}.

(** Values stored in a QA report. *)
Inductive rval : Type :=
  | RBool (b : bool)
  | RInt (z : Z)
  | RStr (s : string)
  | RList (l : list string).

#[global] Instance rval_eq_dec : EqDecision rval.
Proof. solve_decision. Defined.

(** ** The state-and-exception monad of a refiner *)

(** The locals a refiner mutates: [df], [report] and (in [refine_scada])
    [flag_cols]. *)
Record St : Type := mkSt {
  st_df : DataFrame;
  st_report : gmap string rval;
  st_flag_cols : list string
}.

Definition M (A : Type) : Type := St → (exn + A) * St.

#[global] Instance M_ret : MRet M := λ A a s, (inr a, s).

#[global] Instance M_bind : MBind M := λ A B f m s,
  match m s with
  | (inr a, s') => f a s'
  | (inl e, s') => (inl e, s')
  end.

(** [try: body except Exception as e: handler(e)]; the handler starts from
    the state the body left behind. *)
Definition try_except {A : Type} (body : M A) (handler : exn → M A) : M A := λ s,
  match body s with
  | (inl e, s') => handler e s'
  | r => r
  end.

(** The outcome of a call that may raise. *)
Definition call {A : Type} (r : exn + A) : M A := λ s, (r, s).

(** The outcome of a call that is given [df] itself and writes into it:
    when it raises, [df] is the frame [left]. *)
Definition call_writing {A : Type} (r : exn + A) (left : DataFrame) : M A := λ s,
  match r with
  | inr a => (inr a, s)
  | inl e => (inl e, mkSt left (st_report s) (st_flag_cols s))
  end.

Definition get_df : M DataFrame := λ s, (inr (st_df s), s).

Definition set_df (d : DataFrame) : M unit := λ s,
  (inr tt, mkSt d (st_report s) (st_flag_cols s)).

(** [report[key] = v] *)
Definition report_set (key : string) (v : rval) : M unit := λ s,
  (inr tt, mkSt (st_df s) (<[key := v]> (st_report s)) (st_flag_cols s)).

Definition get_flag_cols : M (list string) := λ s, (inr (st_flag_cols s), s).

(** [flag_cols.append(fname)] *)
Definition flag_cols_append (fname : string) : M unit := λ s,
  (inr tt, mkSt (st_df s) (st_report s) (st_flag_cols s ++ [fname])).

(** [for x in xs: body(x)] *)
Fixpoint for_each {A : Type} (xs : list A) (body : A → M unit) : M unit :=
  match xs with
  | [] => mret tt
  | x :: xs' => body x ;; for_each xs' body
  end.

(** [if c: body] *)
Definition when (c : bool) (body : M unit) : M unit :=
  if c then body else mret tt.

(** A refiner starts with [report = {}], [df = df.copy()] and ends with
    [return df, report]. *)
Definition run_refiner (df : DataFrame) (body : M unit) : exn + (DataFrame * gmap string rval) :=
  match body (mkSt (df_copy df) ∅ []) with
  | (inr _, s) => inr (st_df s, st_report s)
  | (inl e, _) => inl e
  end.

(** ** Helpers of [refine.py] *)

(** [_safe_int]: [TypeError] and [ValueError] become 0, anything else is
    raised again. *)
Definition _safe_int (val : pyobj) : exn + Z :=
  match py_int val with
  | inr z => inr z
  | inl e =>
      match kind e with
      | TypeError | ValueError => inr 0
      | _ => inl e
      end
  end.

(** [_drop_duplicates]: by the time column when the frame has it, by index
    label otherwise. *)
Definition _drop_duplicates (df : DataFrame) (time_col : string) : DataFrame :=
  if has_column time_col df then drop_duplicates time_col df
  else drop_index_duplicated df.

(** ** The analytics library *)

(** The five entry points [refine.py] imports from OpenOA.  A call either
    raises or returns; the two QA checks return a triple of which the code
    reads the first and the third component, the third possibly [None].
    The conversion is handed the refiner's own copy and writes into it: when
    it raises, the copy stays as the call left it. *)
Class OpenOA : Type := {
  (** [qa.convert_datetime_column(df, time_col, local_tz, tz_aware)] *)
  convert_datetime_column : DataFrame → string → string → bool → exn + DataFrame;
  (** the frame given to that call, as the call leaves it when it raises *)
  convert_datetime_column_leaves : DataFrame → string → string → bool → DataFrame;
  (** [qa.duplicate_time_identification(df, time_col, id_col)] *)
  duplicate_time_identification :
    DataFrame → string → string → exn + (TimeIndex * option TimeIndex * option TimeIndex);
  (** [qa.gap_time_identification(df, time_col, freq)] *)
  gap_time_identification :
    DataFrame → string → string → exn + (TimeIndex * option TimeIndex * option TimeIndex);
  (** [filters.range_flag(data, lower, upper)] *)
  range_flag : list value → Qc → Qc → exn + list bool;
  (** [filters.unresponsive_flag(data, threshold)] *)
  unresponsive_flag : list value → Z → exn + list bool
}.

(** ** The refiners *)

Section Refiners.
Context `{OpenOA}.

(** Step 1 of every time-indexed refiner: convert the time column. *)
Definition convert_step (time_col local_tz : string) : M unit :=
  try_except
    (df ← get_df;
     df' ← call_writing (convert_datetime_column df time_col local_tz false)
             (convert_datetime_column_leaves df time_col local_tz false);
     set_df df';;
     report_set "datetime_converted" (RBool true))
    (λ e,
     report_set "datetime_converted" (RBool false);;
     report_set "datetime_error" (RStr (str e))).

(** [x.size if x is not None else 0] *)
Definition size_or_zero (x : option TimeIndex) : pyobj :=
  match x with Some t => size t | None => PyInt 0 end.

(** Step 2: identify duplicated timestamps. *)
Definition duplicate_step (time_col id_col : string) : M unit :=
  try_except
    (df ← get_df;
     '(dup_orig, _, dup_utc) ← call (duplicate_time_identification df time_col id_col);
     n ← call (_safe_int (size dup_orig));
     report_set "duplicate_original_count" (RInt n);;
     m ← call (_safe_int (size_or_zero dup_utc));
     report_set "duplicate_utc_count" (RInt m))
    (λ e, report_set "duplicate_check_error" (RStr (str e))).

(** Drop duplicates, keep last, and record how many rows went. *)
Definition drop_step (time_col : string) : M unit :=
  df ← get_df;
  let before := len df in
  set_df (_drop_duplicates df time_col);;
  df ← get_df;
  report_set "rows_dropped_duplicates" (RInt (before - len df)).

(** [if gap_utc is not None and gap_utc.size > 0:
       report["time_gap_timestamps_utc"] = gap_utc.astype(str).tolist()] *)
Definition gap_timestamps (gap_utc : option TimeIndex) : M unit :=
  match gap_utc with
  | None => mret tt
  | Some t =>
      positive ← call (py_gt0 (size t));
      when positive
        (l ← call (astype_str t);
         report_set "time_gap_timestamps_utc" (RList l))
  end.

(** Step 3: time gaps; only [refine_scada] lists the missing timestamps. *)
Definition gap_step (time_col freq : string) (list_timestamps : bool) : M unit :=
  try_except
    (df ← get_df;
     '(gap_orig, _, gap_utc) ← call (gap_time_identification df time_col freq);
     n ← call (_safe_int (size gap_orig));
     report_set "time_gaps_original_count" (RInt n);;
     m ← call (_safe_int (size_or_zero gap_utc));
     report_set "time_gaps_utc_count" (RInt m);;
     when list_timestamps (gap_timestamps gap_utc))
    (λ e, report_set "gap_check_error" (RStr (str e))).

(** One flag column:
    [if col in df.columns:
        try:
            df[fname] = flagger(df[col])
            report[count_key] = int(df[fname].sum())
            (flag_cols.append(fname))
        except Exception as e:
            report[error_key] = str(e)] *)
Definition flag_step (flagger : list value → exn + list bool)
    (col fname count_key error_key : string) (record : bool) : M unit :=
  df ← get_df;
  when (has_column col df)
    (try_except
       (df ← get_df;
        flags ← call (flagger (column col df));
        set_df (set_column fname flags df);;
        df ← get_df;
        report_set count_key (RInt (count_true fname df));;
        when record (flag_cols_append fname))
       (λ e, report_set error_key (RStr (str e)))).

Definition range_step (col : string) (rng : Qc * Qc)
    (fname count_key error_key : string) (record : bool) : M unit :=
  flag_step (λ data, range_flag data rng.1 rng.2) col fname count_key error_key record.

Definition unresponsive_step (col : string) (threshold : Z)
    (fname count_key error_key : string) (record : bool) : M unit :=
  flag_step (λ data, unresponsive_flag data threshold) col fname count_key error_key record.

(** [report["final_row_count"] = len(df)] *)
Definition final_step : M unit :=
  df ← get_df;
  report_set "final_row_count" (RInt (len df)).

Definition refine_scada (df : DataFrame)
    (local_tz time_col id_col power_col windspeed_col temp_col freq : string)
    (power_range windspeed_range temp_range : Qc * Qc)
    (unresponsive_threshold : Z) : exn + (DataFrame * gmap string rval) :=
  run_refiner df
    (convert_step time_col local_tz;;
     duplicate_step time_col id_col;;
     drop_step time_col;;
     gap_step time_col freq true;;
     for_each
       [ (power_col, power_range, "flag_power_range");
         (windspeed_col, windspeed_range, "flag_windspeed_range");
         (temp_col, temp_range, "flag_temp_range") ]
       (λ '(col, rng, fname),
        range_step col rng fname
          ("range_flag_" +:+ fname +:+ "_count")
          ("range_flag_" +:+ fname +:+ "_error") true);;
     for_each
       [ (power_col, "flag_power_unresponsive");
         (windspeed_col, "flag_windspeed_unresponsive") ]
       (λ '(col, fname),
        unresponsive_step col unresponsive_threshold fname
          ("unresponsive_" +:+ fname +:+ "_count")
          ("unresponsive_" +:+ fname +:+ "_error") true);;
     flag_cols ← get_flag_cols;
     report_set "flag_columns_added" (RList flag_cols);;
     final_step).

Definition refine_meter (df : DataFrame)
    (local_tz time_col energy_col freq : string)
    (energy_range : Qc * Qc) : exn + (DataFrame * gmap string rval) :=
  run_refiner df
    (convert_step time_col local_tz;;
     duplicate_step time_col time_col;;
     drop_step time_col;;
     gap_step time_col freq false;;
     range_step energy_col energy_range "flag_energy_range"
       "range_flag_energy_count" "range_flag_energy_error" false;;
     final_step).

Definition refine_curtail (df : DataFrame)
    (local_tz time_col avail_col curtail_col freq : string)
    (avail_range curtail_range : Qc * Qc) : exn + (DataFrame * gmap string rval) :=
  run_refiner df
    (convert_step time_col local_tz;;
     duplicate_step time_col time_col;;
     drop_step time_col;;
     gap_step time_col freq false;;
     for_each
       [ (avail_col, avail_range, "flag_availability_range");
         (curtail_col, curtail_range, "flag_curtailment_range") ]
       (λ '(col, rng, fname),
        range_step col rng fname (fname +:+ "_count") (fname +:+ "_error") false);;
     final_step).

(** [if "asset_id" in df.columns:
       report["missing_asset_id_count"] = int(df["asset_id"].isna().sum())] *)
Definition missing_id_step : M unit :=
  df ← get_df;
  when (has_column "asset_id" df)
    (report_set "missing_asset_id_count" (RInt (count_na "asset_id" df))).

Definition refine_asset (df : DataFrame)
    (lat_range lon_range rated_power_range : Qc * Qc)
    : exn + (DataFrame * gmap string rval) :=
  run_refiner df
    (missing_id_step;;
     for_each
       [ ("latitude", lat_range, "flag_latitude_range");
         ("longitude", lon_range, "flag_longitude_range");
         ("rated_power", rated_power_range, "flag_rated_power_range") ]
       (λ '(col, rng, fname),
        range_step col rng fname (fname +:+ "_count") (fname +:+ "_error") false);;
     final_step).

Definition refine_reanalysis (df : DataFrame)
    (product_name local_tz time_col windspeed_col winddir_col temp_col freq : string)
    (windspeed_range winddir_range temp_range : Qc * Qc)
    (unresponsive_threshold : Z) : exn + (DataFrame * gmap string rval) :=
  run_refiner df
    (convert_step time_col local_tz;;
     duplicate_step time_col time_col;;
     drop_step time_col;;
     gap_step time_col freq false;;
     for_each
       [ (windspeed_col, windspeed_range, "flag_windspeed_range");
         (winddir_col, winddir_range, "flag_winddir_range");
         (temp_col, temp_range, "flag_temp_range") ]
       (λ '(col, rng, fname),
        range_step col rng fname (fname +:+ "_count") (fname +:+ "_error") false);;
     unresponsive_step windspeed_col unresponsive_threshold
       "flag_windspeed_unresponsive"
       "unresponsive_windspeed_count" "unresponsive_windspeed_error" false;;
     report_set "product" (RStr product_name);;
     final_step).

End Refiners.

(** ** The orchestrator *)

(** A slot of the result: [None], one table (or report), or the inner
    dictionary of the reanalysis products. *)
Inductive entry (A : Type) : Type :=
  | Absent
  | Table (a : A)
  | Products (m : gmap string (option A)).
Arguments Absent {A}.
Arguments Table {A} a.
Arguments Products {A} m.

(** [{"dataframes": dataframes, "qa_report": qa_report}] *)
Record RefineResult : Type := mkResult {
  dataframes : gmap string (entry DataFrame);
  qa_report : gmap string (entry (gmap string rval))
}.

#[global] Instance R_ret : MRet (sum exn) := λ A a, inr a.

#[global] Instance R_bind : MBind (sum exn) := λ A B f m,
  match m with
  | inr a => f a
  | inl e => inl e
  end.

(** Keyword defaults of the refiners. *)
Definition default_freq : string := "10min".
Definition default_reanalysis_freq : string := "1h".
Definition default_threshold : Z := 3.
Definition scada_power_range : Qc * Qc := (Qc_of_Z (-20), Qc_of_Z 2200).
Definition scada_windspeed_range : Qc * Qc := (Qc_of_Z 0, Qc_of_Z 50).
Definition scada_temp_range : Qc * Qc := (Qc_of_Z (-40), Qc_of_Z 50).
Definition meter_energy_range : Qc * Qc := (Qc_of_Z (-100), Qc_of_Z 10000000).
Definition curtail_avail_range : Qc * Qc := (Qc_of_Z 0, Qc_of_Z 10000000).
Definition curtail_curtail_range : Qc * Qc := (Qc_of_Z 0, Qc_of_Z 10000000).
Definition asset_lat_range : Qc * Qc := (Qc_of_Z (-90), Qc_of_Z 90).
Definition asset_lon_range : Qc * Qc := (Qc_of_Z (-180), Qc_of_Z 180).
Definition asset_rated_power_range : Qc * Qc := (Qc_of_Z 0, Qc_of_Z 10000000).
Definition reanalysis_windspeed_range : Qc * Qc := (Qc_of_Z 0, Qc_of_Z 80).
Definition reanalysis_winddir_range : Qc * Qc := (Qc_of_Z 0, Qc_of_Z 360).
Definition reanalysis_temp_range : Qc * Qc := (Qc_of_Z 200, Qc_of_Z 340).

(** The column names [refine_all] is called with. *)
Record Names : Type := mkNames {
  scada_time_col : string;
  scada_id_col : string;
  scada_power_col : string;
  scada_windspeed_col : string;
  scada_temp_col : string;
  scada_freq : string;
  meter_time_col : string;
  meter_energy_col : string;
  curtail_time_col : string;
  curtail_avail_col : string;
  curtail_curtail_col : string;
  reanalysis_time_col : string;
  reanalysis_windspeed_col : string;
  reanalysis_winddir_col : string;
  reanalysis_temp_col : string
}.

Section Orchestrator.
Context `{OpenOA}.

Definition scada_call (n : Names) (local_tz : string) (df : DataFrame) :=
  refine_scada df local_tz (scada_time_col n) (scada_id_col n)
    (scada_power_col n) (scada_windspeed_col n) (scada_temp_col n) (scada_freq n)
    scada_power_range scada_windspeed_range scada_temp_range default_threshold.

Definition meter_call (n : Names) (local_tz : string) (df : DataFrame) :=
  refine_meter df local_tz (meter_time_col n) (meter_energy_col n)
    default_freq meter_energy_range.

Definition curtail_call (n : Names) (local_tz : string) (df : DataFrame) :=
  refine_curtail df local_tz (curtail_time_col n) (curtail_avail_col n)
    (curtail_curtail_col n) default_freq curtail_avail_range curtail_curtail_range.

Definition asset_call (df : DataFrame) :=
  refine_asset df asset_lat_range asset_lon_range asset_rated_power_range.

Definition reanalysis_call (n : Names) (local_tz name : string) (df : DataFrame) :=
  refine_reanalysis df name local_tz (reanalysis_time_col n)
    (reanalysis_windspeed_col n) (reanalysis_winddir_col n) (reanalysis_temp_col n)
    default_reanalysis_freq
    reanalysis_windspeed_range reanalysis_winddir_range reanalysis_temp_range
    default_threshold.

(** The two result dictionaries, filled side by side. *)
Definition Dicts (A B : Type) : Type := gmap string A * gmap string B.

(** [dataframes[key], qa_report[key] = refiner(df)] when the table is there,
    [dataframes[key] = qa_report[key] = None] otherwise. *)
Definition optional_slot (key : string) (df : option DataFrame)
    (refiner : DataFrame → exn + (DataFrame * gmap string rval))
    (acc : Dicts (entry DataFrame) (entry (gmap string rval)))
    : exn + Dicts (entry DataFrame) (entry (gmap string rval)) :=
  match df with
  | Some d =>
      '(d', r) ← refiner d;
      mret (<[key := Table d']> acc.1, <[key := Table r]> acc.2)
  | None => mret (<[key := Absent]> acc.1, <[key := Absent]> acc.2)
  end.

(** One turn of [for name, r_df in reanalysis_dfs.items()]. *)
Definition product_slot (n : Names) (local_tz : string)
    (name : string) (r_df : option DataFrame)
    (acc : exn + Dicts (option DataFrame) (option (gmap string rval)))
    : exn + Dicts (option DataFrame) (option (gmap string rval)) :=
  acc ← acc;
  match r_df with
  | Some d =>
      '(d', r) ← reanalysis_call n local_tz name d;
      mret (<[name := Some d']> acc.1, <[name := Some r]> acc.2)
  | None => mret (<[name := None]> acc.1, <[name := None]> acc.2)
  end.

(** [refine_all].  [reanalysis_dfs] is [None] or a dictionary from product
    name to a table or [None]; an empty dictionary is falsy and skips the
    loop like [None] does. *)
Definition refine_all (scada_df : DataFrame) (local_tz : string) (n : Names)
    (meter_df curtail_df asset_df : option DataFrame)
    (reanalysis_dfs : option (gmap string (option DataFrame)))
    : exn + RefineResult :=
  '(d, r) ← scada_call n local_tz scada_df;
  acc ← mret (<["scada" := Table d]> ∅, <["scada" := Table r]> ∅);
  acc ← optional_slot "meter" meter_df (meter_call n local_tz) acc;
  acc ← optional_slot "curtail" curtail_df (curtail_call n local_tz) acc;
  acc ← optional_slot "asset" asset_df asset_call acc;
  inner ← match reanalysis_dfs with
          | Some m => map_fold (product_slot n local_tz) (mret (∅, ∅)) m
          | None => mret (∅, ∅)
          end;
  mret (mkResult (<["reanalysis" := Products inner.1]> acc.1)
                 (<["reanalysis" := Products inner.2]> acc.2)).

End Orchestrator.

(** * Specifications and models *)

(** ** Computations and the state they leave *)

Definition safe {A : Type} (m : M A) : Prop :=
  ∀ s, ∃ a s', m s = (inr a, s').

(** [st_rel R m]: whatever [m] does, and whether it raises or not, the state
    it leaves is [R]-related to the state it started from. *)
Definition st_rel {A : Type} (R : relation St) (m : M A) : Prop :=
  ∀ s r s', m s = (r, s') → R s s'.

Definition same_df : relation St := λ s s', st_df s' = st_df s.

Definition writes (K : list string) : relation St := λ s s',
  ∀ k, k ∉ K → st_report s' !! k = st_report s !! k.

Section StepFramesDefs.
Context `{OpenOA}.

Definition convert_keys : list string := ["datetime_converted"; "datetime_error"].

Definition duplicate_keys : list string :=
  ["duplicate_original_count"; "duplicate_utc_count"; "duplicate_check_error"].

Definition gap_keys : list string :=
  ["time_gaps_original_count"; "time_gaps_utc_count"; "time_gap_timestamps_utc";
   "gap_check_error"].

End StepFramesDefs.

Section StepEquationsDefs.
Context `{OpenOA}.

(** The frame the conversion step leaves: the converted frame, or the
    frame it was given as the call left it when it raised. *)
Definition converted (df : DataFrame) (time_col local_tz : string) : DataFrame :=
  match convert_datetime_column df time_col local_tz false with
  | inr d => d
  | inl _ => convert_datetime_column_leaves df time_col local_tz false
  end.

End StepEquationsDefs.

(** A body that returns normally with [final_row_count] holding the length
    of its final dataframe. *)
Definition final_ok (body : M unit) : Prop :=
  ∀ s r s', body s = (r, s') →
    r = inr tt ∧ st_report s' !! "final_row_count" = Some (RInt (len (st_df s'))).

(** What a refiner returns satisfies [row_count_ok] when it is a pair whose
    report counts the rows of its dataframe. *)
Definition row_count_ok (res : exn + (DataFrame * gmap string rval)) : Prop :=
  ∃ d rep, res = inr (d, rep) ∧ rep !! "final_row_count" = Some (RInt (len d)).

(** ** Refiner bodies as lists of steps *)

(** [m1; m2; ...; mn] *)
Definition seq_all (ms : list (M unit)) : M unit :=
  foldr (λ m k, m ;; k) (mret tt) ms.

(** [report["flag_columns_added"] = flag_cols] *)
Definition record_flag_cols : M unit :=
  flag_cols ← get_flag_cols;
  report_set "flag_columns_added" (RList flag_cols).

(** The flag columns of a refiner, one row per column: the data column read,
    the check run on it, the flag column written and the two report keys. *)
Inductive check : Type :=
  | RangeCheck (rng : Qc * Qc)
  | UnresponsiveCheck (threshold : Z).

Record flag_row : Type := mkFlag {
  f_col : string;
  f_check : check;
  f_name : string;
  f_count_key : string;
  f_error_key : string
}.

Definition scada_flags (power_col windspeed_col temp_col : string)
    (power_range windspeed_range temp_range : Qc * Qc) (threshold : Z) : list flag_row :=
  [ mkFlag power_col (RangeCheck power_range) "flag_power_range"
      "range_flag_flag_power_range_count" "range_flag_flag_power_range_error";
    mkFlag windspeed_col (RangeCheck windspeed_range) "flag_windspeed_range"
      "range_flag_flag_windspeed_range_count" "range_flag_flag_windspeed_range_error";
    mkFlag temp_col (RangeCheck temp_range) "flag_temp_range"
      "range_flag_flag_temp_range_count" "range_flag_flag_temp_range_error";
    mkFlag power_col (UnresponsiveCheck threshold) "flag_power_unresponsive"
      "unresponsive_flag_power_unresponsive_count"
      "unresponsive_flag_power_unresponsive_error";
    mkFlag windspeed_col (UnresponsiveCheck threshold) "flag_windspeed_unresponsive"
      "unresponsive_flag_windspeed_unresponsive_count"
      "unresponsive_flag_windspeed_unresponsive_error" ].

Definition meter_flags (energy_col : string) (energy_range : Qc * Qc) : list flag_row :=
  [ mkFlag energy_col (RangeCheck energy_range) "flag_energy_range"
      "range_flag_energy_count" "range_flag_energy_error" ].

Definition curtail_flags (avail_col curtail_col : string)
    (avail_range curtail_range : Qc * Qc) : list flag_row :=
  [ mkFlag avail_col (RangeCheck avail_range) "flag_availability_range"
      "flag_availability_range_count" "flag_availability_range_error";
    mkFlag curtail_col (RangeCheck curtail_range) "flag_curtailment_range"
      "flag_curtailment_range_count" "flag_curtailment_range_error" ].

Definition asset_flags (lat_range lon_range rated_power_range : Qc * Qc) : list flag_row :=
  [ mkFlag "latitude" (RangeCheck lat_range) "flag_latitude_range"
      "flag_latitude_range_count" "flag_latitude_range_error";
    mkFlag "longitude" (RangeCheck lon_range) "flag_longitude_range"
      "flag_longitude_range_count" "flag_longitude_range_error";
    mkFlag "rated_power" (RangeCheck rated_power_range) "flag_rated_power_range"
      "flag_rated_power_range_count" "flag_rated_power_range_error" ].

Definition reanalysis_flags (windspeed_col winddir_col temp_col : string)
    (windspeed_range winddir_range temp_range : Qc * Qc) (threshold : Z) : list flag_row :=
  [ mkFlag windspeed_col (RangeCheck windspeed_range) "flag_windspeed_range"
      "flag_windspeed_range_count" "flag_windspeed_range_error";
    mkFlag winddir_col (RangeCheck winddir_range) "flag_winddir_range"
      "flag_winddir_range_count" "flag_winddir_range_error";
    mkFlag temp_col (RangeCheck temp_range) "flag_temp_range"
      "flag_temp_range_count" "flag_temp_range_error";
    mkFlag windspeed_col (UnresponsiveCheck threshold) "flag_windspeed_unresponsive"
      "unresponsive_windspeed_count" "unresponsive_windspeed_error" ].

Section StepListsDefs.
Context `{OpenOA}.

(** The library call behind a check. *)
Definition run_check (c : check) (data : list value) : exn + list bool :=
  match c with
  | RangeCheck rng => range_flag data rng.1 rng.2
  | UnresponsiveCheck threshold => unresponsive_flag data threshold
  end.

(** The step of one row of a flag table. *)
Definition row_step (record : bool) (f : flag_row) : M unit :=
  flag_step (run_check (f_check f)) (f_col f) (f_name f)
    (f_count_key f) (f_error_key f) record.

(** The four checks every time-indexed refiner starts with. *)
Definition time_checks (local_tz time_col id_col freq : string) (list_timestamps : bool)
    : list (M unit) :=
  [ convert_step time_col local_tz;
    duplicate_step time_col id_col;
    drop_step time_col;
    gap_step time_col freq list_timestamps ].

Definition scada_steps (local_tz time_col id_col power_col windspeed_col temp_col freq : string)
    (power_range windspeed_range temp_range : Qc * Qc) (threshold : Z) : list (M unit) :=
  time_checks local_tz time_col id_col freq true ++
  map (row_step true)
    (scada_flags power_col windspeed_col temp_col
       power_range windspeed_range temp_range threshold) ++
  [ record_flag_cols; final_step ].

Definition meter_steps (local_tz time_col energy_col freq : string)
    (energy_range : Qc * Qc) : list (M unit) :=
  time_checks local_tz time_col time_col freq false ++
  map (row_step false) (meter_flags energy_col energy_range) ++
  [ final_step ].

Definition curtail_steps (local_tz time_col avail_col curtail_col freq : string)
    (avail_range curtail_range : Qc * Qc) : list (M unit) :=
  time_checks local_tz time_col time_col freq false ++
  map (row_step false) (curtail_flags avail_col curtail_col avail_range curtail_range) ++
  [ final_step ].

Definition asset_steps (lat_range lon_range rated_power_range : Qc * Qc) : list (M unit) :=
  [ missing_id_step ] ++
  map (row_step false) (asset_flags lat_range lon_range rated_power_range) ++
  [ final_step ].

Definition reanalysis_steps
    (product_name local_tz time_col windspeed_col winddir_col temp_col freq : string)
    (windspeed_range winddir_range temp_range : Qc * Qc) (threshold : Z) : list (M unit) :=
  time_checks local_tz time_col time_col freq false ++
  map (row_step false)
    (reanalysis_flags windspeed_col winddir_col temp_col
       windspeed_range winddir_range temp_range threshold) ++
  [ report_set "product" (RStr product_name); final_step ].

End StepListsDefs.

(** ** Frames that differ by flag columns *)

(** A cell written by a flag assignment: a boolean, or the NaN left where
    the assigned series had no entry. *)
Definition is_flag_cell (v : option value) : Prop :=
  v = Some VNa ∨ ∃ b, v = Some (VBool b).

(** [r'] is [r] with flags written under some of the names [F]. *)
Definition row_ext (F : list string) (r r' : Row) : Prop :=
  label r' = label r ∧
  (∀ c, c ∉ F → cells r' !! c = cells r !! c) ∧
  (∀ c, cells r' !! c = cells r !! c ∨ is_flag_cell (cells r' !! c)).

(** [d'] is [d] with flag columns named in [F] appended or overwritten:
    no column is lost, every new column is one of [F] and holds flags, and
    the rows are the same rows, in the same order, with only flag cells
    written. *)
Definition flag_ext (F : list string) (d d' : DataFrame) : Prop :=
  (∀ c, c ∈ columns d → c ∈ columns d') ∧
  (∀ c, c ∈ columns d' → c ∈ columns d ∨ c ∈ F) ∧
  (∀ c r', c ∈ columns d' → c ∉ columns d → r' ∈ rows d' → is_flag_cell (cells r' !! c)) ∧
  Forall2 (row_ext F) (rows d) (rows d').

(** The flag names and the report keys of a table. *)
Definition names (T : list flag_row) : list string := f_name <$> T.

Definition keys (T : list flag_row) : list string :=
  T ≫= λ f, [f_count_key f; f_error_key f].

Definition df_flag_ext (F : list string) : relation St := λ s s',
  flag_ext F (st_df s) (st_df s').

(** The values a flag assignment leaves in its column, for [n] rows. *)
Fixpoint flag_values (n : nat) (flags : list bool) : list value :=
  match n with
  | O => []
  | S n' =>
      match flags with
      | [] => VNa :: flag_values n' []
      | b :: flags' => VBool b :: flag_values n' flags'
      end
  end.

Section RowOutcomeDefs.
Context `{OpenOA}.

(** The outcome of the row [f] of a table started on frame [d0] with report
    [rep0] and finished with [d'] and [rep']: skipped when the data column
    is missing, an error entry when the check raised, a count and a flag
    column otherwise. *)
Definition row_result (f : flag_row) (d0 : DataFrame) (rep0 : gmap string rval)
    (d' : DataFrame) (rep' : gmap string rval) : Prop :=
  if has_column (f_col f) d0 then
    match run_check (f_check f) (column (f_col f) d0) with
    | inl e =>
        rep' !! f_error_key f = Some (RStr (str e)) ∧
        rep' !! f_count_key f = rep0 !! f_count_key f
    | inr flags =>
        rep' !! f_count_key f = Some (RInt (count_true (f_name f) d')) ∧
        rep' !! f_error_key f = rep0 !! f_error_key f ∧
        column (f_name f) d' = flag_values (length (rows d0)) flags
    end
  else
    rep' !! f_count_key f = rep0 !! f_count_key f ∧
    rep' !! f_error_key f = rep0 !! f_error_key f.

(** A table is well formed when its flag names are pairwise distinct and so
    are all its report keys. *)
Definition table_ok (T : list flag_row) : Prop := NoDup (names T) ∧ NoDup (keys T).

End RowOutcomeDefs.

Definition time_keys : list string :=
  [ "datetime_converted"; "datetime_error";
    "duplicate_original_count"; "duplicate_utc_count"; "duplicate_check_error";
    "rows_dropped_duplicates";
    "time_gaps_original_count"; "time_gaps_utc_count"; "time_gap_timestamps_utc";
    "gap_check_error" ].

Section TimeChecksDefs.
Context `{OpenOA}.

(** The frame handed over by the conversion step, and the frame the flags
    are computed on. *)
Definition handed_over (df : DataFrame) (time_col local_tz : string) : DataFrame :=
  converted (df_copy df) time_col local_tz.

Definition deduplicated (df : DataFrame) (time_col local_tz : string) : DataFrame :=
  _drop_duplicates (handed_over df time_col local_tz) time_col.

End TimeChecksDefs.

(** ** What the closing steps may write *)

(** Every refiner runs some opening checks, then the rows of its flag
    table, then a few closing steps that only write report entries. *)
Definition bookkeeping (K : list string) (suf : list (M unit)) : Prop :=
  Forall safe suf ∧ Forall (st_rel same_df) suf ∧ Forall (st_rel (writes K)) suf.

Definition closing_keys : list string :=
  ["flag_columns_added"; "product"; "final_row_count"].

(** Keys written outside the flag tables. *)
Definition other_keys : list string :=
  (time_keys ++ closing_keys ++ ["missing_asset_id_count"])%list.

(** A table fits a refiner when it is well formed and none of its keys is
    written by another step. *)
Definition table_fits (T : list flag_row) : Prop :=
  table_ok T ∧ Forall (λ k, k ∉ other_keys) (keys T).

(** ** Counts, failures and the result of [refine_all] *)

(** The result of a refiner is a pair in which every count of the table
    that is present equals the number of [True] cells of its flag column. *)
Definition counts_match (T : list flag_row)
    (res : exn + (DataFrame * gmap string rval)) : Prop :=
  ∃ d rep, res = inr (d, rep) ∧
    ∀ f n, f ∈ T → rep !! f_count_key f = Some (RInt n) →
           n = count_true (f_name f) d.

(** A result that is a pair, not an exception. *)
Definition returns {A : Type} (res : exn + A) : Prop := ∃ a, res = inr a.

(** What the report of a time-indexed refiner says when the conversion, the
    duplicate check or the gap check raises [e]: the message of [e] under
    the key of that step. *)
Definition time_failures_recorded `{OpenOA} (df : DataFrame)
    (tz tc idc freq : string) (rep : gmap string rval) : Prop :=
  (∀ e, convert_datetime_column (df_copy df) tc tz false = inl e →
        rep !! "datetime_converted" = Some (RBool false) ∧
        rep !! "datetime_error" = Some (RStr (str e))) ∧
  (∀ e, duplicate_time_identification (handed_over df tc tz) tc idc = inl e →
        rep !! "duplicate_check_error" = Some (RStr (str e))) ∧
  (∀ e, gap_time_identification (deduplicated df tc tz) tc freq = inl e →
        rep !! "gap_check_error" = Some (RStr (str e))).

(** What the report says when the check of a row of the table raises [e]
    on the data column of the frame [d0] the flags are computed on. *)
Definition flag_failures_recorded `{OpenOA} (T : list flag_row) (d0 : DataFrame)
    (rep : gmap string rval) : Prop :=
  ∀ f e, f ∈ T → f_col f ∉ names T → has_column (f_col f) d0 = true →
         run_check (f_check f) (column (f_col f) d0) = inl e →
         rep !! f_error_key f = Some (RStr (str e)).

Definition time_refiner_captures `{OpenOA} (T : list flag_row) (df : DataFrame)
    (tz tc idc freq : string) (res : exn + (DataFrame * gmap string rval)) : Prop :=
  ∃ d rep, res = inr (d, rep) ∧
    time_failures_recorded df tz tc idc freq rep ∧
    flag_failures_recorded T (deduplicated df tc tz) rep.

Definition asset_refiner_captures `{OpenOA} (T : list flag_row) (df : DataFrame)
    (res : exn + (DataFrame * gmap string rval)) : Prop :=
  ∃ d rep, res = inr (d, rep) ∧ flag_failures_recorded T (df_copy df) rep.

(** The keys of the two result dictionaries. *)
Definition top_keys : gset string :=
  {[ "scada"; "meter"; "curtail"; "asset"; "reanalysis" ]}.

Section RefineAllDefs.
Context `{OpenOA}.

(** The slot [key] of both dictionaries for an optional input: [None] in
    both when the input is absent, what the refiner returns on it
    otherwise. *)
Definition slot_is (res : RefineResult) (key : string) (input : option DataFrame)
    (refiner : DataFrame → exn + (DataFrame * gmap string rval)) : Prop :=
  match input with
  | None =>
      dataframes res !! key = Some Absent ∧ qa_report res !! key = Some Absent
  | Some df =>
      ∃ d r, refiner df = inr (d, r) ∧
             dataframes res !! key = Some (Table d) ∧
             qa_report res !! key = Some (Table r)
  end.

(** The entry [name] of the two inner reanalysis dictionaries. *)
Definition product_is (n : Names) (tz : string)
    (pd : gmap string (option DataFrame)) (pq : gmap string (option (gmap string rval)))
    (name : string) (input : option (option DataFrame)) : Prop :=
  match input with
  | None => pd !! name = None ∧ pq !! name = None
  | Some None => pd !! name = Some None ∧ pq !! name = Some None
  | Some (Some df) =>
      ∃ d r, reanalysis_call n tz name df = inr (d, r) ∧
             pd !! name = Some (Some d) ∧ pq !! name = Some (Some r)
  end.

Definition products_are (res : RefineResult) (n : Names) (tz : string)
    (inputs : gmap string (option DataFrame)) : Prop :=
  ∃ pd pq,
    dataframes res !! "reanalysis" = Some (Products pd) ∧
    qa_report res !! "reanalysis" = Some (Products pq) ∧
    ∀ name, product_is n tz pd pq name (inputs !! name).

(** Every input is refined on its own and stored under its name. *)
Definition all_refined (res : RefineResult) (scada_df : DataFrame) (tz : string)
    (n : Names) (meter_df curtail_df asset_df : option DataFrame)
    (reanalysis_dfs : option (gmap string (option DataFrame))) : Prop :=
  slot_is res "scada" (Some scada_df) (scada_call n tz) ∧
  slot_is res "meter" meter_df (meter_call n tz) ∧
  slot_is res "curtail" curtail_df (curtail_call n tz) ∧
  slot_is res "asset" asset_df asset_call ∧
  products_are res n tz (default ∅ reanalysis_dfs) ∧
  dom (dataframes res) = top_keys ∧
  dom (qa_report res) = top_keys.

End RefineAllDefs.

Section FailuresDefs.
Context `{OpenOA}.

(** The slot of an optional input mirrors its presence. *)
Definition slot_mirrors (res : RefineResult) (key : string)
    (input : option DataFrame) : Prop :=
  match input with
  | None =>
      dataframes res !! key = Some Absent ∧ qa_report res !! key = Some Absent
  | Some _ =>
      ∃ d r, dataframes res !! key = Some (Table d) ∧
             qa_report res !! key = Some (Table r)
  end.

(** The result has the five keys in both dictionaries, a table and a report
    for SCADA and for each optional input that is present, [None] twice for
    each that is absent, and under [reanalysis] two inner dictionaries with
    the product names of the input, holding [None] exactly for the products
    given as [None]. *)
Definition mirrors_inputs (res : RefineResult)
    (meter_df curtail_df asset_df : option DataFrame)
    (products : gmap string (option DataFrame)) : Prop :=
  dom (dataframes res) = top_keys ∧
  dom (qa_report res) = top_keys ∧
  (∃ d r, dataframes res !! "scada" = Some (Table d) ∧
          qa_report res !! "scada" = Some (Table r)) ∧
  slot_mirrors res "meter" meter_df ∧
  slot_mirrors res "curtail" curtail_df ∧
  slot_mirrors res "asset" asset_df ∧
  ∃ pd pq,
    dataframes res !! "reanalysis" = Some (Products pd) ∧
    qa_report res !! "reanalysis" = Some (Products pq) ∧
    dom pd = dom products ∧ dom pq = dom products ∧
    ∀ name,
      (products !! name = Some None ↔ pd !! name = Some None) ∧
      (products !! name = Some None ↔ pq !! name = Some None).

End FailuresDefs.

Definition count_fields : list string :=
  [ "duplicate_original_count"; "duplicate_utc_count";
    "time_gaps_original_count"; "time_gaps_utc_count" ].

(** Each of the four counts is an integer when it is in the report. *)
Definition counts_are_integers (rep : gmap string rval) : Prop :=
  ∀ k, k ∈ count_fields → rep !! k = None ∨ ∃ z, rep !! k = Some (RInt z).

(** [int(val)] raises [TypeError] or [ValueError]. *)
Definition unconvertible (val : pyobj) : Prop :=
  ∃ e, py_int val = inl e ∧ (kind e = TypeError ∨ kind e = ValueError).

(** When the check returned [(orig, _, utc)], a size that cannot be
    converted is reported as 0. *)
Definition zero_on_failure (k_orig k_utc : string)
    (res : exn + (TimeIndex * option TimeIndex * option TimeIndex))
    (rep : gmap string rval) : Prop :=
  ∀ orig mid utc, res = inr (orig, mid, utc) →
    (unconvertible (size orig) → rep !! k_orig = Some (RInt 0)) ∧
    (∀ n, _safe_int (size orig) = inr n → unconvertible (size_or_zero utc) →
          rep !! k_utc = Some (RInt 0)).

Definition safe_counts `{OpenOA} (df : DataFrame) (tz tc idc freq : string)
    (res : exn + (DataFrame * gmap string rval)) : Prop :=
  ∃ d rep, res = inr (d, rep) ∧
    counts_are_integers rep ∧
    zero_on_failure "duplicate_original_count" "duplicate_utc_count"
      (duplicate_time_identification (handed_over df tc tz) tc idc) rep ∧
    zero_on_failure "time_gaps_original_count" "time_gaps_utc_count"
      (gap_time_identification (deduplicated df tc tz) tc freq) rep.

(** ** The flaggers, from their contracts *)

(** The maximal runs of identical consecutive values of a list, each with
    its length. *)
Fixpoint runs {A : Type} `{EqDecision A} (l : list A) : list (A * nat) :=
  match l with
  | [] => []
  | x :: l' =>
      match runs l' with
      | (y, n) :: rs => if decide (x = y) then (y, S n) :: rs else (x, 1%nat) :: (y, n) :: rs
      | [] => [(x, 1%nat)]
      end
  end.

(** One flag per sample: the samples of a run are flagged together, when the
    run is at least [threshold] long. *)
Definition run_flags {A : Type} (threshold : Z) (rs : list (A * nat)) : list bool :=
  rs ≫= λ '(_, n), replicate n (bool_decide (threshold ≤ Z.of_nat n)%Z).

(** Modelled from the spec: the Unresponsive-Sensor Flagger (OpenOA's
    [filters.unresponsive_flag], a library the repository imports; its code
    is not under src/).  Section 4.5: "append a boolean flag marking every
    sample that is part of a run of identical values at least as long as the
    threshold". *)
Definition spec_unresponsive_flag (data : list value) (threshold : Z) : exn + list bool :=
  inr (run_flags threshold (runs data)).

(** Modelled from the spec: the Range Flagger on one value (OpenOA's
    [filters.range_flag]; not under src/).  Section 4.4: "an inclusive
    lower/upper bound pair ... marking rows outside [lower, upper]";
    section 8: a non-numeric column makes the step fail.  What a missing
    value gets is not stated by the spec: it is the parameter [na_flag]. *)
Definition range_flag_value (na_flag : bool) (lower upper : Qc) (v : value) : exn + bool :=
  match v with
  | VNum q => inr (negb (bool_decide (lower ≤ q)%Qc && bool_decide (q ≤ upper)%Qc))
  | VNa => inr na_flag
  | _ => inl (mkExn TypeError "'<=' not supported between instances of 'str' and 'float'")
  end.

(** Modelled from the spec: the Range Flagger on a column; it fails as soon
    as one value cannot be compared. *)
Fixpoint spec_range_flag (na_flag : bool) (data : list value) (lower upper : Qc)
    : exn + list bool :=
  match data with
  | [] => inr []
  | v :: data' =>
      match range_flag_value na_flag lower upper v with
      | inl e => inl e
      | inr b =>
          match spec_range_flag na_flag data' lower upper with
          | inl e => inl e
          | inr bs => inr (b :: bs)
          end
      end
  end.

(** A library whose flaggers are the two above, whatever its QA checks. *)
Definition with_spec_flaggers (na_flag : bool) (lib : OpenOA) : OpenOA := {|
  convert_datetime_column := @convert_datetime_column lib;
  convert_datetime_column_leaves := @convert_datetime_column_leaves lib;
  duplicate_time_identification := @duplicate_time_identification lib;
  gap_time_identification := @gap_time_identification lib;
  range_flag := spec_range_flag na_flag;
  unresponsive_flag := spec_unresponsive_flag
|}.

(** In the returned frame, a flag column whose count is in the report holds
    what its check answers on the data column of that same frame. *)
Definition flagged_by `{OpenOA} (T : list flag_row) (d : DataFrame)
    (rep : gmap string rval) : Prop :=
  ∀ f, f ∈ T → f_col f ∉ names T → is_Some (rep !! f_count_key f) →
    ∃ flags, run_check (f_check f) (column (f_col f) d) = inr flags ∧
             column (f_name f) d = flag_values (length (rows d)) flags.

Section FlaggedByDefs.
Context `{OpenOA}.

(** The frame a refiner returns, with the verdicts of its checks. *)
Definition refined_with (T : list flag_row) (d0 : DataFrame)
    (res : exn + (DataFrame * gmap string rval)) : Prop :=
  ∃ d rep, res = inr (d, rep) ∧ flagged_by T d rep ∧
    ∀ f, f ∈ T → f_col f ∉ names T → column (f_col f) d = column (f_col f) d0.

End FlaggedByDefs.

(** ** Rules of the flaggers *)

(** [l] has a maximal run of [n] copies of [x] starting at position
    [start]: the value before and the value after, if any, differ from
    [x]. *)
Definition maximal_run {A : Type} (l : list A) (start n : nat) (x : A) : Prop :=
  ∃ pre post,
    l = pre ++ replicate n x ++ post ∧ length pre = start ∧ (0 < n)%nat ∧
    last pre ≠ Some x ∧ head post ≠ Some x.

(** No member of a maximal run shorter than [t] is flagged; every member of
    a maximal run at least [t] long is. *)
Definition run_rule (t : Z) (data flags : list value) : Prop :=
  ∀ start n x i, maximal_run data start n x → (start ≤ i < start + n)%nat →
    (Z.of_nat n < t → flags !! i = Some (VBool false)) ∧
    (t ≤ Z.of_nat n → flags !! i = Some (VBool true)).

(** The rows of a table that carry an unresponsive check obey the rule in
    the returned frame, whenever their flag column was appended. *)
Definition unresponsive_rows_ok (T : list flag_row) (d : DataFrame)
    (rep : gmap string rval) : Prop :=
  ∀ f t, f ∈ T → f_check f = UnresponsiveCheck t → f_col f ∉ names T →
    is_Some (rep !! f_count_key f) →
    run_rule t (column (f_col f) d) (column (f_name f) d).

(** A number outside the inclusive bounds is flagged, a number inside is
    not. *)
Definition range_rule (lower upper : Qc) (data flags : list value) : Prop :=
  ∀ i q, data !! i = Some (VNum q) →
    ((q < lower ∨ upper < q)%Qc → flags !! i = Some (VBool true)) ∧
    ((lower ≤ q ∧ q ≤ upper)%Qc → flags !! i = Some (VBool false)).

(** The rows of a table that carry a range check obey the rule in the
    returned frame, whenever their flag column was appended. *)
Definition range_rows_ok (T : list flag_row) (d : DataFrame)
    (rep : gmap string rval) : Prop :=
  ∀ f rng, f ∈ T → f_check f = RangeCheck rng → f_col f ∉ names T →
    is_Some (rep !! f_count_key f) →
    range_rule rng.1 rng.2 (column (f_col f) d) (column (f_name f) d).

(** The data columns of the table are those of the frame [d0] the flags were
    computed on: no value is changed. *)
Definition data_untouched (T : list flag_row) (d0 d : DataFrame) : Prop :=
  ∀ f, f ∈ T → f_col f ∉ names T → column (f_col f) d = column (f_col f) d0.

Definition range_flagged (T : list flag_row) (d0 : DataFrame)
    (res : exn + (DataFrame * gmap string rval)) : Prop :=
  ∃ d rep, res = inr (d, rep) ∧ range_rows_ok T d rep ∧ data_untouched T d0 d.

(** ** Duplicate keys *)

(** The key [_drop_duplicates] compares rows by. *)
Definition dup_key (time_col : string) (d : DataFrame) : Row → value :=
  if has_column time_col d then get_cell time_col else label.

Definition unique_keys (time_col : string) (d : DataFrame) : Prop :=
  NoDup (map (dup_key time_col d) (rows d)).

(** The result is a pair whose frame is the deduplicated frame [d0] with
    flag columns of [F] written: every column of [d0] is there, every other
    column is a flag column, and the rows are those of [d0] with flag cells
    only. *)
Definition only_annotates (F : list string) (d0 : DataFrame)
    (res : exn + (DataFrame * gmap string rval)) : Prop :=
  ∃ d rep, res = inr (d, rep) ∧ flag_ext F d0 d.

(** The columns of the input are columns of the returned frame. *)
Definition keeps_columns (df : DataFrame)
    (res : exn + (DataFrame * gmap string rval)) : Prop :=
  ∃ d rep, res = inr (d, rep) ∧ ∀ c, c ∈ columns df → c ∈ columns d.

(** For a time-indexed refiner the deduplicated frame comes from the frame
    [h] the conversion step handed over: it has the columns of [h] and its
    rows are rows of [h], in their order.  The columns of the input are
    columns of the result as far as the conversion step kept them. *)
Definition annotates_deduplicated `{OpenOA} (F : list string) (df : DataFrame)
    (tz tc : string) (res : exn + (DataFrame * gmap string rval)) : Prop :=
  only_annotates F (deduplicated df tc tz) res ∧
  columns (deduplicated df tc tz) = columns (handed_over df tc tz) ∧
  rows (deduplicated df tc tz) `sublist_of` rows (handed_over df tc tz) ∧
  ((∀ c, c ∈ columns df → c ∈ columns (handed_over df tc tz)) →
   keeps_columns df res).

(** ** A library instance modelled from the spec *)

(** Modelled from the spec: zone identifiers (section 4.1 asks for a valid
    one).  The zone rules are not part of the repository; the model knows
    two zones, each by a fixed offset from UTC in seconds. *)
Definition utc_offset (tz : string) : option Z :=
  if decide (tz = "UTC") then Some 0
  else if decide (tz = "Europe/Paris") then Some 3600
  else None.

(** The conversion of one row: the timestamp moves to UTC; with [repoint]
    it becomes the index label and leaves the cells, without it replaces
    the raw cell. *)
Definition convert_row (repoint : bool) (time_col : string) (offset : Z) (r : Row)
    : option Row :=
  match get_cell time_col r with
  | VTime t =>
      Some (if repoint
            then mkRow (VTime (t - offset)) (delete time_col (cells r))
            else mkRow (label r) (<[time_col := VTime (t - offset)]> (cells r)))
  | _ => None
  end.

(** Modelled from the spec: the Timestamp Normalizer (OpenOA's
    [qa.convert_datetime_column]; not under src/).  Section 4.1: the time
    column is converted to one canonical UTC representation, "replacing the
    raw column in place (conceptually -- a new column/index may be
    produced)", and the operation fails when a value cannot be parsed;
    section 4.2 and the comment in [_drop_duplicates] speak of the time
    column "repointed to an index".  [repoint] chooses between the two. *)
Definition spec_convert (repoint : bool) (df : DataFrame) (time_col local_tz : string)
    (tz_aware : bool) : exn + DataFrame :=
  if has_column time_col df then
    match utc_offset local_tz with
    | None => inl (mkExn OtherError ("unknown time zone " +:+ local_tz))
    | Some offset =>
        match mapM (convert_row repoint time_col offset) (rows df) with
        | None => inl (mkExn ValueError "time data does not match any known format")
        | Some rs =>
            inr (mkDF (if repoint
                       then filter (λ c, c ≠ time_col) (columns df)
                       else columns df) rs)
        end
    end
  else inl (mkExn KeyError time_col).

(** The keys that already occurred, in order of their later occurrences. *)
Fixpoint duplicated {K : Type} `{EqDecision K} (seen l : list K) : list K :=
  match l with
  | [] => []
  | k :: l' =>
      if bool_decide (k ∈ seen) then k :: duplicated seen l'
      else duplicated (k :: seen) l'
  end.

(** How a timestamp prints. *)
Definition render (v : value) : string :=
  match v with
  | VTime t => NilZero.string_of_int (Z.to_int t)
  | _ => "NaT"
  end.

(** A collection of timestamps, as the QA checks return them. *)
Definition time_index (ts : list value) : TimeIndex :=
  mkTimeIndex (PyInt (Z.of_nat (length ts))) (inr (map render ts)).

(** Modelled from the spec: duplicate identification (OpenOA's
    [qa.duplicate_time_identification]; not under src/).  Section 4.2: rows
    "that share an identical (time[, identifier]) key".  It returns the
    timestamps of the rows whose key occurred before, and no separate UTC
    result. *)
Definition spec_duplicates (df : DataFrame) (time_col id_col : string)
    : exn + (TimeIndex * option TimeIndex * option TimeIndex) :=
  if has_column time_col df && has_column id_col df then
    let keys := map (λ r, (get_cell id_col r, get_cell time_col r)) (rows df) in
    inr (time_index (snd <$> duplicated [] keys), None, None)
  else inl (mkExn KeyError time_col).

(** Modelled from the spec: sampling frequencies (section 6 names
    10-minute and 1-hour resolution; section 4.3 a malformed frequency
    string as a failure). *)
Definition freq_seconds (freq : string) : option Z :=
  if decide (freq = "10min") then Some 600
  else if decide (freq = "1h") then Some 3600
  else None.

(** The instants expected between the first and the last one, every
    [step] seconds, that are not there. *)
Definition missing (step : Z) (ts : list Z) : list Z :=
  match ts with
  | [] => []
  | t0 :: _ =>
      let lo := foldr Z.min t0 ts in
      let hi := foldr Z.max t0 ts in
      filter (λ t, t ∉ ts) ((λ i, lo + i * step) <$> seqZ 0 ((hi - lo) `div` step + 1))
  end.

(** Modelled from the spec: gap identification (OpenOA's
    [qa.gap_time_identification]; not under src/).  Section 4.3: "report
    counts of missing timestamps" against "an expected sampling
    frequency". *)
Definition spec_gaps (df : DataFrame) (time_col freq : string)
    : exn + (TimeIndex * option TimeIndex * option TimeIndex) :=
  if has_column time_col df then
    match freq_seconds freq with
    | None => inl (mkExn ValueError ("Invalid frequency: " +:+ freq))
    | Some step =>
        match mapM (λ r, match get_cell time_col r with
                         | VTime t => Some t
                         | _ => None
                         end) (rows df) with
        | None => inl (mkExn TypeError "time column is not a datetime column")
        | Some ts =>
            let gaps := time_index (VTime <$> missing step ts) in
            inr (gaps, None, Some gaps)
        end
    end
  else inl (mkExn KeyError time_col).

(** Modelled from the spec: the Timestamp Normalizer when it produces a new
    column (section 4.1: "a new column/index may be produced").  The raw
    column stays as it is and the UTC instants go to a column of their own;
    its name, the time column's with [_utc] appended, is the model's. *)
Definition spec_convert_column (df : DataFrame) (time_col local_tz : string)
    (tz_aware : bool) : exn + DataFrame :=
  if has_column time_col df then
    match utc_offset local_tz with
    | None => inl (mkExn OtherError ("unknown time zone " +:+ local_tz))
    | Some offset =>
        match mapM (λ r, match get_cell time_col r with
                         | VTime t =>
                             Some (mkRow (label r)
                                     (<[time_col +:+ "_utc" := VTime (t - offset)]>
                                        (cells r)))
                         | _ => None
                         end) (rows df) with
        | None => inl (mkExn ValueError "time data does not match any known format")
        | Some rs =>
            inr (mkDF (if has_column (time_col +:+ "_utc") df
                       then columns df
                       else columns df ++ [time_col +:+ "_utc"]) rs)
        end
    end
  else inl (mkExn KeyError time_col).

(** The library of the spec: the checks above and the two flaggers.  A
    conversion that fails leaves the frame it was given as it was (section
    4.1: "Side effect: none beyond the returned dataset"). *)
Definition spec_lib (repoint na_flag : bool) : OpenOA := {|
  convert_datetime_column := spec_convert repoint;
  convert_datetime_column_leaves := λ df _ _ _, df;
  duplicate_time_identification := spec_duplicates;
  gap_time_identification := spec_gaps;
  range_flag := spec_range_flag na_flag;
  unresponsive_flag := spec_unresponsive_flag
|}.

(** The library of the spec with the normalizer that produces a new
    column; a conversion that fails leaves the frame as it was. *)
Definition spec_lib_column (na_flag : bool) : OpenOA := {|
  convert_datetime_column := spec_convert_column;
  convert_datetime_column_leaves := λ df _ _ _, df;
  duplicate_time_identification := spec_duplicates;
  gap_time_identification := spec_gaps;
  range_flag := spec_range_flag na_flag;
  unresponsive_flag := spec_unresponsive_flag
|}.

(** ** Example frames *)

(** A SCADA row of turbine [id] at instant [t] (seconds) with its power. *)
Definition scada_row (i : Z) (t : Z) (id : string) (power : Z) : Row :=
  mkRow (VNum (Qc_of_Z i))
    (<["Date_time" := VTime t]>
       (<["Wind_turbine_name" := VStr id]>
          (<["P_avg" := VNum (Qc_of_Z power)]> ∅))).

Definition scada_columns : list string := ["Date_time"; "Wind_turbine_name"; "P_avg"].

(** Two turbines reporting at 09:00. *)
Definition two_turbines : DataFrame :=
  mkDF scada_columns [scada_row 0 32400 "T1" 100; scada_row 1 32400 "T2" 200].

(** The scenario of section 8: turbine T1 twice at 09:00, then at 10:00. *)
Definition scenario : DataFrame :=
  mkDF scada_columns
    [scada_row 0 32400 "T1" 100; scada_row 1 32400 "T1" 105; scada_row 2 36000 "T1" 110].

Definition default_names : Names := {|
  scada_time_col := "Date_time";
  scada_id_col := "Wind_turbine_name";
  scada_power_col := "P_avg";
  scada_windspeed_col := "Ws_avg";
  scada_temp_col := "Ot_avg";
  scada_freq := "10min";
  meter_time_col := "time";
  meter_energy_col := "MMTR_SupWh";
  curtail_time_col := "time";
  curtail_avail_col := "IAVL_DnWh";
  curtail_curtail_col := "IAVL_ExtPwrDnWh";
  reanalysis_time_col := "time";
  reanalysis_windspeed_col := "WMETR_HorWdSpd";
  reanalysis_winddir_col := "WMETR_HorWdDir";
  reanalysis_temp_col := "WMETR_EnvTmp"
|}.

(** ** Running a refiner again *)

(** [df.drop(columns=cs)] *)
Definition drop_columns (cs : list string) (d : DataFrame) : DataFrame :=
  mkDF (filter (λ c, c ∉ cs) (columns d))
       (map (λ r, mkRow (label r) (foldr delete (cells r) cs)) (rows d)).

(** Modelled from the spec: a library with the Timestamp Normalizer of
    section 4.1, converting in place and without side effect when it
    fails, and the duplicate identification of section 4.2, whatever its
    gap check and its flaggers are. *)
Definition with_spec_times (lib : OpenOA) : OpenOA := {|
  convert_datetime_column := spec_convert false;
  convert_datetime_column_leaves := λ df _ _ _, df;
  duplicate_time_identification := spec_duplicates;
  gap_time_identification := @gap_time_identification lib;
  range_flag := @range_flag lib;
  unresponsive_flag := @unresponsive_flag lib
|}.

(** The duplicate check on the frame [d] detected nothing: both counts of
    the report are 0 and there is no error.  When [d] lacks the time or
    the identifier column the check of the spec raises, and the report has
    its error and no count. *)
Definition no_duplicates_detected (tc idc : string) (d : DataFrame)
    (rep : gmap string rval) : Prop :=
  if has_column tc d && has_column idc d then
    rep !! "duplicate_original_count" = Some (RInt 0) ∧
    rep !! "duplicate_utc_count" = Some (RInt 0) ∧
    rep !! "duplicate_check_error" = None
  else
    rep !! "duplicate_original_count" = None ∧
    rep !! "duplicate_utc_count" = None ∧
    is_Some (rep !! "duplicate_check_error").

(** The refiner returns on [df], and run again on the frame [d1] it
    returned, any columns [cs] but the time column removed, it returns
    again: no row is dropped, no duplicate is detected, and the second
    frame has as many rows as [d1]. *)
Definition rerun_is_clean (refiner : DataFrame → exn + (DataFrame * gmap string rval))
    (tc idc : string) (df : DataFrame) : Prop :=
  ∃ d1 rep1, refiner df = inr (d1, rep1) ∧
    ∀ cs, tc ∉ cs →
      ∃ d2 rep2, refiner (drop_columns cs d1) = inr (d2, rep2) ∧
        rep2 !! "rows_dropped_duplicates" = Some (RInt 0) ∧
        no_duplicates_detected tc idc (drop_columns cs d1) rep2 ∧
        len d2 = len d1.

(** ** Sample runs *)

(** A call returned, and what it returned passes the test. *)
Definition returned {A : Type} (r : exn + A) (test : A → bool) : bool :=
  match r with
  | inr a => test a
  | inl _ => false
  end.

(** A sensor stuck at 5 for three samples, then at 7 for two. *)
Definition stuck_sensor : list value :=
  VNum ∘ Qc_of_Z <$> [5; 5; 5; 7; 7].

(** Power readings: one inside the bounds, one above, one below. *)
Definition power_readings : list value :=
  VNum ∘ Qc_of_Z <$> [100; 3000; -50].

Definition appended_flags : list string := ["flag_power_range"; "flag_power_unresponsive"].

(** The scenario of section 8 refined, the flag columns removed, and
    refined again. *)
Definition refined_twice : exn + (DataFrame * gmap string rval) :=
  out ← @scada_call (spec_lib false false) default_names "UTC" scenario;
  @scada_call (spec_lib false false) default_names "UTC" (drop_columns appended_flags out.1).

(** ** Further specifications of the refiners *)

(** The rows of the frame handed over by the conversion step are all
    accounted for: those dropped as duplicates and those returned. *)
Definition rows_accounted `{OpenOA} (df : DataFrame) (tz tc : string)
    (res : exn + (DataFrame * gmap string rval)) : Prop :=
  ∃ d rep dropped, res = inr (d, rep) ∧
    rep !! "rows_dropped_duplicates" = Some (RInt dropped) ∧
    rep !! "final_row_count" = Some (RInt (len d)) ∧
    0 ≤ dropped ∧ dropped + len d = len (handed_over df tc tz).

(** What the report says of the conversion step, whichever way it went. *)
Definition conversion_reported `{OpenOA} (df : DataFrame) (tz tc : string)
    (rep : gmap string rval) : Prop :=
  match convert_datetime_column (df_copy df) tc tz false with
  | inr _ =>
      rep !! "datetime_converted" = Some (RBool true) ∧
      rep !! "datetime_error" = None
  | inl e =>
      rep !! "datetime_converted" = Some (RBool false) ∧
      rep !! "datetime_error" = Some (RStr (str e))
  end.

(** What the report says of the duplicate check: the error alone when the
    check raised, the two counts alone when it returned sizes [int()]
    accepts. *)
Definition duplicates_reported `{OpenOA} (df : DataFrame) (tz tc idc : string)
    (rep : gmap string rval) : Prop :=
  match duplicate_time_identification (handed_over df tc tz) tc idc with
  | inl e =>
      rep !! "duplicate_check_error" = Some (RStr (str e)) ∧
      rep !! "duplicate_original_count" = None ∧
      rep !! "duplicate_utc_count" = None
  | inr (orig, _, utc) =>
      ∀ n m, _safe_int (size orig) = inr n → _safe_int (size_or_zero utc) = inr m →
        rep !! "duplicate_original_count" = Some (RInt n) ∧
        rep !! "duplicate_utc_count" = Some (RInt m) ∧
        rep !! "duplicate_check_error" = None
  end.

(** What the report says of the listing of the missing timestamps.  [utc]
    is the UTC result of the gap check when the refiner lists them and
    [None] when it does not. *)
Definition timestamps_reported (utc : option TimeIndex) (rep : gmap string rval) : Prop :=
  match utc with
  | None =>
      rep !! "time_gap_timestamps_utc" = None ∧ rep !! "gap_check_error" = None
  | Some t =>
      match py_gt0 (size t) with
      | inr false =>
          rep !! "time_gap_timestamps_utc" = None ∧ rep !! "gap_check_error" = None
      | inr true =>
          match astype_str t with
          | inr l =>
              rep !! "time_gap_timestamps_utc" = Some (RList l) ∧
              rep !! "gap_check_error" = None
          | inl e =>
              rep !! "time_gap_timestamps_utc" = None ∧
              rep !! "gap_check_error" = Some (RStr (str e))
          end
      | inl e =>
          rep !! "time_gap_timestamps_utc" = None ∧
          rep !! "gap_check_error" = Some (RStr (str e))
      end
  end.

(** The report a returning gap check leaves, by what the listing does. *)
Definition listed (utc : option TimeIndex) (rep : gmap string rval) : gmap string rval :=
  match utc with
  | None => rep
  | Some t =>
      match py_gt0 (size t) with
      | inr false => rep
      | inr true =>
          match astype_str t with
          | inr l => <["time_gap_timestamps_utc" := RList l]> rep
          | inl e => <["gap_check_error" := RStr (str e)]> rep
          end
      | inl e => <["gap_check_error" := RStr (str e)]> rep
      end
  end.

(** What the report says of the gap check, which runs on the deduplicated
    frame. *)
Definition gaps_reported `{OpenOA} (df : DataFrame) (tz tc freq : string)
    (list_timestamps : bool) (rep : gmap string rval) : Prop :=
  match gap_time_identification (deduplicated df tc tz) tc freq with
  | inl e =>
      rep !! "gap_check_error" = Some (RStr (str e)) ∧
      rep !! "time_gaps_original_count" = None ∧
      rep !! "time_gaps_utc_count" = None ∧
      rep !! "time_gap_timestamps_utc" = None
  | inr (orig, _, utc) =>
      ∀ n m, _safe_int (size orig) = inr n → _safe_int (size_or_zero utc) = inr m →
        rep !! "time_gaps_original_count" = Some (RInt n) ∧
        rep !! "time_gaps_utc_count" = Some (RInt m) ∧
        timestamps_reported (if list_timestamps then utc else None) rep
  end.

Definition checks_reported `{OpenOA} (df : DataFrame) (tz tc idc freq : string)
    (list_timestamps : bool) (res : exn + (DataFrame * gmap string rval)) : Prop :=
  ∃ d rep, res = inr (d, rep) ∧
    conversion_reported df tz tc rep ∧
    duplicates_reported df tz tc idc rep ∧
    gaps_reported df tz tc freq list_timestamps rep.

(** The outcome of a row of a flag table on the frame [d0] the flags are
    computed on: nothing when the data column is missing, the error alone
    when the check raised, the count alone and the flag column when it
    returned. *)
Definition flag_outcome `{OpenOA} (f : flag_row) (d0 d : DataFrame)
    (rep : gmap string rval) : Prop :=
  if has_column (f_col f) d0 then
    match run_check (f_check f) (column (f_col f) d0) with
    | inl e =>
        rep !! f_error_key f = Some (RStr (str e)) ∧
        rep !! f_count_key f = None
    | inr flags =>
        rep !! f_count_key f = Some (RInt (count_true (f_name f) d)) ∧
        rep !! f_error_key f = None ∧
        column (f_name f) d = flag_values (length (rows d0)) flags
    end
  else
    rep !! f_count_key f = None ∧ rep !! f_error_key f = None.

Definition flags_settled `{OpenOA} (T : list flag_row) (d0 : DataFrame)
    (res : exn + (DataFrame * gmap string rval)) : Prop :=
  ∃ d rep, res = inr (d, rep) ∧
    ∀ f, f ∈ T → f_col f ∉ names T → flag_outcome f d0 d rep.

(** The flag columns whose count is in the report, in table order. *)
Definition appended (T : list flag_row) (rep : gmap string rval) : list string :=
  f_name <$> filter (λ f, is_Some (rep !! f_count_key f)) T.

(** The columns of the returned frame: those of [d0], then the appended
    flag columns that [d0] did not have. *)
Definition columns_appended (T : list flag_row) (d0 : DataFrame)
    (res : exn + (DataFrame * gmap string rval)) : Prop :=
  ∃ d rep, res = inr (d, rep) ∧
    columns d = (columns d0 ++ filter (λ c, c ∉ columns d0) (appended T rep))%list.

Definition same_flag_cols : relation St := λ s s', st_flag_cols s' = st_flag_cols s.

(** The report has no key outside [K]. *)
Definition only_keys (K : list string)
    (res : exn + (DataFrame * gmap string rval)) : Prop :=
  ∃ d rep, res = inr (d, rep) ∧ ∀ k, is_Some (rep !! k) → k ∈ K.

(** The keys the opening checks write when the missing timestamps are not
    listed. *)
Definition quiet_time_keys : list string :=
  [ "datetime_converted"; "datetime_error";
    "duplicate_original_count"; "duplicate_utc_count"; "duplicate_check_error";
    "rows_dropped_duplicates";
    "time_gaps_original_count"; "time_gaps_utc_count"; "gap_check_error" ].

(** What [refine_asset] reports of the identifiers, and of the rows. *)
Definition asset_ids_counted (df : DataFrame)
    (res : exn + (DataFrame * gmap string rval)) : Prop :=
  ∃ d rep, res = inr (d, rep) ∧
    rep !! "missing_asset_id_count" =
      (if has_column "asset_id" df then Some (RInt (count_na "asset_id" df)) else None) ∧
    len d = len df ∧
    rep !! "final_row_count" = Some (RInt (len df)).

(** * The web layer ([Backend/app.py], [Backend/utils/plant_data.py]) *)

(** [HTTPException(status_code=..., detail=...)] *)
Record HTTPException : Type := mkHTTP { status_code : Z; detail : string }.

#[global] Instance H_ret : MRet (sum HTTPException) := λ A a, inr a.

#[global] Instance H_bind : MBind (sum HTTPException) := λ A B f m,
  match m with
  | inr a => f a
  | inl e => inl e
  end.

(** An uploaded file: its name and what [pd.read_csv] makes of its
    bytes. *)
Record UploadFile : Type := mkUpload {
  filename : string;
  read_csv : exn + DataFrame
}.

(** [_parse_csv] *)
Definition _parse_csv (file : UploadFile) (key : string) : HTTPException + DataFrame :=
  match read_csv file with
  | inr df => inr df
  | inl e =>
      inl (mkHTTP 400
             ("[" +:+ key +:+ "] Cannot parse '" +:+ filename file +:+ "': " +:+ str e))
  end.

(** [_parse_csv(file, key) if file else None] *)
Definition parse_optional (file : option UploadFile) (key : string)
    : HTTPException + option DataFrame :=
  match file with
  | Some f => df ← _parse_csv f key; mret (Some df)
  | None => mret None
  end.

(** ** [plant_data.py] *)

(** The keyword arguments of the column maps. *)
Definition scada_metadata : list (string * string) :=
  [ ("time", "time"); ("asset_id", "asset_id"); ("WTUR_W", "WTUR_W");
    ("WMET_HorWdSpd", "WMET_HorWdSpd"); ("WMET_HorWdDir", "WMET_HorWdDir");
    ("WMET_HorWdDirRel", "WMET_HorWdDirRel"); ("WTUR_TurSt", "WTUR_TurSt");
    ("WROT_BlPthAngVal", "WROT_BlPthAngVal"); ("WMET_EnvTmp", "WMET_EnvTmp");
    ("frequency", "10min") ].

Definition meter_metadata : list (string * string) :=
  [ ("time", "time"); ("MMTR_SupWh", "MMTR_SupWh"); ("frequency", "10min") ].

Definition tower_metadata : list (string * string) :=
  [ ("time", "time"); ("asset_id", "asset_id"); ("WMET_HorWdSpd", "WMET_HorWdSpd");
    ("WMET_HorWdDir", "WMET_HorWdDir"); ("WMET_EnvTmp", "WMET_EnvTmp");
    ("frequency", "10min") ].

Definition curtail_metadata : list (string * string) :=
  [ ("time", "time"); ("IAVL_ExtPwrDnWh", "IAVL_ExtPwrDnWh"); ("IAVL_DnWh", "IAVL_DnWh");
    ("frequency", "10min") ].

Definition status_metadata : list (string * string) :=
  [ ("time", "time"); ("asset_id", "asset_id"); ("status_id", "status_id");
    ("status_code", "status_code"); ("status_text", "status_text");
    ("frequency", "10min") ].

Definition asset_metadata : list (string * string) :=
  [ ("asset_id", "asset_id"); ("latitude", "latitude"); ("longitude", "longitude");
    ("rated_power", "rated_power"); ("hub_height", "hub_height");
    ("rotor_diameter", "rotor_diameter"); ("elevation", "elevation"); ("type", "type") ].

Definition reanalysis_metadata : list (string * string) :=
  [ ("time", "time"); ("WMETR_HorWdSpd", "WMETR_HorWdSpd");
    ("WMETR_HorWdSpdU", "WMETR_HorWdSpdU"); ("WMETR_HorWdSpdV", "WMETR_HorWdSpdV");
    ("WMETR_HorWdDir", "WMETR_HorWdDir"); ("WMETR_EnvTmp", "WMETR_EnvTmp");
    ("WMETR_AirDen", "WMETR_AirDen"); ("WMETR_EnvPres", "surface_pressure");
    ("frequency", "10min") ].

(** The keyword arguments of [PlantMetaData(...)]. *)
Record MetaDataArgs : Type := mkMetaDataArgs {
  md_latitude : pyobj;
  md_longitude : pyobj;
  md_name : string;
  md_utm_zone : string;
  md_scada : list (string * string);
  md_meter : list (string * string);
  md_tower : list (string * string);
  md_curtail : list (string * string);
  md_status : list (string * string);
  md_asset : list (string * string);
  md_reanalysis : list (string * string)
}.

(** The keyword arguments of [PlantData(...)] but the metadata. *)
Record PlantArgs : Type := mkPlantArgs {
  pa_analysis_type : option string;
  pa_scada : UploadFile;
  pa_meter : option UploadFile;
  pa_tower : option UploadFile;
  pa_curtail : option UploadFile;
  pa_status : option UploadFile;
  pa_asset : option UploadFile;
  pa_reanalysis : gmap string DataFrame
}.

(** OpenOA's plant objects ([openoa.plant], [openoa.schema]); their code is
    not part of the repository, each call may raise. *)
Class PlantLibrary : Type := {
  PlantMetaData : Type;
  PlantData : Type;
  (** [PlantMetaData(latitude=..., ..., reanalysis=...)] *)
  new_metadata : MetaDataArgs → exn + PlantMetaData;
  (** [PlantData(metadata=..., analysis_type=..., scada=..., ...)] *)
  new_plant : PlantMetaData → PlantArgs → exn + PlantData;
  (** [plant.validate(metadata)]: the plant as the call leaves it *)
  validate : PlantData → PlantMetaData → exn + PlantData;
  (** [plant.update_column_names(to_original=...)]: the plant as the call
      leaves it *)
  update_column_names : PlantData → bool → exn + PlantData
}.

Section PlantData.
Context `{PlantLibrary}.

(** [get_plant_metadata]: the time zone goes in as [utm_zone]. *)
Definition get_plant_metadata (latitude longitude : pyobj) (name time_zone : string)
    : exn + PlantMetaData :=
  new_metadata
    (mkMetaDataArgs latitude longitude name time_zone
       scada_metadata meter_metadata tower_metadata curtail_metadata
       status_metadata asset_metadata reanalysis_metadata).

(** What [plant_data] returns: the plant, or the exception its validation
    raised ([except Exception as ValueError: ... return ValueError]). *)
Inductive plant_value : Type :=
  | Plant (p : PlantData)
  | Raised (e : exn).

(** [plant_data] *)
Definition plant_data (latitude longitude : pyobj) (name time_zone : string)
    (args : PlantArgs) : exn + plant_value :=
  metadata ← get_plant_metadata latitude longitude name time_zone;
  plant ← new_plant metadata args;
  match (metadata ← get_plant_metadata latitude longitude name time_zone;
         validate plant metadata) with
  | inl e => inr (Raised e)
  | inr plant =>
      plant ← update_column_names plant true;
      inr (Plant plant)
  end.

(** ** The session store and [upload_and_refine] *)

(** What a session holds under its keys. *)
Inductive session_value : Type :=
  | SPlant (p : plant_value)
  | SFrames (e : entry DataFrame).

Definition Session : Type := gmap string session_value.

(** [_SESSION_STORE] *)
Definition Store : Type := gmap string Session.

End PlantData.

(** The form fields of [upload_and_refine]: the plant and the column
    names. *)
Record Form : Type := mkForm {
  form_name : string;
  form_latitude : pyobj;
  form_longitude : pyobj;
  form_capacity_mw : pyobj;
  form_local_tz : string;
  form_analysis_type : option string;
  form_columns : Names
}.

(** The files of [upload_and_refine]. *)
Record Files : Type := mkFiles {
  file_scada : UploadFile;
  file_meter : option UploadFile;
  file_tower : option UploadFile;
  file_status : option UploadFile;
  file_curtail : option UploadFile;
  file_asset : option UploadFile;
  file_reanalysis_era5 : option UploadFile;
  file_reanalysis_merra2 : option UploadFile
}.

(** The frames of step 1. *)
Record Parsed : Type := mkParsed {
  scada_frame : DataFrame;
  meter_frame : option DataFrame;
  tower_frame : option DataFrame;
  curtail_frame : option DataFrame;
  status_frame : option DataFrame;
  asset_frame : option DataFrame;
  era5_frame : option DataFrame;
  merra2_frame : option DataFrame
}.

(** Step 1: parse the CSVs, in the order of the source. *)
Definition parse_files (files : Files) : HTTPException + Parsed :=
  scada_df ← _parse_csv (file_scada files) "scada";
  meter_df ← parse_optional (file_meter files) "meter";
  tower_df ← parse_optional (file_tower files) "tower";
  curtail_df ← parse_optional (file_curtail files) "curtail";
  status_df ← parse_optional (file_status files) "status";
  asset_df ← parse_optional (file_asset files) "asset";
  era5_df ← parse_optional (file_reanalysis_era5 files) "reanalysis_era5";
  merra2_df ← parse_optional (file_reanalysis_merra2 files) "reanalysis_merra2";
  mret (mkParsed scada_df meter_df tower_df curtail_df status_df asset_df era5_df merra2_df).

(** [reanalysis_dfs = {}] and its two conditional entries. *)
Definition reanalysis_dict (p : Parsed) : gmap string DataFrame :=
  let reanalysis_dfs : gmap string DataFrame := ∅ in
  let reanalysis_dfs :=
    match era5_frame p with
    | Some df => <["era5" := df]> reanalysis_dfs
    | None => reanalysis_dfs
    end in
  match merra2_frame p with
  | Some df => <["merra2" := df]> reanalysis_dfs
  | None => reanalysis_dfs
  end.

(** [reanalysis_dfs or None] *)
Definition or_none (reanalysis_dfs : gmap string DataFrame)
    : option (gmap string (option DataFrame)) :=
  if decide (reanalysis_dfs = ∅) then None else Some (Some <$> reanalysis_dfs).

(** The column names [refine_all] gets: those of the form, and the default
    SCADA frequency, which the call does not pass. *)
Definition call_names (n : Names) : Names :=
  mkNames (scada_time_col n) (scada_id_col n) (scada_power_col n)
    (scada_windspeed_col n) (scada_temp_col n) default_freq
    (meter_time_col n) (meter_energy_col n)
    (curtail_time_col n) (curtail_avail_col n) (curtail_curtail_col n)
    (reanalysis_time_col n) (reanalysis_windspeed_col n)
    (reanalysis_winddir_col n) (reanalysis_temp_col n).

(** Step 2: the call of [refine_all]. *)
Definition refine_uploaded `{OpenOA} (form : Form) (p : Parsed) : exn + RefineResult :=
  refine_all (scada_frame p) (form_local_tz form) (call_names (form_columns form))
    (meter_frame p) (curtail_frame p) (asset_frame p) (or_none (reanalysis_dict p)).

(** Step 3: the call of [plant_data], on the uploads themselves. *)
Definition build_plant `{PlantLibrary} (form : Form) (files : Files) (p : Parsed)
    : exn + plant_value :=
  plant_data (form_latitude form) (form_longitude form) (form_name form)
    (form_local_tz form)
    (mkPlantArgs (form_analysis_type form) (file_scada files) (file_meter files)
       (file_tower files) (file_curtail files) (file_status files) (file_asset files)
       (reanalysis_dict p)).

(** The ["plant"] entry of the response. *)
Record PlantInfo : Type := mkPlantInfo {
  info_name : string;
  info_latitude : pyobj;
  info_longitude : pyobj;
  info_capacity_mw : pyobj;
  info_local_tz : string
}.

(** The response of [upload_and_refine]. *)
Record UploadResponse : Type := mkResponse {
  resp_status : string;
  resp_session_id : string;
  resp_plant : PlantInfo;
  resp_datasets_received : gmap string bool;
  resp_qa_report : gmap string (entry (gmap string rval))
}.

(** How a request ends: a response, an [HTTPException], or an exception
    nothing catches. *)
Inductive outcome (A : Type) : Type :=
  | Ok (a : A)
  | Http (e : HTTPException)
  | Uncaught (e : exn).
Arguments Ok {A} a.
Arguments Http {A} e.
Arguments Uncaught {A} e.

(** [x is not None] *)
Definition is_not_None {A : Type} (x : option A) : bool :=
  match x with Some _ => true | None => false end.

Definition datasets_received (p : Parsed) : gmap string bool :=
  <["reanalysis_merra2" := is_not_None (merra2_frame p)]>
    (<["reanalysis_era5" := is_not_None (era5_frame p)]>
       (<["asset" := is_not_None (asset_frame p)]>
          (<["curtail" := is_not_None (curtail_frame p)]>
             (<["meter" := is_not_None (meter_frame p)]>
                (<["scada" := true]> ∅))))).

(** [upload_and_refine]; [uuid4] is what [str(uuid.uuid4())] gives. *)
Definition upload_and_refine `{OpenOA} `{PlantLibrary} (form : Form) (files : Files)
    (uuid4 : string) (store : Store) : outcome UploadResponse * Store :=
  match parse_files files with
  | inl h => (Http h, store)
  | inr p =>
      match refine_uploaded form p with
      | inl e => (Http (mkHTTP 500 ("Refinement failed: " +:+ str e)), store)
      | inr result =>
          match build_plant form files p with
          | inl e =>
              (Http (mkHTTP 500 ("PlantData construction failed: " +:+ str e)), store)
          | inr plant_obj =>
              let session_id := uuid4 in
              match dataframes result !! "reanalysis" with
              | None => (Uncaught (mkExn KeyError "'reanalysis'"), store)
              | Some frames =>
                  (Ok (mkResponse "success" session_id
                         (mkPlantInfo (form_name form) (form_latitude form)
                            (form_longitude form) (form_capacity_mw form)
                            (form_local_tz form))
                         (datasets_received p)
                         (qa_report result)),
                   <[session_id := <["reanalysis" := SFrames frames]>
                                     (<["plant" := SPlant plant_obj]> ∅)]> store)
              end
          end
      end
  end.

(** The files a request supplies with their keys, in the order they are
    parsed. *)
Definition supplied (files : Files) : list (string * UploadFile) :=
  ([("scada", file_scada files)] ++
   (("meter",.) <$> option_list (file_meter files)) ++
   (("tower",.) <$> option_list (file_tower files)) ++
   (("curtail",.) <$> option_list (file_curtail files)) ++
   (("status",.) <$> option_list (file_status files)) ++
   (("asset",.) <$> option_list (file_asset files)) ++
   (("reanalysis_era5",.) <$> option_list (file_reanalysis_era5 files)) ++
   (("reanalysis_merra2",.) <$> option_list (file_reanalysis_merra2 files)))%list.

(** The exception [_parse_csv] raises for the file [file] under [key] when
    [pd.read_csv] raised [e]. *)
Definition parse_error (key : string) (file : UploadFile) (e : exn) : HTTPException :=
  mkHTTP 400 ("[" +:+ key +:+ "] Cannot parse '" +:+ filename file +:+ "': " +:+ str e).

(** The files of a list parse up to the first that does not. *)
Fixpoint first_failure (l : list (string * UploadFile)) : option HTTPException :=
  match l with
  | [] => None
  | (key, file) :: l' =>
      match read_csv file with
      | inl e => Some (parse_error key file e)
      | inr _ => first_failure l'
      end
  end.

(** * Reasoning about refiners *)

(** ** Inversion of the monad operations *)

Lemma bind_inv {A B : Type} (m : M A) (f : A → M B) s r s' :
  (m ≫= f) s = (r, s') →
  (∃ a s1, m s = (inr a, s1) ∧ f a s1 = (r, s')) ∨
  (∃ e, m s = (inl e, s') ∧ r = inl e).
Proof.
  unfold mbind, M_bind. destruct (m s) as [[e|a] s1]; intros Heq.
  - right. exists e. by simplify_eq.
  - left. by exists a, s1.
Qed.

Lemma try_except_inv {A : Type} (body : M A) (handler : exn → M A) s r s' :
  try_except body handler s = (r, s') →
  (∃ a, body s = (inr a, s') ∧ r = inr a) ∨
  (∃ e s1, body s = (inl e, s1) ∧ handler e s1 = (r, s')).
Proof.
  unfold try_except. destruct (body s) as [[e|a] s1]; intros Heq.
  - right. by exists e, s1.
  - left. exists a. by simplify_eq.
Qed.

(** ** Computations that never raise *)

Lemma safe_ret {A : Type} (a : A) : safe (mret a).
Proof. intros s. by exists a, s. Qed.

Lemma safe_bind {A B : Type} (m : M A) (f : A → M B) :
  safe m → (∀ a, safe (f a)) → safe (m ≫= f).
Proof.
  intros Hm Hf s. destruct (Hm s) as (a & s1 & Heq).
  destruct (Hf a s1) as (b & s2 & Heq2). exists b, s2.
  unfold mbind, M_bind. by rewrite Heq.
Qed.

Lemma safe_try_except {A : Type} (body : M A) (handler : exn → M A) :
  (∀ e, safe (handler e)) → safe (try_except body handler).
Proof.
  intros Hh s. unfold try_except.
  destruct (body s) as [[e|a] s1]; [apply Hh | by exists a, s1].
Qed.

Lemma safe_get_df : safe get_df.
Proof. intros s. by eexists _, _. Qed.

Lemma safe_set_df d : safe (set_df d).
Proof. intros s. by eexists _, _. Qed.

Lemma safe_report_set key v : safe (report_set key v).
Proof. intros s. by eexists _, _. Qed.

Lemma safe_get_flag_cols : safe get_flag_cols.
Proof. intros s. by eexists _, _. Qed.

Lemma safe_when c body : safe body → safe (when c body).
Proof. destruct c; [done | intros _; apply safe_ret]. Qed.

Lemma safe_for_each {A : Type} (xs : list A) (body : A → M unit) :
  (∀ x, safe (body x)) → safe (for_each xs body).
Proof.
  intros Hb. induction xs as [|x xs IH]; simpl; [apply safe_ret |].
  apply safe_bind; [apply Hb | by intros _].
Qed.

Create HintDb safe.

#[local] Hint Resolve safe_ret safe_get_df safe_set_df safe_report_set
  safe_get_flag_cols safe_when safe_for_each safe_try_except : safe.

Ltac solve_safe :=
  repeat first
    [ progress intros
    | match goal with p : _ * _ |- _ => destruct p end
    | apply safe_bind
    | solve [eauto with safe]
    | apply safe_try_except
    | apply safe_when
    | apply safe_for_each ].

Section Safety.
Context `{OpenOA}.

Lemma safe_convert_step time_col local_tz : safe (convert_step time_col local_tz).
Proof. unfold convert_step. solve_safe. Qed.

Lemma safe_duplicate_step time_col id_col : safe (duplicate_step time_col id_col).
Proof. unfold duplicate_step. solve_safe. Qed.

Lemma safe_drop_step time_col : safe (drop_step time_col).
Proof. unfold drop_step. solve_safe. Qed.

Lemma safe_gap_step time_col freq b : safe (gap_step time_col freq b).
Proof. unfold gap_step. solve_safe. Qed.

Lemma safe_flag_step flagger col fname ck ek b :
  safe (flag_step flagger col fname ck ek b).
Proof. unfold flag_step. solve_safe. Qed.

Lemma safe_range_step col rng fname ck ek b :
  safe (range_step col rng fname ck ek b).
Proof. apply safe_flag_step. Qed.

Lemma safe_unresponsive_step col t fname ck ek b :
  safe (unresponsive_step col t fname ck ek b).
Proof. apply safe_flag_step. Qed.

Lemma safe_final_step : safe final_step.
Proof. unfold final_step. solve_safe. Qed.

Lemma safe_missing_id_step : safe missing_id_step.
Proof. unfold missing_id_step. solve_safe. Qed.

End Safety.

#[local] Hint Resolve safe_convert_step safe_duplicate_step safe_drop_step
  safe_gap_step safe_flag_step safe_range_step safe_unresponsive_step
  safe_final_step safe_missing_id_step : safe.

(** A refiner whose body never raises returns its final dataframe and
    report. *)
Lemma run_refiner_safe df body :
  safe body →
  ∃ s, body (mkSt (df_copy df) ∅ []) = (inr tt, s) ∧
       run_refiner df body = inr (st_df s, st_report s).
Proof.
  intros Hs. destruct (Hs (mkSt (df_copy df) ∅ [])) as ([] & s & Heq).
  exists s. split; [done |]. unfold run_refiner. by rewrite Heq.
Qed.

(** Sequencing after a step that never raises. *)
Lemma seq_safe_inv {B : Type} (m : M unit) (k : M B) s r s' :
  safe m → (m ;; k) s = (r, s') →
  ∃ s1, m s = (inr tt, s1) ∧ k s1 = (r, s').
Proof.
  intros Hs Heq. destruct (Hs s) as ([] & s1 & Hm).
  exists s1. split; [done |].
  unfold mbind, M_bind in Heq. by rewrite Hm in Heq.
Qed.

(** ** Relations between the state before and after a computation *)

Section StRel.
Context (R : relation St) `{!PreOrder R}.

Lemma st_rel_ret {A : Type} (a : A) : st_rel R (mret a).
Proof. intros s r s' [= <- <-]. reflexivity. Qed.

Lemma st_rel_call {A : Type} (x : exn + A) : st_rel R (call x).
Proof. intros s r s' [= <- <-]. reflexivity. Qed.

Lemma st_rel_get_df : st_rel R get_df.
Proof. intros s r s' [= <- <-]. reflexivity. Qed.

Lemma st_rel_get_flag_cols : st_rel R get_flag_cols.
Proof. intros s r s' [= <- <-]. reflexivity. Qed.

Lemma st_rel_bind {A B : Type} (m : M A) (f : A → M B) :
  st_rel R m → (∀ a, st_rel R (f a)) → st_rel R (m ≫= f).
Proof.
  intros Hm Hf s r s' Heq.
  destruct (bind_inv _ _ _ _ _ Heq) as [(a & s1 & H1 & H2)|(e & H1 & _)].
  - transitivity s1; [by eapply Hm | by eapply Hf].
  - by eapply Hm.
Qed.

Lemma st_rel_try_except {A : Type} (body : M A) (handler : exn → M A) :
  st_rel R body → (∀ e, st_rel R (handler e)) → st_rel R (try_except body handler).
Proof.
  intros Hb Hh s r s' Heq.
  destruct (try_except_inv _ _ _ _ _ Heq) as [(a & H1 & _)|(e & s1 & H1 & H2)].
  - by eapply Hb.
  - transitivity s1; [by eapply Hb | by eapply Hh].
Qed.

Lemma st_rel_when c body : st_rel R body → st_rel R (when c body).
Proof. destruct c; [done | intros _; apply st_rel_ret]. Qed.

Lemma st_rel_for_each {A : Type} (xs : list A) (body : A → M unit) :
  (∀ x, st_rel R (body x)) → st_rel R (for_each xs body).
Proof.
  intros Hb. induction xs as [|x xs IH]; simpl; [apply st_rel_ret |].
  apply st_rel_bind; [apply Hb | by intros _].
Qed.

End StRel.

(** Structural descent through a computation; the leaves that change the
    state are left to the caller. *)
Ltac st_rel_descend :=
  repeat first
    [ progress intros
    | match goal with |- PreOrder _ => apply _ end
    | match goal with p : _ * _ |- _ => destruct p end
    | apply st_rel_bind
    | apply st_rel_try_except
    | apply st_rel_when
    | apply st_rel_for_each
    | apply st_rel_ret
    | apply st_rel_call
    | apply st_rel_get_df
    | apply st_rel_get_flag_cols
    | match goal with |- st_rel _ (match ?x with _ => _ end) => destruct x end ].

(** *** The dataframe is left alone *)

#[local] Instance same_df_preorder : PreOrder same_df.
Proof. split; [by intros s | intros s1 s2 s3 H1 H2; unfold same_df in *; congruence]. Qed.

Lemma same_df_report_set key v : st_rel same_df (report_set key v).
Proof. by intros s r s' [= <- <-]. Qed.

Lemma same_df_flag_cols_append fname : st_rel same_df (flag_cols_append fname).
Proof. by intros s r s' [= <- <-]. Qed.

(** *** Only the report keys in [K] are written *)

#[local] Instance writes_preorder K : PreOrder (writes K).
Proof.
  split; [by intros s k _ |].
  intros s1 s2 s3 H1 H2 k Hk. by rewrite H2, H1.
Qed.

Lemma writes_report_set K key v : key ∈ K → st_rel (writes K) (report_set key v).
Proof.
  intros Hin s r s' [= <- <-] k Hk. simpl.
  apply lookup_insert_ne. by intros ->.
Qed.

Lemma writes_set_df K d : st_rel (writes K) (set_df d).
Proof. by intros s r s' [= <- <-] k Hk. Qed.

Lemma writes_flag_cols_append K fname : st_rel (writes K) (flag_cols_append fname).
Proof. by intros s r s' [= <- <-] k Hk. Qed.

Lemma writes_call_writing {A : Type} K (x : exn + A) left :
  st_rel (writes K) (call_writing x left).
Proof. intros s r s'. unfold call_writing. by destruct x; intros [= <- <-] k Hk. Qed.

(** Membership of a concrete key in a concrete key list, and its negation. *)
Ltac solve_key_in := apply (bool_decide_unpack _); vm_compute; exact I.
Ltac solve_key_out := apply (bool_decide_unpack _); vm_compute; exact I.

Ltac solve_writes :=
  st_rel_descend;
  first [ apply writes_set_df | apply writes_flag_cols_append
        | apply writes_call_writing
        | apply writes_report_set; solve_key_in ].

Section StepFrames.
Context `{OpenOA}.

Lemma same_df_duplicate_step time_col id_col :
  st_rel same_df (duplicate_step time_col id_col).
Proof. unfold duplicate_step. st_rel_descend; apply same_df_report_set. Qed.

Lemma same_df_gap_step time_col freq b : st_rel same_df (gap_step time_col freq b).
Proof.
  unfold gap_step, gap_timestamps. st_rel_descend; apply same_df_report_set.
Qed.

Lemma same_df_final_step : st_rel same_df final_step.
Proof. unfold final_step. st_rel_descend; apply same_df_report_set. Qed.

Lemma same_df_missing_id_step : st_rel same_df missing_id_step.
Proof. unfold missing_id_step. st_rel_descend; apply same_df_report_set. Qed.

Lemma writes_convert_step time_col local_tz :
  st_rel (writes convert_keys) (convert_step time_col local_tz).
Proof. unfold convert_step. solve_writes. Qed.

Lemma writes_duplicate_step time_col id_col :
  st_rel (writes duplicate_keys) (duplicate_step time_col id_col).
Proof. unfold duplicate_step. solve_writes. Qed.

Lemma writes_drop_step time_col :
  st_rel (writes ["rows_dropped_duplicates"]) (drop_step time_col).
Proof. unfold drop_step. solve_writes. Qed.

Lemma writes_gap_step time_col freq b :
  st_rel (writes gap_keys) (gap_step time_col freq b).
Proof. unfold gap_step, gap_timestamps. solve_writes. Qed.

Lemma writes_flag_step flagger col fname ck ek b :
  st_rel (writes [ck; ek]) (flag_step flagger col fname ck ek b).
Proof.
  unfold flag_step. st_rel_descend;
    first [ apply writes_set_df | apply writes_flag_cols_append
          | apply writes_report_set; set_solver ].
Qed.

Lemma writes_final_step : st_rel (writes ["final_row_count"]) final_step.
Proof. unfold final_step. solve_writes. Qed.

End StepFrames.

(** ** What each step does to the state *)

Section StepEquations.
Context `{OpenOA}.

Lemma convert_step_eq time_col local_tz s :
  convert_step time_col local_tz s =
  (inr tt,
   match convert_datetime_column (st_df s) time_col local_tz false with
   | inr d =>
       mkSt d (<["datetime_converted" := RBool true]> (st_report s)) (st_flag_cols s)
   | inl e =>
       mkSt (convert_datetime_column_leaves (st_df s) time_col local_tz false)
         (<["datetime_error" := RStr (str e)]>
            (<["datetime_converted" := RBool false]> (st_report s)))
         (st_flag_cols s)
   end).
Proof.
  unfold convert_step, try_except, mbind, M_bind, get_df, call_writing, set_df, report_set.
  by destruct (convert_datetime_column _ _ _ _).
Qed.

Lemma convert_step_df time_col local_tz s r s' :
  convert_step time_col local_tz s = (r, s') →
  st_df s' = converted (st_df s) time_col local_tz.
Proof.
  rewrite convert_step_eq. intros [= _ <-]. unfold converted.
  by destruct (convert_datetime_column _ _ _ _).
Qed.

Lemma drop_step_eq time_col s :
  drop_step time_col s =
  (inr tt,
   mkSt (_drop_duplicates (st_df s) time_col)
     (<["rows_dropped_duplicates" :=
          RInt (len (st_df s) - len (_drop_duplicates (st_df s) time_col))]>
        (st_report s))
     (st_flag_cols s)).
Proof. done. Qed.

Lemma flag_step_eq flagger col fname ck ek record s :
  flag_step flagger col fname ck ek record s =
  (inr tt,
   if has_column col (st_df s) then
     match flagger (column col (st_df s)) with
     | inr flags =>
         let d := set_column fname flags (st_df s) in
         mkSt d (<[ck := RInt (count_true fname d)]> (st_report s))
           (if record then st_flag_cols s ++ [fname] else st_flag_cols s)
     | inl e => mkSt (st_df s) (<[ek := RStr (str e)]> (st_report s)) (st_flag_cols s)
     end
   else s).
Proof.
  unfold flag_step, try_except, mbind, M_bind, get_df, call, set_df, report_set, when.
  destruct (has_column col (st_df s)); [|done].
  destruct (flagger _); [done |]. by destruct record, s.
Qed.

Lemma final_step_eq s :
  final_step s =
  (inr tt, mkSt (st_df s) (<["final_row_count" := RInt (len (st_df s))]> (st_report s))
             (st_flag_cols s)).
Proof. done. Qed.

End StepEquations.

(** ** The last step of every refiner *)

Lemma final_ok_final_step : final_ok final_step.
Proof.
  intros s r s'. rewrite final_step_eq. intros [= <- <-]. simpl.
  by rewrite lookup_insert_eq.
Qed.

Lemma final_ok_seq (m k : M unit) : safe m → final_ok k → final_ok (m ;; k).
Proof.
  intros Hm Hk s r s' Heq.
  destruct (seq_safe_inv _ _ _ _ _ Hm Heq) as (s1 & _ & Hk'). by eapply Hk.
Qed.

Lemma final_ok_bind {A : Type} (m : M A) (k : A → M unit) :
  safe m → (∀ a, final_ok (k a)) → final_ok (m ≫= k).
Proof.
  intros Hm Hk s r s' Heq. destruct (Hm s) as (a & s1 & Hm').
  unfold mbind, M_bind in Heq. rewrite Hm' in Heq. by eapply Hk.
Qed.

Lemma run_refiner_final_ok df body : final_ok body → row_count_ok (run_refiner df body).
Proof.
  intros Hb. unfold run_refiner, row_count_ok.
  destruct (body _) as [r s] eqn:Heq. destruct (Hb _ _ _ Heq) as [-> Hrep].
  by eexists _, _.
Qed.

Ltac solve_final_ok :=
  repeat first
    [ apply final_ok_final_step
    | apply final_ok_bind; [solve_safe | intros] ].

Section RowCount.
Context `{OpenOA}.

(** C5. For each of the five refiners and every input, whatever the library
    answers, the refiner returns a pair whose report holds under
    [final_row_count] the number of rows of the returned dataframe. *)
Theorem final_row_count_is_length :
  (∀ df tz tc idc pc wc tmpc freq pr wr tr thr,
     row_count_ok (refine_scada df tz tc idc pc wc tmpc freq pr wr tr thr)) ∧
  (∀ df tz tc ec freq er, row_count_ok (refine_meter df tz tc ec freq er)) ∧
  (∀ df tz tc ac cc freq ar cr, row_count_ok (refine_curtail df tz tc ac cc freq ar cr)) ∧
  (∀ df lat lon rp, row_count_ok (refine_asset df lat lon rp)) ∧
  (∀ df name tz tc wc wdc tmpc freq wr wdr tr thr,
     row_count_ok (refine_reanalysis df name tz tc wc wdc tmpc freq wr wdr tr thr)).
Proof.
  repeat split; intros; apply run_refiner_final_ok; solve_final_ok.
Qed.

End RowCount.

(** ** Refiner bodies as sequences of steps *)

Lemma safe_record_flag_cols : safe record_flag_cols.
Proof. unfold record_flag_cols. solve_safe. Qed.

#[local] Hint Resolve safe_record_flag_cols : safe.

Lemma safe_seq_all ms : Forall safe ms → safe (seq_all ms).
Proof.
  induction 1 as [|m ms Hm _ IH]; simpl; [apply safe_ret |].
  by apply safe_bind.
Qed.

Lemma st_rel_seq_all (R : relation St) `{!PreOrder R} ms :
  Forall (st_rel R) ms → st_rel R (seq_all ms).
Proof.
  induction 1 as [|m ms Hm _ IH]; simpl; [by apply st_rel_ret |].
  by apply st_rel_bind.
Qed.

Lemma seq_all_app_inv pre post s r s' :
  Forall safe pre →
  seq_all (pre ++ post) s = (r, s') →
  ∃ s1, seq_all pre s = (inr tt, s1) ∧ seq_all post s1 = (r, s').
Proof.
  intros Hpre. revert s. induction Hpre as [|m pre Hm _ IH]; intros s Heq.
  - by exists s.
  - simpl in Heq. destruct (seq_safe_inv _ _ _ _ _ Hm Heq) as (s1 & Hm1 & Hrest).
    destruct (IH _ Hrest) as (s2 & Hpre2 & Hpost). exists s2. split; [|done].
    simpl. unfold mbind, M_bind. by rewrite Hm1.
Qed.

Lemma seq_all_cons_inv m ms s r s' :
  safe m → seq_all (m :: ms) s = (r, s') →
  ∃ s1, m s = (inr tt, s1) ∧ seq_all ms s1 = (r, s').
Proof. intros Hm Heq. by apply seq_safe_inv. Qed.

Section StepLists.
Context `{OpenOA}.

(** Running the steps one after the other is what the refiner's body does. *)
Ltac by_steps :=
  intros; unfold run_refiner;
  match goal with
  | |- match ?a with _ => _ end = match ?b with _ => _ end =>
      replace a with b; [reflexivity |]
  end;
  match goal with |- _ ?s0 = _ => generalize s0; intros end;
  unfold seq_all, scada_steps, meter_steps, curtail_steps, asset_steps,
    reanalysis_steps, time_checks, scada_flags, meter_flags, curtail_flags,
    asset_flags, reanalysis_flags;
  cbn [app map foldr];
  unfold range_step, unresponsive_step, row_step, run_check;
  cbn -[convert_step duplicate_step drop_step gap_step flag_step
        record_flag_cols final_step missing_id_step report_set];
  repeat match goal with
    | |- context [?a +:+ ?b] =>
        let v := eval vm_compute in (a +:+ b) in change (a +:+ b) with v
    end;
  unfold record_flag_cols, mbind, M_bind, mret, M_ret;
  repeat match goal with
    | |- context [match ?m ?s with _ => _ end] =>
        is_var s; destruct (m s) as [[?|[]] ?]
    | |- context [match ?m ?s with _ => _ end] =>
        lazymatch s with mkSt _ _ _ => destruct (m s) as [[?|[]] ?] end
    end;
  try reflexivity.

Lemma refine_scada_steps df tz tc idc pc wc tmpc freq pr wr tr thr :
  refine_scada df tz tc idc pc wc tmpc freq pr wr tr thr =
  run_refiner df (seq_all (scada_steps tz tc idc pc wc tmpc freq pr wr tr thr)).
Proof. unfold refine_scada. by_steps. Qed.

Lemma refine_meter_steps df tz tc ec freq er :
  refine_meter df tz tc ec freq er =
  run_refiner df (seq_all (meter_steps tz tc ec freq er)).
Proof. unfold refine_meter. by_steps. Qed.

Lemma refine_curtail_steps df tz tc ac cc freq ar cr :
  refine_curtail df tz tc ac cc freq ar cr =
  run_refiner df (seq_all (curtail_steps tz tc ac cc freq ar cr)).
Proof. unfold refine_curtail. by_steps. Qed.

Lemma refine_asset_steps df lat lon rp :
  refine_asset df lat lon rp = run_refiner df (seq_all (asset_steps lat lon rp)).
Proof. unfold refine_asset. by_steps. Qed.

Lemma refine_reanalysis_steps df name tz tc wc wdc tmpc freq wr wdr tr thr :
  refine_reanalysis df name tz tc wc wdc tmpc freq wr wdr tr thr =
  run_refiner df (seq_all (reanalysis_steps name tz tc wc wdc tmpc freq wr wdr tr thr)).
Proof. unfold refine_reanalysis. by_steps. Qed.

End StepLists.

(** ** The two counting steps *)

Section CountSteps.
Context `{OpenOA}.

Ltac step_cases :=
  intros;
  repeat progress
    (unfold duplicate_step, gap_step, gap_timestamps, try_except, mbind, M_bind,
       mret, M_ret, call, get_df, report_set, when in *;
     repeat case_match; simplify_eq/=).

Lemma duplicate_step_raised time_col id_col s e :
  duplicate_time_identification (st_df s) time_col id_col = inl e →
  duplicate_step time_col id_col s =
  (inr tt, mkSt (st_df s) (<["duplicate_check_error" := RStr (str e)]> (st_report s))
             (st_flag_cols s)).
Proof. step_cases. done. Qed.

Lemma duplicate_step_counts time_col id_col s r s' orig mid utc :
  duplicate_time_identification (st_df s) time_col id_col = inr (orig, mid, utc) →
  duplicate_step time_col id_col s = (r, s') →
  (∀ n, _safe_int (size orig) = inr n →
        st_report s' !! "duplicate_original_count" = Some (RInt n)) ∧
  (∀ n m, _safe_int (size orig) = inr n → _safe_int (size_or_zero utc) = inr m →
        st_report s' !! "duplicate_utc_count" = Some (RInt m)).
Proof. step_cases; split; intros; simplify_map_eq; congruence. Qed.

Lemma duplicate_step_ints time_col id_col s r s' k :
  duplicate_step time_col id_col s = (r, s') →
  k ∈ ["duplicate_original_count"; "duplicate_utc_count"] →
  st_report s' !! k = st_report s !! k ∨ ∃ z, st_report s' !! k = Some (RInt z).
Proof.
  intros Heq Hk. set_unfold. destruct Hk as [->|[->|[]]];
    step_cases; simplify_map_eq; eauto.
Qed.

Lemma gap_step_raised time_col freq b s e :
  gap_time_identification (st_df s) time_col freq = inl e →
  gap_step time_col freq b s =
  (inr tt, mkSt (st_df s) (<["gap_check_error" := RStr (str e)]> (st_report s))
             (st_flag_cols s)).
Proof. step_cases. done. Qed.

Lemma gap_step_counts time_col freq b s r s' orig mid utc :
  gap_time_identification (st_df s) time_col freq = inr (orig, mid, utc) →
  gap_step time_col freq b s = (r, s') →
  (∀ n, _safe_int (size orig) = inr n →
        st_report s' !! "time_gaps_original_count" = Some (RInt n)) ∧
  (∀ n m, _safe_int (size orig) = inr n → _safe_int (size_or_zero utc) = inr m →
        st_report s' !! "time_gaps_utc_count" = Some (RInt m)).
Proof. step_cases; split; intros; simplify_map_eq; congruence. Qed.

Lemma gap_step_ints time_col freq b s r s' k :
  gap_step time_col freq b s = (r, s') →
  k ∈ ["time_gaps_original_count"; "time_gaps_utc_count"] →
  st_report s' !! k = st_report s !! k ∨ ∃ z, st_report s' !! k = Some (RInt z).
Proof.
  intros Heq Hk. set_unfold. destruct Hk as [->|[->|[]]];
    step_cases; simplify_map_eq; eauto.
Qed.

End CountSteps.

(** ** Flag columns only annotate *)

Lemma row_ext_refl F r : row_ext F r r.
Proof. repeat split; auto. Qed.

Lemma row_ext_trans F r1 r2 r3 : row_ext F r1 r2 → row_ext F r2 r3 → row_ext F r1 r3.
Proof.
  intros (Hl1 & Hn1 & Hf1) (Hl2 & Hn2 & Hf2). repeat split.
  - congruence.
  - intros c Hc. by rewrite Hn2, Hn1.
  - intros c. destruct (Hf2 c) as [Heq|?]; [|by right].
    rewrite Heq. apply Hf1.
Qed.

Lemma Forall2_row_ext_refl F rs : Forall2 (row_ext F) rs rs.
Proof. induction rs; constructor; auto using row_ext_refl. Qed.

Lemma Forall2_row_ext_trans F rs1 rs2 rs3 :
  Forall2 (row_ext F) rs1 rs2 → Forall2 (row_ext F) rs2 rs3 → Forall2 (row_ext F) rs1 rs3.
Proof.
  intros H12. revert rs3. induction H12; intros rs3 H23; inversion H23; subst;
    constructor; eauto using row_ext_trans.
Qed.

#[local] Instance flag_ext_preorder F : PreOrder (flag_ext F).
Proof.
  split.
  - intros d. repeat split; auto using Forall2_row_ext_refl. by intros c r' Hc Hn.
  - intros d1 d2 d3 (Hc1 & Hn1 & Hb1 & Hr1) (Hc2 & Hn2 & Hb2 & Hr2). repeat split.
    + auto.
    + intros c Hc. destruct (Hn2 c Hc) as [Hc'|?]; [by apply Hn1 | by right].
    + intros c r3 Hc3 Hc1' Hr3.
      destruct (decide (c ∈ columns d2)) as [Hc2'|Hc2']; [|by eapply Hb2].
      destruct (proj1 (list_elem_of_lookup _ _) Hr3) as [i Hi].
      destruct (Forall2_lookup_r _ _ _ _ _ Hr2 Hi) as (r2 & Hi2 & (_ & _ & Hf)).
      destruct (Hf c) as [Heq|?]; [|done]. rewrite Heq.
      eapply Hb1; [done | done |]. by eapply list_elem_of_lookup_2.
    + by eapply Forall2_row_ext_trans.
Qed.

Lemma assign_cells_ext F col rs flags :
  col ∈ F → Forall2 (row_ext F) rs (assign_cells col rs flags).
Proof.
  intros Hcol. revert flags. induction rs as [|r rs IH]; intros flags; simpl.
  - constructor.
  - assert (∀ b, row_ext F r (set_cell col r b)) as Hset.
    { intros b. repeat split; simpl.
      - intros c Hc. apply lookup_insert_ne. by intros ->.
      - intros c. destruct (decide (col = c)) as [->|Hne].
        + right. rewrite lookup_insert_eq. destruct b; [right; by eexists | by left].
        + left. by apply lookup_insert_ne. }
    destruct flags; constructor; auto.
Qed.

Lemma assign_cells_flag col rs flags r' :
  r' ∈ assign_cells col rs flags → is_flag_cell (cells r' !! col).
Proof.
  revert flags. induction rs as [|r rs IH]; intros flags; simpl; [by intros ?%elem_of_nil |].
  destruct flags as [|b flags]; intros [->|Hin]%elem_of_cons; simpl; eauto.
  - left. by rewrite lookup_insert_eq.
  - right. rewrite lookup_insert_eq. by eexists.
Qed.

Lemma set_column_ext F fname flags d :
  fname ∈ F → flag_ext F d (set_column fname flags d).
Proof.
  intros Hin. unfold set_column, has_column. repeat split; simpl.
  - intros c Hc. case_bool_decide; [done | apply elem_of_app; by left].
  - intros c Hc. case_bool_decide; [by left |].
    apply elem_of_app in Hc as [?|Hc]; [by left | right].
    by apply list_elem_of_singleton in Hc as ->.
  - intros c r' Hc Hn Hr'. case_bool_decide; [done |].
    apply elem_of_app in Hc as [?|Hc]; [done |].
    apply list_elem_of_singleton in Hc as ->. by eapply assign_cells_flag.
  - by apply assign_cells_ext.
Qed.

(** What a frame extended by flags keeps of the original. *)
Lemma flag_ext_rows_length F d d' :
  flag_ext F d d' → length (rows d') = length (rows d).
Proof. intros (_ & _ & _ & Hr). induction Hr; simpl; by f_equal. Qed.

Lemma flag_ext_length F d d' : flag_ext F d d' → len d' = len d.
Proof. intros Hext. unfold len. by rewrite (flag_ext_rows_length _ _ _ Hext). Qed.

Lemma flag_ext_column F d d' col :
  flag_ext F d d' → col ∉ F → column col d' = column col d.
Proof.
  intros (_ & _ & _ & Hr) Hcol. unfold column.
  induction Hr as [|r r' rs rs' (_ & Hn & _) _ IH]; simpl; [done |].
  f_equal; [|done]. unfold get_cell. by rewrite Hn.
Qed.

Lemma flag_ext_labels F d d' :
  flag_ext F d d' → map label (rows d') = map label (rows d).
Proof.
  intros (_ & _ & _ & Hr).
  induction Hr as [|r r' rs rs' (Hl & _) _ IH]; simpl; [done |]. by f_equal.
Qed.

Lemma flag_ext_has_column F d d' col :
  flag_ext F d d' → col ∉ F → has_column col d' = has_column col d.
Proof.
  intros (Hc & Hn & _) Hcol. unfold has_column.
  apply bool_decide_ext. split; [|by auto].
  intros Hin. by destruct (Hn _ Hin).
Qed.

Lemma flag_ext_mono F F' d d' : F ⊆ F' → flag_ext F d d' → flag_ext F' d d'.
Proof.
  intros Hsub (Hc & Hn & Hb & Hr). repeat split; auto.
  - intros c Hin. destruct (Hn c Hin); [by left | right; by apply Hsub].
  - eapply Forall2_impl; [exact Hr |].
    intros r r' (Hl & Hn' & Hf). repeat split; auto.
Qed.

(** ** Flag tables *)

#[local] Instance df_flag_ext_preorder F : PreOrder (df_flag_ext F).
Proof.
  split; [intros s; unfold df_flag_ext; reflexivity |].
  intros s1 s2 s3 H1 H2. unfold df_flag_ext in *. by etransitivity.
Qed.

Lemma flag_values_exact flags : flag_values (length flags) flags = map VBool flags.
Proof. induction flags; simpl; by f_equal. Qed.

Lemma column_set_column fname flags d :
  column fname (set_column fname flags d) = flag_values (length (rows d)) flags.
Proof.
  unfold column, set_column. simpl. generalize (rows d). intros rs. revert flags.
  induction rs as [|r rs IH]; intros flags; simpl; [done |].
  destruct flags; simpl; rewrite IH; f_equal;
    unfold get_cell; simpl; by rewrite lookup_insert_eq.
Qed.

Section FlagTables.
Context `{OpenOA}.

Lemma row_step_eq record f s :
  row_step record f s =
  (inr tt,
   if has_column (f_col f) (st_df s) then
     match run_check (f_check f) (column (f_col f) (st_df s)) with
     | inr flags =>
         let d := set_column (f_name f) flags (st_df s) in
         mkSt d (<[f_count_key f := RInt (count_true (f_name f) d)]> (st_report s))
           (if record then st_flag_cols s ++ [f_name f] else st_flag_cols s)
     | inl e =>
         mkSt (st_df s) (<[f_error_key f := RStr (str e)]> (st_report s)) (st_flag_cols s)
     end
   else s).
Proof. apply flag_step_eq. Qed.

Lemma safe_row_step record f : safe (row_step record f).
Proof. apply safe_flag_step. Qed.

Lemma safe_rows record T : Forall safe (map (row_step record) T).
Proof. apply Forall_map, Forall_forall. intros f _. apply safe_row_step. Qed.

Lemma row_step_ext F record f :
  f_name f ∈ F → st_rel (df_flag_ext F) (row_step record f).
Proof.
  intros Hin s r s'. rewrite row_step_eq. intros [= _ <-]. unfold df_flag_ext.
  destruct (has_column _ _); [|reflexivity].
  destruct (run_check _ _); simpl; [reflexivity | by apply set_column_ext].
Qed.

Lemma rows_ext record T :
  st_rel (df_flag_ext (names T)) (seq_all (map (row_step record) T)).
Proof.
  apply st_rel_seq_all; [apply _ |]. apply Forall_map, Forall_forall.
  intros f Hf. apply row_step_ext. unfold names.
  by apply list_elem_of_fmap_2.
Qed.

Lemma row_step_writes K record f :
  f_count_key f ∈ K → f_error_key f ∈ K → st_rel (writes K) (row_step record f).
Proof.
  intros Hc He s r s'. rewrite row_step_eq. intros [= _ <-] k Hk.
  destruct (has_column _ _); [|done].
  destruct (run_check _ _); simpl; apply lookup_insert_ne; congruence.
Qed.

Lemma rows_writes record T :
  st_rel (writes (keys T)) (seq_all (map (row_step record) T)).
Proof.
  apply st_rel_seq_all; [apply _ |]. apply Forall_map, Forall_forall.
  intros f Hf. apply row_step_writes; unfold keys;
    apply list_elem_of_bind; exists f; (split; [|done]);
    rewrite !elem_of_cons; auto.
Qed.

End FlagTables.

(** ** What a table leaves for each of its rows *)

Section RowOutcome.
Context `{OpenOA}.

Lemma rows_split_inv record T1 f T2 s r s' :
  seq_all (map (row_step record) (T1 ++ f :: T2)) s = (r, s') →
  ∃ s1 s2,
    seq_all (map (row_step record) T1) s = (inr tt, s1) ∧
    row_step record f s1 = (inr tt, s2) ∧
    seq_all (map (row_step record) T2) s2 = (r, s').
Proof.
  rewrite map_app. intros Heq.
  apply seq_all_app_inv in Heq as (s1 & H1 & Heq); [|apply safe_rows].
  simpl in Heq. apply seq_all_cons_inv in Heq as (s2 & H2 & H3); [|apply safe_row_step].
  by exists s1, s2.
Qed.

Lemma keys_app T1 T2 : keys (T1 ++ T2) = (keys T1 ++ keys T2)%list.
Proof. unfold keys. apply bind_app. Qed.

Lemma names_app T1 T2 : names (T1 ++ T2) = (names T1 ++ names T2)%list.
Proof. unfold names. apply fmap_app. Qed.

Lemma count_true_ext F d d' col :
  flag_ext F d d' → col ∉ F → count_true col d' = count_true col d.
Proof. intros Hext Hcol. unfold count_true. by rewrite (flag_ext_column _ _ _ _ Hext Hcol). Qed.

Lemma row_outcome record T1 f T2 s r s' :
  seq_all (map (row_step record) (T1 ++ f :: T2)) s = (r, s') →
  f_col f ∉ names T1 → f_name f ∉ names T2 →
  f_count_key f ∉ keys (T1 ++ T2) → f_error_key f ∉ keys (T1 ++ T2) →
  f_count_key f ≠ f_error_key f →
  row_result f (st_df s) (st_report s) (st_df s') (st_report s').
Proof.
  rewrite keys_app.
  intros Heq Hcol Hname [Hc1 Hc2]%not_elem_of_app [He1 He2]%not_elem_of_app Hne.
  destruct (rows_split_inv _ _ _ _ _ _ _ Heq) as (s1 & s2 & H1 & H2 & H3).
  pose proof (rows_ext _ _ _ _ _ H1) as Hext1.
  pose proof (rows_writes _ _ _ _ _ H1) as Hw1.
  pose proof (rows_ext _ _ _ _ _ H3) as Hext2.
  pose proof (rows_writes _ _ _ _ _ H3) as Hw2.
  unfold df_flag_ext in *. unfold row_result.
  rewrite <- (flag_ext_has_column _ _ _ _ Hext1 Hcol).
  rewrite <- (flag_ext_column _ _ _ _ Hext1 Hcol).
  rewrite row_step_eq in H2. injection H2 as <-.
  rewrite (Hw2 _ Hc2), (Hw2 _ He2), <- (Hw1 _ Hc1), <- (Hw1 _ He1).
  destruct (has_column _ _); [|done].
  destruct (run_check _ _) as [e|flags]; simpl in *.
  - by rewrite lookup_insert_eq, lookup_insert_ne.
  - rewrite lookup_insert_eq, lookup_insert_ne by done.
    rewrite (count_true_ext _ _ _ _ Hext2 Hname).
    rewrite (flag_ext_column _ _ _ _ Hext2 Hname), column_set_column.
    repeat split. by rewrite (flag_ext_rows_length _ _ _ Hext1).
Qed.

(** Without any assumption on the data column read: the count, once
    written, is the number of [True] cells of the final flag column. *)
Lemma row_count_outcome record T1 f T2 s r s' :
  seq_all (map (row_step record) (T1 ++ f :: T2)) s = (r, s') →
  f_name f ∉ names T2 →
  f_count_key f ∉ keys (T1 ++ T2) → f_count_key f ≠ f_error_key f →
  st_report s' !! f_count_key f = st_report s !! f_count_key f ∨
  st_report s' !! f_count_key f = Some (RInt (count_true (f_name f) (st_df s'))).
Proof.
  rewrite keys_app. intros Heq Hname [Hc1 Hc2]%not_elem_of_app Hne.
  destruct (rows_split_inv _ _ _ _ _ _ _ Heq) as (s1 & s2 & H1 & H2 & H3).
  pose proof (rows_writes _ _ _ _ _ H1) as Hw1.
  pose proof (rows_ext _ _ _ _ _ H3) as Hext2.
  pose proof (rows_writes _ _ _ _ _ H3) as Hw2.
  unfold df_flag_ext in *.
  rewrite row_step_eq in H2. injection H2 as <-.
  rewrite (Hw2 _ Hc2), <- (Hw1 _ Hc1).
  destruct (has_column _ _); [|by left].
  destruct (run_check _ _) as [e|flags]; simpl in *.
  - left. by rewrite lookup_insert_ne.
  - right. rewrite lookup_insert_eq. by rewrite (count_true_ext _ _ _ _ Hext2 Hname).
Qed.

Lemma table_ok_split T1 f T2 :
  table_ok (T1 ++ f :: T2) →
  (f_name f ∉ names T2) ∧
  (f_count_key f ∉ keys (T1 ++ T2)) ∧ (f_error_key f ∉ keys (T1 ++ T2)) ∧
  f_count_key f ≠ f_error_key f.
Proof.
  intros [Hn Hk]. rewrite names_app in Hn. rewrite keys_app in Hk. rewrite keys_app.
  apply NoDup_app in Hn as (_ & _ & Hn). apply NoDup_cons in Hn as [Hn _].
  apply NoDup_app in Hk as (_ & Hk1 & Hk2).
  change (keys (f :: T2)) with (f_count_key f :: f_error_key f :: keys T2) in *.
  apply NoDup_cons in Hk2 as [Hc Hk2]. apply NoDup_cons in Hk2 as [He _].
  rewrite elem_of_cons in Hc. repeat split; [done | | |].
  - apply not_elem_of_app. split; [|tauto].
    intros Hin. apply (Hk1 _ Hin). rewrite elem_of_cons. by left.
  - apply not_elem_of_app. split; [|done].
    intros Hin. apply (Hk1 _ Hin). rewrite !elem_of_cons. right. by left.
  - tauto.
Qed.

End RowOutcome.

(** ** The checks shared by the time-indexed refiners *)

Lemma writes_mono K K' s s' : K ⊆ K' → writes K s s' → writes K' s s'.
Proof. intros Hsub Hw k Hk. apply Hw. intros Hin. by apply Hk, Hsub. Qed.

Lemma st_rel_writes_mono {A : Type} K K' (m : M A) :
  K ⊆ K' → st_rel (writes K) m → st_rel (writes K') m.
Proof. intros Hsub Hm s r s' Heq. eapply writes_mono; [done | by eapply Hm]. Qed.

(** Inclusion between concrete key lists. *)
Ltac solve_keys_incl :=
  let k := fresh "k" in
  intros k; rewrite !elem_of_cons, ?elem_of_nil; intros; intuition (subst; auto).

Section TimeChecks.
Context `{OpenOA}.

Lemma safe_time_checks tz tc idc freq b : Forall safe (time_checks tz tc idc freq b).
Proof. unfold time_checks. repeat constructor; auto with safe. Qed.

Lemma time_checks_inv tz tc idc freq b s0 r s1 :
  seq_all (time_checks tz tc idc freq b) s0 = (r, s1) →
  ∃ sa sb sc,
    convert_step tc tz s0 = (inr tt, sa) ∧
    duplicate_step tc idc sa = (inr tt, sb) ∧
    drop_step tc sb = (inr tt, sc) ∧
    gap_step tc freq b sc = (inr tt, s1).
Proof.
  unfold time_checks. intros Heq.
  apply seq_all_cons_inv in Heq as (sa & Ha & Heq); [|auto with safe].
  apply seq_all_cons_inv in Heq as (sb & Hb & Heq); [|auto with safe].
  apply seq_all_cons_inv in Heq as (sc & Hc & Heq); [|auto with safe].
  apply seq_all_cons_inv in Heq as (sd & Hd & Heq); [|auto with safe].
  simpl in Heq. injection Heq as <- <-. by exists sa, sb, sc.
Qed.

Lemma time_checks_writes tz tc idc freq b :
  st_rel (writes time_keys) (seq_all (time_checks tz tc idc freq b)).
Proof.
  apply st_rel_seq_all; [apply _ |]. unfold time_checks. repeat constructor.
  - eapply st_rel_writes_mono; [|apply writes_convert_step].
    unfold convert_keys, time_keys. solve_keys_incl.
  - eapply st_rel_writes_mono; [|apply writes_duplicate_step].
    unfold duplicate_keys, time_keys. solve_keys_incl.
  - eapply st_rel_writes_mono; [|apply writes_drop_step].
    unfold time_keys. solve_keys_incl.
  - eapply st_rel_writes_mono; [|apply writes_gap_step].
    unfold gap_keys, time_keys. solve_keys_incl.
Qed.

Lemma time_checks_df tz tc idc freq b s0 r s1 :
  seq_all (time_checks tz tc idc freq b) s0 = (r, s1) →
  st_df s1 = _drop_duplicates (converted (st_df s0) tc tz) tc.
Proof.
  intros (sa & sb & sc & Ha & Hb & Hc & Hd)%time_checks_inv.
  rewrite (same_df_gap_step _ _ _ _ _ _ Hd).
  rewrite drop_step_eq in Hc. injection Hc as <-. simpl.
  rewrite (same_df_duplicate_step _ _ _ _ _ Hb).
  by rewrite (convert_step_df _ _ _ _ _ Ha).
Qed.

(** A failed conversion is recorded. *)
Lemma time_checks_convert_raised tz tc idc freq b s0 r s1 e :
  seq_all (time_checks tz tc idc freq b) s0 = (r, s1) →
  convert_datetime_column (st_df s0) tc tz false = inl e →
  st_report s1 !! "datetime_converted" = Some (RBool false) ∧
  st_report s1 !! "datetime_error" = Some (RStr (str e)).
Proof.
  intros (sa & sb & sc & Ha & Hb & Hc & Hd)%time_checks_inv He.
  rewrite convert_step_eq, He in Ha. injection Ha as <-.
  pose proof (writes_duplicate_step _ _ _ _ _ Hb) as Wb.
  pose proof (writes_drop_step _ _ _ _ Hc) as Wc.
  pose proof (writes_gap_step _ _ _ _ _ _ Hd) as Wd.
  split.
  - rewrite Wd, Wc, Wb by (unfold gap_keys, duplicate_keys; solve_key_out).
    simpl. by rewrite lookup_insert_ne, lookup_insert_eq.
  - rewrite Wd, Wc, Wb by (unfold gap_keys, duplicate_keys; solve_key_out).
    simpl. by rewrite lookup_insert_eq.
Qed.

(** A failed duplicate check is recorded. *)
Lemma time_checks_duplicate_raised tz tc idc freq b s0 r s1 e :
  seq_all (time_checks tz tc idc freq b) s0 = (r, s1) →
  duplicate_time_identification (converted (st_df s0) tc tz) tc idc = inl e →
  st_report s1 !! "duplicate_check_error" = Some (RStr (str e)).
Proof.
  intros (sa & sb & sc & Ha & Hb & Hc & Hd)%time_checks_inv He.
  rewrite <- (convert_step_df _ _ _ _ _ Ha) in He.
  rewrite (duplicate_step_raised _ _ _ _ He) in Hb. injection Hb as <-.
  pose proof (writes_drop_step _ _ _ _ Hc) as Wc.
  pose proof (writes_gap_step _ _ _ _ _ _ Hd) as Wd.
  rewrite Wd, Wc by (unfold gap_keys; solve_key_out).
  simpl. by rewrite lookup_insert_eq.
Qed.

(** The number of rows dropped is recorded. *)
Lemma time_checks_dropped tz tc idc freq b s0 r s1 :
  seq_all (time_checks tz tc idc freq b) s0 = (r, s1) →
  st_report s1 !! "rows_dropped_duplicates" =
  Some (RInt (len (converted (st_df s0) tc tz) -
              len (_drop_duplicates (converted (st_df s0) tc tz) tc))).
Proof.
  intros (sa & sb & sc & Ha & Hb & Hc & Hd)%time_checks_inv.
  pose proof (writes_gap_step _ _ _ _ _ _ Hd) as Wd.
  rewrite Wd by (unfold gap_keys; solve_key_out).
  rewrite drop_step_eq in Hc. injection Hc as <-. simpl.
  rewrite lookup_insert_eq.
  rewrite (same_df_duplicate_step _ _ _ _ _ Hb).
  by rewrite (convert_step_df _ _ _ _ _ Ha).
Qed.

(** A failed gap check is recorded. *)
Lemma time_checks_gap_raised tz tc idc freq b s0 r s1 e :
  seq_all (time_checks tz tc idc freq b) s0 = (r, s1) →
  gap_time_identification (_drop_duplicates (converted (st_df s0) tc tz) tc) tc freq
    = inl e →
  st_report s1 !! "gap_check_error" = Some (RStr (str e)).
Proof.
  intros Heq He. pose proof (time_checks_df _ _ _ _ _ _ _ _ Heq) as Hdf.
  apply time_checks_inv in Heq as (sa & sb & sc & Ha & Hb & Hc & Hd).
  assert (st_df sc = st_df s1) as Hsc.
  { symmetry. apply (same_df_gap_step _ _ _ _ _ _ Hd). }
  rewrite <- Hdf, <- Hsc in He.
  rewrite (gap_step_raised _ _ _ _ _ He) in Hd. injection Hd as <-.
  simpl. by rewrite lookup_insert_eq.
Qed.

(** The four counts are integers when they are there at all. *)
Lemma time_checks_ints tz tc idc freq b s0 r s1 k :
  seq_all (time_checks tz tc idc freq b) s0 = (r, s1) →
  k ∈ ["duplicate_original_count"; "duplicate_utc_count";
       "time_gaps_original_count"; "time_gaps_utc_count"] →
  st_report s1 !! k = st_report s0 !! k ∨ ∃ z, st_report s1 !! k = Some (RInt z).
Proof.
  intros (sa & sb & sc & Ha & Hb & Hc & Hd)%time_checks_inv Hk.
  pose proof (writes_convert_step _ _ _ _ _ Ha) as Wa.
  pose proof (writes_duplicate_step _ _ _ _ _ Hb) as Wb.
  pose proof (writes_drop_step _ _ _ _ Hc) as Wc.
  pose proof (writes_gap_step _ _ _ _ _ _ Hd) as Wd.
  rewrite !elem_of_cons, elem_of_nil in Hk.
  destruct Hk as [->|[->|[->|[->|[]]]]].
  - rewrite Wd, Wc by (unfold gap_keys; solve_key_out).
    rewrite <- Wa by (unfold convert_keys; solve_key_out).
    eapply duplicate_step_ints; [done |]. rewrite !elem_of_cons; auto.
  - rewrite Wd, Wc by (unfold gap_keys; solve_key_out).
    rewrite <- Wa by (unfold convert_keys; solve_key_out).
    eapply duplicate_step_ints; [done |]. rewrite !elem_of_cons; auto.
  - rewrite <- Wa, <- Wb, <- Wc by (unfold convert_keys, duplicate_keys; solve_key_out).
    eapply gap_step_ints; [done |]. rewrite !elem_of_cons; auto.
  - rewrite <- Wa, <- Wb, <- Wc by (unfold convert_keys, duplicate_keys; solve_key_out).
    eapply gap_step_ints; [done |]. rewrite !elem_of_cons; auto.
Qed.

(** The counts reported when the checks return. *)
Lemma time_checks_duplicate_counts tz tc idc freq b s0 r s1 orig mid utc :
  seq_all (time_checks tz tc idc freq b) s0 = (r, s1) →
  duplicate_time_identification (converted (st_df s0) tc tz) tc idc
    = inr (orig, mid, utc) →
  (∀ n, _safe_int (size orig) = inr n →
        st_report s1 !! "duplicate_original_count" = Some (RInt n)) ∧
  (∀ n m, _safe_int (size orig) = inr n → _safe_int (size_or_zero utc) = inr m →
        st_report s1 !! "duplicate_utc_count" = Some (RInt m)).
Proof.
  intros (sa & sb & sc & Ha & Hb & Hc & Hd)%time_checks_inv He.
  rewrite <- (convert_step_df _ _ _ _ _ Ha) in He.
  pose proof (writes_drop_step _ _ _ _ Hc) as Wc.
  pose proof (writes_gap_step _ _ _ _ _ _ Hd) as Wd.
  rewrite !Wd, !Wc by (unfold gap_keys; solve_key_out).
  by eapply duplicate_step_counts.
Qed.

Lemma time_checks_gap_counts tz tc idc freq b s0 r s1 orig mid utc :
  seq_all (time_checks tz tc idc freq b) s0 = (r, s1) →
  gap_time_identification (_drop_duplicates (converted (st_df s0) tc tz) tc) tc freq
    = inr (orig, mid, utc) →
  (∀ n, _safe_int (size orig) = inr n →
        st_report s1 !! "time_gaps_original_count" = Some (RInt n)) ∧
  (∀ n m, _safe_int (size orig) = inr n → _safe_int (size_or_zero utc) = inr m →
        st_report s1 !! "time_gaps_utc_count" = Some (RInt m)).
Proof.
  intros Heq He. pose proof (time_checks_df _ _ _ _ _ _ _ _ Heq) as Hdf.
  apply time_checks_inv in Heq as (sa & sb & sc & Ha & Hb & Hc & Hd).
  assert (st_df sc = st_df s1) as Hsc.
  { symmetry. apply (same_df_gap_step _ _ _ _ _ _ Hd). }
  rewrite <- Hdf, <- Hsc in He. by eapply gap_step_counts.
Qed.

End TimeChecks.

(** ** The shape shared by the five refiners *)

Lemma same_df_record_flag_cols : st_rel same_df record_flag_cols.
Proof. unfold record_flag_cols. st_rel_descend; apply same_df_report_set. Qed.

Lemma writes_record_flag_cols : st_rel (writes closing_keys) record_flag_cols.
Proof. unfold record_flag_cols. solve_writes. Qed.

Lemma row_result_proper `{OpenOA} f d0 rep0 d' rep1 rep2 :
  rep2 !! f_count_key f = rep1 !! f_count_key f →
  rep2 !! f_error_key f = rep1 !! f_error_key f →
  row_result f d0 rep0 d' rep1 → row_result f d0 rep0 d' rep2.
Proof.
  intros Hc He. unfold row_result. rewrite Hc, He. done.
Qed.

Section Shape.
Context `{OpenOA}.

Lemma bookkeeping_scada : bookkeeping closing_keys [record_flag_cols; final_step].
Proof.
  repeat split; repeat constructor; auto with safe.
  - apply same_df_record_flag_cols.
  - apply same_df_final_step.
  - apply writes_record_flag_cols.
  - eapply st_rel_writes_mono; [|apply writes_final_step].
    unfold closing_keys. solve_keys_incl.
Qed.

Lemma bookkeeping_final : bookkeeping closing_keys [final_step].
Proof.
  repeat split; repeat constructor; auto with safe.
  - apply same_df_final_step.
  - eapply st_rel_writes_mono; [|apply writes_final_step].
    unfold closing_keys. solve_keys_incl.
Qed.

Lemma bookkeeping_reanalysis name :
  bookkeeping closing_keys [report_set "product" (RStr name); final_step].
Proof.
  repeat split; repeat constructor; auto with safe.
  - apply same_df_report_set.
  - apply same_df_final_step.
  - apply writes_report_set. unfold closing_keys. solve_key_in.
  - eapply st_rel_writes_mono; [|apply writes_final_step].
    unfold closing_keys. solve_keys_incl.
Qed.

Lemma shape_inv pre record T suf df :
  Forall safe pre → Forall safe suf →
  ∃ s1 s2 s3,
    seq_all pre (mkSt (df_copy df) ∅ []) = (inr tt, s1) ∧
    seq_all (map (row_step record) T) s1 = (inr tt, s2) ∧
    seq_all suf s2 = (inr tt, s3) ∧
    run_refiner df (seq_all (pre ++ map (row_step record) T ++ suf))
      = inr (st_df s3, st_report s3).
Proof.
  intros Hpre Hsuf.
  destruct (run_refiner_safe df (seq_all (pre ++ map (row_step record) T ++ suf)))
    as (s3 & Hrun & Hres).
  { apply safe_seq_all. rewrite !Forall_app. auto using safe_rows. }
  apply seq_all_app_inv in Hrun as (s1 & H1 & Hrun); [|done].
  apply seq_all_app_inv in Hrun as (s2 & H2 & H3); [|apply safe_rows].
  by exists s1, s2, s3.
Qed.

(** What a refiner of that shape returns, in terms of the state [s1] its
    opening checks leave. *)
Lemma refiner_rows pre record T suf df K :
  Forall safe pre → bookkeeping K suf → table_ok T →
  (∀ k, k ∈ keys T → k ∉ K) →
  ∃ s1 d rep,
    seq_all pre (mkSt (df_copy df) ∅ []) = (inr tt, s1) ∧
    run_refiner df (seq_all (pre ++ map (row_step record) T ++ suf)) = inr (d, rep) ∧
    flag_ext (names T) (st_df s1) d ∧
    (∀ k, k ∉ keys T → k ∉ K → rep !! k = st_report s1 !! k) ∧
    (∀ f, f ∈ T → f_col f ∉ names T →
          row_result f (st_df s1) (st_report s1) d rep) ∧
    (∀ f, f ∈ T →
          rep !! f_count_key f = st_report s1 !! f_count_key f ∨
          rep !! f_count_key f = Some (RInt (count_true (f_name f) d))).
Proof.
  intros Hpre (Hsafe & Hsame & Hwrites) Hok Hdisj.
  destruct (shape_inv pre record T suf df Hpre Hsafe) as (s1 & s2 & s3 & H1 & H2 & H3 & Hres).
  pose proof (st_rel_seq_all same_df _ Hsame _ _ _ H3) as Hdf.
  pose proof (st_rel_seq_all (writes K) _ Hwrites _ _ _ H3) as Hw.
  unfold same_df in Hdf. exists s1, (st_df s3), (st_report s3).
  split; [done |]. split; [done |]. rewrite Hdf. split; [|split; [|split]].
  - apply (rows_ext _ _ _ _ _ H2).
  - intros k Hk1 Hk2. rewrite (Hw _ Hk2). apply (rows_writes _ _ _ _ _ H2 _ Hk1).
  - intros f Hf Hcol.
    assert (f_count_key f ∈ keys T ∧ f_error_key f ∈ keys T) as [Hck Hek].
    { unfold keys. split; apply list_elem_of_bind; exists f;
        (split; [|done]); rewrite !elem_of_cons; auto. }
    apply (row_result_proper f _ _ _ (st_report s2));
      [apply Hw; auto | apply Hw; auto |].
    destruct (list_elem_of_split _ _ Hf) as (T1 & T2 & ->).
    destruct (table_ok_split _ _ _ Hok) as (Hn & Hc & He & Hne).
    apply (row_outcome _ _ _ _ _ _ _ H2); auto.
    intros Hin. apply Hcol. rewrite names_app. apply elem_of_app. by left.
  - intros f Hf.
    assert (f_count_key f ∈ keys T) as Hck.
    { unfold keys. apply list_elem_of_bind; exists f;
        (split; [|done]); rewrite !elem_of_cons; auto. }
    rewrite (Hw _ (Hdisj _ Hck)).
    destruct (list_elem_of_split _ _ Hf) as (T1 & T2 & ->).
    destruct (table_ok_split _ _ _ Hok) as (Hn & Hc & He & Hne).
    apply (row_count_outcome _ _ _ _ _ _ _ H2); auto.
Qed.

End Shape.

(** ** The tables of the five refiners are well formed *)

#[local] Instance table_ok_dec T : Decision (table_ok T).
Proof. unfold table_ok. apply _. Defined.

#[local] Instance table_fits_dec T : Decision (table_fits T).
Proof. unfold table_fits. apply _. Defined.

Ltac solve_table_fits := apply (bool_decide_unpack _); vm_compute; exact I.

Lemma scada_flags_fit pc wc tmpc pr wr tr thr :
  table_fits (scada_flags pc wc tmpc pr wr tr thr).
Proof. solve_table_fits. Qed.

Lemma meter_flags_fit ec er : table_fits (meter_flags ec er).
Proof. solve_table_fits. Qed.

Lemma curtail_flags_fit ac cc ar cr : table_fits (curtail_flags ac cc ar cr).
Proof. solve_table_fits. Qed.

Lemma asset_flags_fit lat lon rp : table_fits (asset_flags lat lon rp).
Proof. solve_table_fits. Qed.

Lemma reanalysis_flags_fit wc wdc tmpc wr wdr tr thr :
  table_fits (reanalysis_flags wc wdc tmpc wr wdr tr thr).
Proof. solve_table_fits. Qed.

Lemma table_fits_other T k : table_fits T → k ∈ keys T → k ∉ other_keys.
Proof. intros [_ Hall] Hk. by eapply Forall_forall in Hall. Qed.

Lemma not_other_keys k :
  k ∉ other_keys →
  (k ∉ time_keys) ∧ (k ∉ closing_keys) ∧ k ≠ "missing_asset_id_count".
Proof.
  unfold other_keys. rewrite !not_elem_of_app, list_elem_of_singleton. tauto.
Qed.

(** ** The five refiners in their common shape *)

Section Instances.
Context `{OpenOA}.

Lemma safe_asset_opening : Forall safe [missing_id_step].
Proof. repeat constructor. auto with safe. Qed.

Lemma asset_opening_inv s0 r s1 :
  seq_all [missing_id_step] s0 = (r, s1) →
  st_df s1 = st_df s0 ∧ writes ["missing_asset_id_count"] s0 s1.
Proof.
  intros Heq. split.
  - eapply (st_rel_seq_all same_df); [|done]. repeat constructor.
    apply same_df_missing_id_step.
  - eapply (st_rel_seq_all (writes _)); [|done]. repeat constructor.
    unfold missing_id_step. solve_writes.
Qed.

(** The report the opening checks leave has none of the table's keys. *)
Lemma time_checks_fresh tz tc idc freq b df r s1 T k :
  seq_all (time_checks tz tc idc freq b) (mkSt (df_copy df) ∅ []) = (r, s1) →
  table_fits T → k ∈ keys T → st_report s1 !! k = None.
Proof.
  intros Heq Hfit Hk.
  destruct (not_other_keys _ (table_fits_other _ _ Hfit Hk)) as (Ht & _ & _).
  by rewrite (time_checks_writes _ _ _ _ _ _ _ _ Heq _ Ht).
Qed.

Lemma asset_opening_fresh df r s1 T k :
  seq_all [missing_id_step] (mkSt (df_copy df) ∅ []) = (r, s1) →
  table_fits T → k ∈ keys T → st_report s1 !! k = None.
Proof.
  intros Heq Hfit Hk.
  destruct (not_other_keys _ (table_fits_other _ _ Hfit Hk)) as (_ & _ & Ha).
  destruct (asset_opening_inv _ _ _ Heq) as [_ Hw].
  rewrite Hw; [done |]. by rewrite list_elem_of_singleton.
Qed.

Lemma table_fits_closing T k : table_fits T → k ∈ keys T → k ∉ closing_keys.
Proof.
  intros Hfit Hk. by destruct (not_other_keys _ (table_fits_other _ _ Hfit Hk)) as (_ & ? & _).
Qed.

Lemma count_key_in_keys f T : f ∈ T → f_count_key f ∈ keys T.
Proof.
  intros Hf. unfold keys. apply list_elem_of_bind. exists f.
  split; [|done]. rewrite elem_of_cons. by left.
Qed.

Lemma error_key_in_keys f T : f ∈ T → f_error_key f ∈ keys T.
Proof.
  intros Hf. unfold keys. apply list_elem_of_bind. exists f.
  split; [|done]. rewrite !elem_of_cons. right. by left.
Qed.

End Instances.

(** ** Counts and flag columns agree *)

Section Counts.
Context `{OpenOA}.

Lemma counts_match_shape pre record T suf df :
  Forall safe pre → bookkeeping closing_keys suf → table_fits T →
  (∀ r s1 k, seq_all pre (mkSt (df_copy df) ∅ []) = (r, s1) → k ∈ keys T →
             st_report s1 !! k = None) →
  counts_match T (run_refiner df (seq_all (pre ++ map (row_step record) T ++ suf))).
Proof.
  intros Hpre Hsuf Hfit Hfresh.
  destruct (refiner_rows pre record T suf df closing_keys Hpre Hsuf (proj1 Hfit))
    as (s1 & d & rep & H1 & Hres & _ & _ & _ & Hcount).
  { intros k. by apply table_fits_closing. }
  exists d, rep. split; [done |]. intros f n Hf Hn.
  destruct (Hcount f Hf) as [Heq|Heq]; rewrite Heq in Hn.
  - rewrite (Hfresh _ _ _ H1 (count_key_in_keys _ _ Hf)) in Hn. done.
  - by injection Hn as <-.
Qed.

(** C9. In every refiner, for each flag column of its table, the count
    stored in the report, whenever it is there, is the number of rows marked
    [True] in that flag column of the returned dataframe. *)
Theorem flag_counts_match_columns :
  (∀ df tz tc idc pc wc tmpc freq pr wr tr thr,
     counts_match (scada_flags pc wc tmpc pr wr tr thr)
       (refine_scada df tz tc idc pc wc tmpc freq pr wr tr thr)) ∧
  (∀ df tz tc ec freq er,
     counts_match (meter_flags ec er) (refine_meter df tz tc ec freq er)) ∧
  (∀ df tz tc ac cc freq ar cr,
     counts_match (curtail_flags ac cc ar cr)
       (refine_curtail df tz tc ac cc freq ar cr)) ∧
  (∀ df lat lon rp,
     counts_match (asset_flags lat lon rp) (refine_asset df lat lon rp)) ∧
  (∀ df name tz tc wc wdc tmpc freq wr wdr tr thr,
     counts_match (reanalysis_flags wc wdc tmpc wr wdr tr thr)
       (refine_reanalysis df name tz tc wc wdc tmpc freq wr wdr tr thr)).
Proof.
  repeat split; intros.
  - rewrite refine_scada_steps. apply counts_match_shape;
      eauto using safe_time_checks, bookkeeping_scada, scada_flags_fit,
        time_checks_fresh.
  - rewrite refine_meter_steps. apply counts_match_shape;
      eauto using safe_time_checks, bookkeeping_final, meter_flags_fit,
        time_checks_fresh.
  - rewrite refine_curtail_steps. apply counts_match_shape;
      eauto using safe_time_checks, bookkeeping_final, curtail_flags_fit,
        time_checks_fresh.
  - rewrite refine_asset_steps. apply counts_match_shape;
      eauto using safe_asset_opening, bookkeeping_final, asset_flags_fit,
        asset_opening_fresh.
  - rewrite refine_reanalysis_steps. apply counts_match_shape;
      eauto using safe_time_checks, bookkeeping_reanalysis, reanalysis_flags_fit,
        time_checks_fresh.
Qed.

End Counts.

(** ** Failures are recorded, never raised *)

Lemma time_keys_not_closing k : k ∈ time_keys → k ∉ closing_keys.
Proof.
  revert k. apply Forall_forall. apply (bool_decide_unpack _). vm_compute. exact I.
Qed.

Lemma time_key_not_in_table T k : table_fits T → k ∈ time_keys → k ∉ keys T.
Proof.
  intros Hfit Hk Hin. apply (table_fits_other _ _ Hfit Hin).
  unfold other_keys. apply elem_of_app. by left.
Qed.

Section Capture.
Context `{OpenOA}.

Lemma flag_failures_of_rows T d0 rep0 d rep :
  (∀ f, f ∈ T → f_col f ∉ names T → row_result f d0 rep0 d rep) →
  flag_failures_recorded T d0 rep.
Proof.
  intros Hrows f e Hf Hcol Hhas Hraise. specialize (Hrows f Hf Hcol).
  unfold row_result in Hrows. rewrite Hhas, Hraise in Hrows. tauto.
Qed.

Lemma time_refiner_captures_shape tz tc idc freq b record T suf df :
  bookkeeping closing_keys suf → table_fits T →
  time_refiner_captures T df tz tc idc freq
    (run_refiner df (seq_all (time_checks tz tc idc freq b ++
                              map (row_step record) T ++ suf))).
Proof.
  intros Hsuf Hfit.
  destruct (refiner_rows (time_checks tz tc idc freq b) record T suf df closing_keys
              (safe_time_checks _ _ _ _ _) Hsuf (proj1 Hfit))
    as (s1 & d & rep & H1 & Hres & _ & Hkept & Hrows & _).
  { intros k. by apply table_fits_closing. }
  exists d, rep. split; [done |].
  assert (∀ k, k ∈ time_keys → rep !! k = st_report s1 !! k) as Hk.
  { intros k Hk. apply Hkept; [by apply time_key_not_in_table |
                               by apply time_keys_not_closing]. }
  split; [split; [|split] |].
  - intros e He. rewrite !Hk by (unfold time_keys; solve_key_in).
    by eapply time_checks_convert_raised.
  - intros e He. rewrite !Hk by (unfold time_keys; solve_key_in).
    by eapply time_checks_duplicate_raised.
  - intros e He. rewrite !Hk by (unfold time_keys; solve_key_in).
    by eapply time_checks_gap_raised.
  - eapply flag_failures_of_rows. intros f Hf Hcol.
    assert (st_df s1 = deduplicated df tc tz) as <-
      by apply (time_checks_df _ _ _ _ _ _ _ _ H1).
    by apply Hrows.
Qed.

Lemma asset_refiner_captures_shape record T suf df :
  bookkeeping closing_keys suf → table_fits T →
  asset_refiner_captures T df
    (run_refiner df (seq_all ([missing_id_step] ++ map (row_step record) T ++ suf))).
Proof.
  intros Hsuf Hfit.
  destruct (refiner_rows [missing_id_step] record T suf df closing_keys
              safe_asset_opening Hsuf (proj1 Hfit))
    as (s1 & d & rep & H1 & Hres & _ & _ & Hrows & _).
  { intros k. by apply table_fits_closing. }
  exists d, rep. split; [done |].
  eapply flag_failures_of_rows. intros f Hf Hcol.
  destruct (asset_opening_inv _ _ _ H1) as [Hdf _]. simpl in Hdf.
  unfold df_copy in *. rewrite <- Hdf. by apply Hrows.
Qed.

Lemma scada_captures df tz tc idc pc wc tmpc freq pr wr tr thr :
  time_refiner_captures (scada_flags pc wc tmpc pr wr tr thr) df tz tc idc freq
    (refine_scada df tz tc idc pc wc tmpc freq pr wr tr thr).
Proof.
  rewrite refine_scada_steps.
  apply time_refiner_captures_shape; auto using bookkeeping_scada, scada_flags_fit.
Qed.

Lemma meter_captures df tz tc ec freq er :
  time_refiner_captures (meter_flags ec er) df tz tc tc freq
    (refine_meter df tz tc ec freq er).
Proof.
  rewrite refine_meter_steps.
  apply time_refiner_captures_shape; auto using bookkeeping_final, meter_flags_fit.
Qed.

Lemma curtail_captures df tz tc ac cc freq ar cr :
  time_refiner_captures (curtail_flags ac cc ar cr) df tz tc tc freq
    (refine_curtail df tz tc ac cc freq ar cr).
Proof.
  rewrite refine_curtail_steps.
  apply time_refiner_captures_shape; auto using bookkeeping_final, curtail_flags_fit.
Qed.

Lemma asset_captures df lat lon rp :
  asset_refiner_captures (asset_flags lat lon rp) df (refine_asset df lat lon rp).
Proof.
  rewrite refine_asset_steps.
  apply asset_refiner_captures_shape; auto using bookkeeping_final, asset_flags_fit.
Qed.

Lemma reanalysis_captures df name tz tc wc wdc tmpc freq wr wdr tr thr :
  time_refiner_captures (reanalysis_flags wc wdc tmpc wr wdr tr thr) df tz tc tc freq
    (refine_reanalysis df name tz tc wc wdc tmpc freq wr wdr tr thr).
Proof.
  rewrite refine_reanalysis_steps.
  apply time_refiner_captures_shape;
    auto using bookkeeping_reanalysis, reanalysis_flags_fit.
Qed.

End Capture.

(** ** What [refine_all] returns *)

Section RefineAll.
Context `{OpenOA}.

Lemma scada_call_returns n tz df : ∃ d r, scada_call n tz df = inr (d, r).
Proof. destruct (scada_captures df tz (scada_time_col n) (scada_id_col n)
         (scada_power_col n) (scada_windspeed_col n) (scada_temp_col n) (scada_freq n)
         scada_power_range scada_windspeed_range scada_temp_range default_threshold)
         as (d & r & Heq & _). by exists d, r. Qed.

Lemma meter_call_returns n tz df : ∃ d r, meter_call n tz df = inr (d, r).
Proof. destruct (meter_captures df tz (meter_time_col n) (meter_energy_col n)
         default_freq meter_energy_range) as (d & r & Heq & _). by exists d, r. Qed.

Lemma curtail_call_returns n tz df : ∃ d r, curtail_call n tz df = inr (d, r).
Proof. destruct (curtail_captures df tz (curtail_time_col n) (curtail_avail_col n)
         (curtail_curtail_col n) default_freq curtail_avail_range curtail_curtail_range)
         as (d & r & Heq & _). by exists d, r. Qed.

Lemma asset_call_returns df : ∃ d r, asset_call df = inr (d, r).
Proof. destruct (asset_captures df asset_lat_range asset_lon_range
         asset_rated_power_range) as (d & r & Heq & _). by exists d, r. Qed.

Lemma reanalysis_call_returns n tz name df :
  ∃ d r, reanalysis_call n tz name df = inr (d, r).
Proof. destruct (reanalysis_captures df name tz (reanalysis_time_col n)
         (reanalysis_windspeed_col n) (reanalysis_winddir_col n)
         (reanalysis_temp_col n) default_reanalysis_freq
         reanalysis_windspeed_range reanalysis_winddir_range reanalysis_temp_range
         default_threshold) as (d & r & Heq & _). by exists d, r. Qed.

Lemma products_fold n tz (inputs : gmap string (option DataFrame)) :
  ∃ pd pq,
    map_fold (product_slot n tz) (mret (∅, ∅)) inputs = inr (pd, pq) ∧
    ∀ name, product_is n tz pd pq name (inputs !! name).
Proof.
  apply (map_fold_weak_ind (λ acc m, ∃ pd pq,
    acc = inr (pd, pq) ∧ ∀ name, product_is n tz pd pq name (m !! name))).
  - exists ∅, ∅. split; [done |]. intros name. by rewrite !lookup_empty.
  - intros i x m acc Hi (pd & pq & -> & Hall).
    destruct x as [df|]; simpl.
    + destruct (reanalysis_call_returns n tz i df) as (d & r & Hcall).
      exists (<[i := Some d]> pd), (<[i := Some r]> pq).
      unfold product_slot. simpl. rewrite Hcall. simpl. split; [reflexivity |].
      intros name. destruct (decide (name = i)) as [->|Hne].
      * unfold product_is. rewrite !lookup_insert_eq. by exists d, r.
      * unfold product_is in *. rewrite lookup_insert_ne by done.
        specialize (Hall name).
        destruct (m !! name) as [[df'|]|]; rewrite !lookup_insert_ne by done; done.
    + exists (<[i := None]> pd), (<[i := None]> pq). split; [reflexivity |].
      intros name. destruct (decide (name = i)) as [->|Hne].
      * unfold product_is. by rewrite !lookup_insert_eq.
      * unfold product_is in *. rewrite lookup_insert_ne by done.
        specialize (Hall name).
        destruct (m !! name) as [[df'|]|]; rewrite !lookup_insert_ne by done; done.
Qed.

End RefineAll.

(** Lookups in a dictionary built by successive insertions. *)
Ltac map_lookup :=
  repeat first [ rewrite lookup_insert_eq | rewrite lookup_insert_ne by done ];
  try done.

Section RefineAllSpec.
Context `{OpenOA}.

Lemma optional_slot_eq key input refiner acc :
  (∀ df, ∃ d r, refiner df = inr (d, r)) →
  ∃ e1 e2,
    optional_slot key input refiner acc = inr (<[key := e1]> acc.1, <[key := e2]> acc.2) ∧
    match input with
    | None => e1 = Absent ∧ e2 = Absent
    | Some df => ∃ d r, refiner df = inr (d, r) ∧ e1 = Table d ∧ e2 = Table r
    end.
Proof.
  intros Hret. destruct input as [df|]; simpl.
  - destruct (Hret df) as (d & r & Heq). exists (Table d), (Table r).
    rewrite Heq. simpl. split; [reflexivity |]. by exists d, r.
  - exists Absent, Absent. split; [reflexivity | done].
Qed.

Lemma refine_all_refines scada_df tz n meter_df curtail_df asset_df reanalysis_dfs :
  ∃ res,
    refine_all scada_df tz n meter_df curtail_df asset_df reanalysis_dfs = inr res ∧
    all_refined res scada_df tz n meter_df curtail_df asset_df reanalysis_dfs.
Proof.
  unfold refine_all.
  destruct (scada_call_returns n tz scada_df) as (d & r & Hs). rewrite Hs. simpl.
  destruct (optional_slot_eq "meter" meter_df (meter_call n tz)
              (<["scada" := Table d]> ∅, <["scada" := Table r]> ∅)
              (meter_call_returns n tz)) as (m1 & m2 & -> & Hm). simpl.
  destruct (optional_slot_eq "curtail" curtail_df (curtail_call n tz)
              (<["meter" := m1]> (<["scada" := Table d]> ∅),
               <["meter" := m2]> (<["scada" := Table r]> ∅))
              (curtail_call_returns n tz)) as (c1 & c2 & -> & Hc). simpl.
  destruct (optional_slot_eq "asset" asset_df asset_call
              (<["curtail" := c1]> (<["meter" := m1]> (<["scada" := Table d]> ∅)),
               <["curtail" := c2]> (<["meter" := m2]> (<["scada" := Table r]> ∅)))
              asset_call_returns) as (a1 & a2 & -> & Ha). simpl.
  destruct (products_fold n tz (default ∅ reanalysis_dfs)) as (pd & pq & Hfold & Hp).
  match goal with
  | |- context [?X ≫= _] => assert (X = inr (pd, pq)) as ->
  end.
  { destruct reanalysis_dfs as [m|]; simpl in Hfold; [done |].
    by rewrite map_fold_empty in Hfold. }
  simpl. eexists. split; [reflexivity |].
  unfold all_refined, slot_is, products_are. simpl.
  split; [|split; [|split; [|split; [|split; [|split]]]]].
  - exists d, r. split; [done |]. split; map_lookup.
  - destruct meter_df.
    + destruct Hm as (d' & r' & ? & -> & ->). exists d', r'.
      split; [done |]. split; map_lookup.
    + destruct Hm as [-> ->]. split; map_lookup.
  - destruct curtail_df.
    + destruct Hc as (d' & r' & ? & -> & ->). exists d', r'.
      split; [done |]. split; map_lookup.
    + destruct Hc as [-> ->]. split; map_lookup.
  - destruct asset_df.
    + destruct Ha as (d' & r' & ? & -> & ->). exists d', r'.
      split; [done |]. split; map_lookup.
    + destruct Ha as [-> ->]. split; map_lookup.
  - exists pd, pq. split; [map_lookup |]. split; [map_lookup | done].
  - rewrite !dom_insert_L, dom_empty_L. unfold top_keys. set_solver.
  - rewrite !dom_insert_L, dom_empty_L. unfold top_keys. set_solver.
Qed.

End RefineAllSpec.

Section Failures.
Context `{OpenOA}.

(** C2. Whatever the library answers, each refiner returns a dataframe and
    a report, never an exception; when the conversion, the duplicate check,
    the gap check or the check of a flag column raises, the message is in the
    report under the key of that step; and [refine_all] returns with every
    input refined on its own, so that a failure in one dataset leaves the
    refinement of the others as it is. *)
Theorem failures_are_recorded :
  (∀ df tz tc idc pc wc tmpc freq pr wr tr thr,
     time_refiner_captures (scada_flags pc wc tmpc pr wr tr thr) df tz tc idc freq
       (refine_scada df tz tc idc pc wc tmpc freq pr wr tr thr)) ∧
  (∀ df tz tc ec freq er,
     time_refiner_captures (meter_flags ec er) df tz tc tc freq
       (refine_meter df tz tc ec freq er)) ∧
  (∀ df tz tc ac cc freq ar cr,
     time_refiner_captures (curtail_flags ac cc ar cr) df tz tc tc freq
       (refine_curtail df tz tc ac cc freq ar cr)) ∧
  (∀ df lat lon rp,
     asset_refiner_captures (asset_flags lat lon rp) df (refine_asset df lat lon rp)) ∧
  (∀ df name tz tc wc wdc tmpc freq wr wdr tr thr,
     time_refiner_captures (reanalysis_flags wc wdc tmpc wr wdr tr thr) df tz tc tc freq
       (refine_reanalysis df name tz tc wc wdc tmpc freq wr wdr tr thr)) ∧
  (∀ scada_df tz n meter_df curtail_df asset_df reanalysis_dfs,
     ∃ res,
       refine_all scada_df tz n meter_df curtail_df asset_df reanalysis_dfs = inr res ∧
       all_refined res scada_df tz n meter_df curtail_df asset_df reanalysis_dfs).
Proof.
  split; [|split; [|split; [|split; [|split]]]]; intros.
  - apply scada_captures.
  - apply meter_captures.
  - apply curtail_captures.
  - apply asset_captures.
  - apply reanalysis_captures.
  - apply refine_all_refines.
Qed.

Lemma slot_is_mirrors res key input refiner :
  slot_is res key input refiner → slot_mirrors res key input.
Proof.
  unfold slot_is, slot_mirrors. destruct input as [df|]; [|done].
  intros (d & r & _ & ? & ?). by exists d, r.
Qed.

Lemma products_mirror n tz pd pq (products : gmap string (option DataFrame)) :
  (∀ name, product_is n tz pd pq name (products !! name)) →
  dom pd = dom products ∧ dom pq = dom products ∧
  ∀ name,
    (products !! name = Some None ↔ pd !! name = Some None) ∧
    (products !! name = Some None ↔ pq !! name = Some None).
Proof.
  intros Hp. split; [|split].
  - apply set_eq. intros name. rewrite !elem_of_dom. specialize (Hp name).
    unfold product_is in Hp. destruct (products !! name) as [[df|]|].
    + destruct Hp as (d & r & _ & -> & _). split; eauto.
    + destruct Hp as [-> _]. split; eauto.
    + destruct Hp as [-> _]. split; intros [? ?]; done.
  - apply set_eq. intros name. rewrite !elem_of_dom. specialize (Hp name).
    unfold product_is in Hp. destruct (products !! name) as [[df|]|].
    + destruct Hp as (d & r & _ & _ & ->). split; eauto.
    + destruct Hp as [_ ->]. split; eauto.
    + destruct Hp as [_ ->]. split; intros [? ?]; done.
  - intros name. specialize (Hp name).
    unfold product_is in Hp. destruct (products !! name) as [[df|]|].
    + destruct Hp as (d & r & _ & -> & ->). split; split; done.
    + destruct Hp as [-> ->]. done.
    + destruct Hp as [-> ->]. split; split; done.
Qed.

(** C6. For every call, [refine_all] returns the two dictionaries
    [dataframes] and [qa_report] with the keys [scada], [meter], [curtail],
    [asset] and [reanalysis]; an optional input that is absent is [None] in
    both; the two [reanalysis] dictionaries have one entry per product of the
    input, [None] in both for a product given as [None]. *)
Theorem refine_all_mirrors_inputs
    scada_df tz n meter_df curtail_df asset_df reanalysis_dfs :
  ∃ res,
    refine_all scada_df tz n meter_df curtail_df asset_df reanalysis_dfs = inr res ∧
    mirrors_inputs res meter_df curtail_df asset_df (default ∅ reanalysis_dfs).
Proof.
  destruct (refine_all_refines scada_df tz n meter_df curtail_df asset_df reanalysis_dfs)
    as (res & Heq & Hs & Hm & Hc & Ha & (pd & pq & Hd & Hq & Hp) & Hdom1 & Hdom2).
  exists res. split; [done |]. unfold mirrors_inputs.
  split; [done |]. split; [done |]. split.
  { destruct Hs as (d & r & _ & ? & ?). by exists d, r. }
  split; [by eapply slot_is_mirrors |].
  split; [by eapply slot_is_mirrors |].
  split; [by eapply slot_is_mirrors |].
  exists pd, pq. split; [done |]. split; [done |]. by eapply products_mirror.
Qed.

End Failures.

(** ** The duplicate and gap counts *)

Lemma unconvertible_safe_int val : unconvertible val → _safe_int val = inr 0.
Proof.
  intros (e & He & Hk). unfold _safe_int. rewrite He. by destruct Hk as [-> | ->].
Qed.

Lemma count_fields_time_keys k : k ∈ count_fields → k ∈ time_keys.
Proof.
  revert k. apply Forall_forall. apply (bool_decide_unpack _). vm_compute. exact I.
Qed.

Section SafeCounts.
Context `{OpenOA}.

Lemma safe_counts_shape tz tc idc freq b record T suf df :
  bookkeeping closing_keys suf → table_fits T →
  safe_counts df tz tc idc freq
    (run_refiner df (seq_all (time_checks tz tc idc freq b ++
                              map (row_step record) T ++ suf))).
Proof.
  intros Hsuf Hfit.
  destruct (refiner_rows (time_checks tz tc idc freq b) record T suf df closing_keys
              (safe_time_checks _ _ _ _ _) Hsuf (proj1 Hfit))
    as (s1 & d & rep & H1 & Hres & _ & Hkept & _ & _).
  { intros k. by apply table_fits_closing. }
  exists d, rep. split; [done |].
  assert (∀ k, k ∈ time_keys → rep !! k = st_report s1 !! k) as Hk.
  { intros k Hk. apply Hkept; [by apply time_key_not_in_table |
                               by apply time_keys_not_closing]. }
  split; [|split].
  - intros k Hin. rewrite (Hk _ (count_fields_time_keys _ Hin)).
    destruct (time_checks_ints _ _ _ _ _ _ _ _ k H1 Hin) as [->|?]; [by left | by right].
  - intros orig mid utc Hcall.
    destruct (time_checks_duplicate_counts _ _ _ _ _ _ _ _ _ _ _ H1 Hcall) as [Ho Hu].
    rewrite !Hk by (unfold time_keys; solve_key_in). split.
    + intros Hbad. apply Ho. by apply unconvertible_safe_int.
    + intros n Hn Hbad. eapply Hu; [done | by apply unconvertible_safe_int].
  - intros orig mid utc Hcall.
    destruct (time_checks_gap_counts _ _ _ _ _ _ _ _ _ _ _ H1 Hcall) as [Ho Hu].
    rewrite !Hk by (unfold time_keys; solve_key_in). split.
    + intros Hbad. apply Ho. by apply unconvertible_safe_int.
    + intros n Hn Hbad. eapply Hu; [done | by apply unconvertible_safe_int].
Qed.

Lemma asset_counts_shape record T suf df :
  bookkeeping closing_keys suf → table_fits T →
  ∃ d rep,
    run_refiner df (seq_all ([missing_id_step] ++ map (row_step record) T ++ suf))
      = inr (d, rep) ∧
    counts_are_integers rep.
Proof.
  intros Hsuf Hfit.
  destruct (refiner_rows [missing_id_step] record T suf df closing_keys
              safe_asset_opening Hsuf (proj1 Hfit))
    as (s1 & d & rep & H1 & Hres & _ & Hkept & _ & _).
  { intros k. by apply table_fits_closing. }
  exists d, rep. split; [done |]. intros k Hin%count_fields_time_keys. left.
  rewrite Hkept by (by apply time_key_not_in_table || by apply time_keys_not_closing).
  destruct (asset_opening_inv _ _ _ H1) as [_ Hw]. rewrite Hw; [done |].
  rewrite list_elem_of_singleton. intros ->. revert Hin.
  apply (bool_decide_unpack _). vm_compute. exact I.
Qed.

(** C10. In every report the four duplicate and gap counts are integers
    whenever they are present (the asset report has none of them); when the
    check returned and [int()] of a size raises [TypeError] or [ValueError],
    the count reported is 0 and the refiner still returns; and [_safe_int]
    gives for such a size exactly what it gives for a size of 0. *)
Theorem counts_are_safe_integers :
  (∀ df tz tc idc pc wc tmpc freq pr wr tr thr,
     safe_counts df tz tc idc freq
       (refine_scada df tz tc idc pc wc tmpc freq pr wr tr thr)) ∧
  (∀ df tz tc ec freq er,
     safe_counts df tz tc tc freq (refine_meter df tz tc ec freq er)) ∧
  (∀ df tz tc ac cc freq ar cr,
     safe_counts df tz tc tc freq (refine_curtail df tz tc ac cc freq ar cr)) ∧
  (∀ df lat lon rp,
     ∃ d rep, refine_asset df lat lon rp = inr (d, rep) ∧ counts_are_integers rep) ∧
  (∀ df name tz tc wc wdc tmpc freq wr wdr tr thr,
     safe_counts df tz tc tc freq
       (refine_reanalysis df name tz tc wc wdc tmpc freq wr wdr tr thr)) ∧
  (∀ val, unconvertible val → _safe_int val = _safe_int (PyInt 0)).
Proof.
  split; [|split; [|split; [|split; [|split]]]]; intros.
  - rewrite refine_scada_steps.
    apply safe_counts_shape; auto using bookkeeping_scada, scada_flags_fit.
  - rewrite refine_meter_steps.
    apply safe_counts_shape; auto using bookkeeping_final, meter_flags_fit.
  - rewrite refine_curtail_steps.
    apply safe_counts_shape; auto using bookkeeping_final, curtail_flags_fit.
  - rewrite refine_asset_steps.
    apply asset_counts_shape; auto using bookkeeping_final, asset_flags_fit.
  - rewrite refine_reanalysis_steps.
    apply safe_counts_shape; auto using bookkeeping_reanalysis, reanalysis_flags_fit.
  - by apply unconvertible_safe_int.
Qed.

End SafeCounts.

(** * The flaggers, from their contracts *)

(** ** Runs *)

Section Runs.
Context {A : Type} `{EqDecision A}.
Implicit Types (l : list A) (x : A).

Lemma runs_nil_inv l : runs l = [] → l = [].
Proof.
  destruct l as [|x l]; [done |]. simpl.
  destruct (runs l) as [|[y n] rs]; [done |]. by case_decide.
Qed.

Lemma runs_head l : fst <$> head (runs l) = head l.
Proof.
  destruct l as [|x l]; [done |]. simpl.
  destruct (runs l) as [|[y n] rs]; [done |]. case_decide; simpl; congruence.
Qed.

Lemma runs_app l1 l2 :
  (∀ x, last l1 = Some x → head l2 ≠ Some x) →
  runs (l1 ++ l2) = runs l1 ++ runs l2.
Proof.
  induction l1 as [|x l1 IH]; intros Hb; [done |].
  simpl. destruct l1 as [|x' l1].
  - simpl in *. pose proof (runs_head l2) as Hh.
    destruct (runs l2) as [|[y n] rs]; [done |].
    case_decide as Hxy; [|done]. subst y. simpl in Hh.
    by destruct (Hb x eq_refl).
  - rewrite IH by (intros y Hy; apply Hb; by rewrite last_cons_cons).
    destruct (runs (x' :: l1)) as [|[y n] rs] eqn:Hr.
    + by apply runs_nil_inv in Hr.
    + simpl. by case_decide.
Qed.

Lemma runs_cons x l :
  runs (x :: l) =
  match runs l with
  | (y, n) :: rs => if decide (x = y) then (y, S n) :: rs else (x, 1%nat) :: (y, n) :: rs
  | [] => [(x, 1%nat)]
  end.
Proof. done. Qed.

Lemma runs_replicate n x : (0 < n)%nat → runs (replicate n x) = [(x, n)].
Proof.
  induction n as [|n IH]; [lia |]. intros _. destruct n as [|n]; [done |].
  change (replicate (S (S n)) x) with (x :: replicate (S n) x).
  rewrite runs_cons, IH by lia. by rewrite decide_True.
Qed.

Lemma last_replicate_S n x : last (replicate (S n) x) = Some x.
Proof.
  induction n as [|n IH]; [done |].
  change (replicate (S (S n)) x) with (x :: x :: replicate n x).
  by rewrite last_cons_cons.
Qed.

Lemma run_flags_app t (rs1 rs2 : list (A * nat)) :
  run_flags t (rs1 ++ rs2) = run_flags t rs1 ++ run_flags t rs2.
Proof. unfold run_flags. apply bind_app. Qed.

Lemma run_flags_length t l : length (run_flags t (runs l)) = length l.
Proof.
  induction l as [|x l IH]; [done |]. simpl.
  destruct (runs l) as [|[y n] rs]; [by destruct l |].
  assert (∀ m, length (run_flags t ((y, m) :: rs)) = (m + length (run_flags t rs))%nat) as Hc.
  { intros m. unfold run_flags. simpl. by rewrite length_app, length_replicate. }
  case_decide.
  - rewrite Hc in *. lia.
  - change (length (run_flags t ((x, 1%nat) :: (y, n) :: rs)))
      with (S (length (run_flags t ((y, n) :: rs)))). lia.
Qed.

(** The samples of a maximal run [replicate n x], between [pre] and [post],
    all get the same flag: whether the run is at least [t] long. *)
Lemma run_flags_maximal t pre x n post i :
  (0 < n)%nat → last pre ≠ Some x → head post ≠ Some x →
  (length pre ≤ i < length pre + n)%nat →
  run_flags t (runs (pre ++ replicate n x ++ post)) !! i
  = Some (bool_decide (t ≤ Z.of_nat n)%Z).
Proof.
  intros Hn Hpre Hpost Hi.
  assert (runs (pre ++ replicate n x ++ post) = runs pre ++ [(x, n)] ++ runs post) as ->.
  { destruct n as [|n]; [lia |]. rewrite runs_app.
    - rewrite runs_app.
      + by rewrite runs_replicate by lia.
      + intros y Hy. rewrite last_replicate_S in Hy. congruence.
    - intros y Hy. simpl. congruence. }
  rewrite !run_flags_app.
  rewrite lookup_app_r by (rewrite run_flags_length; lia).
  rewrite run_flags_length. rewrite lookup_app_l.
  - unfold run_flags. simpl. rewrite app_nil_r. apply lookup_replicate_2. lia.
  - unfold run_flags. simpl. rewrite app_nil_r, length_replicate. lia.
Qed.

End Runs.

(** ** Flag columns hold the verdict of their check *)

Section FlaggedBy.
Context `{OpenOA}.

Lemma flagged_by_shape pre record T suf df d0 :
  Forall safe pre → bookkeeping closing_keys suf → table_fits T →
  (∀ r s1, seq_all pre (mkSt (df_copy df) ∅ []) = (r, s1) →
           st_df s1 = d0 ∧ ∀ k, k ∈ keys T → st_report s1 !! k = None) →
  ∃ d rep,
    run_refiner df (seq_all (pre ++ map (row_step record) T ++ suf)) = inr (d, rep) ∧
    flagged_by T d rep ∧
    ∀ f, f ∈ T → f_col f ∉ names T → column (f_col f) d = column (f_col f) d0.
Proof.
  intros Hpre Hsuf Hfit Hstart.
  destruct (refiner_rows pre record T suf df closing_keys Hpre Hsuf (proj1 Hfit))
    as (s1 & d & rep & H1 & Hres & Hext & _ & Hrows & _).
  { intros k. by apply table_fits_closing. }
  destruct (Hstart _ _ H1) as [Hd0 Hfresh]. rewrite Hd0 in *.
  exists d, rep. split; [done |]. split.
  - intros f Hf Hcol Hsome. specialize (Hrows f Hf Hcol). unfold row_result in Hrows.
    rewrite (flag_ext_column _ _ _ _ Hext Hcol), (flag_ext_rows_length _ _ _ Hext).
    rewrite (Hfresh _ (count_key_in_keys _ _ Hf)) in Hrows.
    destruct (has_column _ _).
    + destruct (run_check _ _) as [e|flags].
      * destruct Hrows as [_ Hnone]. rewrite Hnone in Hsome. by destruct Hsome.
      * exists flags. tauto.
    + destruct Hrows as [Hnone _]. rewrite Hnone in Hsome. by destruct Hsome.
  - intros f Hf Hcol. by apply (flag_ext_column _ _ _ _ Hext).
Qed.

Lemma time_start tz tc idc freq b df T :
  table_fits T →
  ∀ r s1, seq_all (time_checks tz tc idc freq b) (mkSt (df_copy df) ∅ []) = (r, s1) →
          st_df s1 = deduplicated df tc tz ∧ ∀ k, k ∈ keys T → st_report s1 !! k = None.
Proof.
  intros Hfit r s1 Heq. split.
  - apply (time_checks_df _ _ _ _ _ _ _ _ Heq).
  - intros k Hk. by eapply time_checks_fresh.
Qed.

Lemma asset_start df T :
  table_fits T →
  ∀ r s1, seq_all [missing_id_step] (mkSt (df_copy df) ∅ []) = (r, s1) →
          st_df s1 = df_copy df ∧ ∀ k, k ∈ keys T → st_report s1 !! k = None.
Proof.
  intros Hfit r s1 Heq. split.
  - by destruct (asset_opening_inv _ _ _ Heq) as [-> _].
  - intros k Hk. by eapply asset_opening_fresh.
Qed.

Lemma scada_refined_with df tz tc idc pc wc tmpc freq pr wr tr thr :
  refined_with (scada_flags pc wc tmpc pr wr tr thr) (deduplicated df tc tz)
    (refine_scada df tz tc idc pc wc tmpc freq pr wr tr thr).
Proof.
  rewrite refine_scada_steps. apply flagged_by_shape;
    auto using safe_time_checks, bookkeeping_scada, scada_flags_fit.
  apply time_start, scada_flags_fit.
Qed.

Lemma meter_refined_with df tz tc ec freq er :
  refined_with (meter_flags ec er) (deduplicated df tc tz)
    (refine_meter df tz tc ec freq er).
Proof.
  rewrite refine_meter_steps. apply flagged_by_shape;
    auto using safe_time_checks, bookkeeping_final, meter_flags_fit.
  apply time_start, meter_flags_fit.
Qed.

Lemma curtail_refined_with df tz tc ac cc freq ar cr :
  refined_with (curtail_flags ac cc ar cr) (deduplicated df tc tz)
    (refine_curtail df tz tc ac cc freq ar cr).
Proof.
  rewrite refine_curtail_steps. apply flagged_by_shape;
    auto using safe_time_checks, bookkeeping_final, curtail_flags_fit.
  apply time_start, curtail_flags_fit.
Qed.

Lemma asset_refined_with df lat lon rp :
  refined_with (asset_flags lat lon rp) (df_copy df) (refine_asset df lat lon rp).
Proof.
  rewrite refine_asset_steps. apply flagged_by_shape;
    auto using safe_asset_opening, bookkeeping_final, asset_flags_fit.
  apply asset_start, asset_flags_fit.
Qed.

Lemma reanalysis_refined_with df name tz tc wc wdc tmpc freq wr wdr tr thr :
  refined_with (reanalysis_flags wc wdc tmpc wr wdr tr thr) (deduplicated df tc tz)
    (refine_reanalysis df name tz tc wc wdc tmpc freq wr wdr tr thr).
Proof.
  rewrite refine_reanalysis_steps. apply flagged_by_shape;
    auto using safe_time_checks, bookkeeping_reanalysis, reanalysis_flags_fit.
  apply time_start, reanalysis_flags_fit.
Qed.

End FlaggedBy.

(** ** The run rule of the unresponsive flagger *)

Lemma spec_unresponsive_rule data t :
  run_rule t data (VBool <$> run_flags t (runs data)).
Proof.
  intros start n x i (pre & post & -> & <- & Hn & Hpre & Hpost) Hi.
  rewrite list_lookup_fmap, (run_flags_maximal t pre x n post i) by done. simpl.
  split; intros Hlen; do 2 f_equal;
    [apply bool_decide_eq_false | apply bool_decide_eq_true]; lia.
Qed.

Lemma column_length col d : length (column col d) = length (rows d).
Proof. unfold column. apply length_map. Qed.

Lemma unresponsive_rows_of_flagged na lib T d rep :
  @flagged_by (with_spec_flaggers na lib) T d rep → unresponsive_rows_ok T d rep.
Proof.
  intros Hflag f t Hf Hcheck Hcol Hsome.
  destruct (Hflag f Hf Hcol Hsome) as (flags & Hrun & Hcolumn).
  rewrite Hcheck in Hrun. simpl in Hrun. injection Hrun as <-.
  rewrite Hcolumn, <- (column_length (f_col f)).
  rewrite <- (run_flags_length t (column (f_col f) d)), flag_values_exact.
  apply spec_unresponsive_rule.
Qed.

(** C3. Under the Unresponsive-Sensor Flagger with threshold [t], no member
    of a maximal run of identical values shorter than [t] is flagged and
    every member of a maximal run at least [t] long is; and the flag columns
    [refine_scada] and [refine_reanalysis] append with that flagger obey the
    rule on the data column of the frame they return. *)
Theorem unresponsive_runs_are_flagged :
  (∀ data t,
     ∃ flags, spec_unresponsive_flag data t = inr flags ∧
              length flags = length data ∧
              run_rule t data (VBool <$> flags)) ∧
  (∀ na lib df tz tc idc pc wc tmpc freq pr wr tr thr,
     ∃ d rep,
       @refine_scada (with_spec_flaggers na lib)
         df tz tc idc pc wc tmpc freq pr wr tr thr = inr (d, rep) ∧
       unresponsive_rows_ok (scada_flags pc wc tmpc pr wr tr thr) d rep) ∧
  (∀ na lib df name tz tc wc wdc tmpc freq wr wdr tr thr,
     ∃ d rep,
       @refine_reanalysis (with_spec_flaggers na lib)
         df name tz tc wc wdc tmpc freq wr wdr tr thr = inr (d, rep) ∧
       unresponsive_rows_ok (reanalysis_flags wc wdc tmpc wr wdr tr thr) d rep).
Proof.
  split; [|split].
  - intros data t. exists (run_flags t (runs data)).
    split; [done |]. split; [apply run_flags_length | apply spec_unresponsive_rule].
  - intros.
    destruct (@scada_refined_with (with_spec_flaggers na lib)
                df tz tc idc pc wc tmpc freq pr wr tr thr) as (d & rep & Heq & Hf & _).
    exists d, rep. split; [done |]. by apply (unresponsive_rows_of_flagged na lib).
  - intros.
    destruct (@reanalysis_refined_with (with_spec_flaggers na lib)
                df name tz tc wc wdc tmpc freq wr wdr tr thr) as (d & rep & Heq & Hf & _).
    exists d, rep. split; [done |]. by apply (unresponsive_rows_of_flagged na lib).
Qed.

(** ** The bounds rule of the range flagger *)

Lemma range_flag_value_rule na lower upper q :
  ((q < lower ∨ upper < q)%Qc → range_flag_value na lower upper (VNum q) = inr true) ∧
  ((lower ≤ q ∧ q ≤ upper)%Qc → range_flag_value na lower upper (VNum q) = inr false).
Proof.
  simpl. split.
  - intros [Hlt|Hlt].
    + apply Qclt_not_le in Hlt. by rewrite (bool_decide_eq_false_2 _ Hlt).
    + apply Qclt_not_le in Hlt. rewrite (bool_decide_eq_false_2 _ Hlt).
      by rewrite andb_false_r.
  - intros [H1 H2]. by rewrite !bool_decide_eq_true_2.
Qed.

Lemma spec_range_rule na data lower upper flags :
  spec_range_flag na data lower upper = inr flags →
  length flags = length data ∧ range_rule lower upper data (VBool <$> flags).
Proof.
  revert flags. induction data as [|v data IH]; intros flags Heq; simpl in Heq.
  - injection Heq as <-. split; [done |]. intros i q Hi. by rewrite lookup_nil in Hi.
  - destruct (range_flag_value na lower upper v) as [e|b] eqn:Hv; [done |].
    destruct (spec_range_flag na data lower upper) as [e|bs]; [done |].
    injection Heq as <-. destruct (IH bs eq_refl) as [Hlen Hrule].
    split; [simpl; by f_equal |].
    intros [|i] q Hi; [|by apply Hrule].
    simpl in Hi. injection Hi as ->.
    destruct (range_flag_value_rule na lower upper q) as [Hout Hin].
    split; intros Hq; simpl; do 2 f_equal; [specialize (Hout Hq) | specialize (Hin Hq)];
      congruence.
Qed.

(** On a column of numbers the flagger returns. *)
Lemma spec_range_flag_numbers na qs lower upper :
  ∃ flags, spec_range_flag na (VNum <$> qs) lower upper = inr flags.
Proof.
  induction qs as [|q qs [flags IH]]; [by exists [] |].
  rewrite fmap_cons. cbn [spec_range_flag range_flag_value]. rewrite IH. by eexists.
Qed.

Lemma range_rows_of_flagged na lib T d rep :
  @flagged_by (with_spec_flaggers na lib) T d rep → range_rows_ok T d rep.
Proof.
  intros Hflag f rng Hf Hcheck Hcol Hsome.
  destruct (Hflag f Hf Hcol Hsome) as (flags & Hrun & Hcolumn).
  rewrite Hcheck in Hrun. simpl in Hrun.
  destruct (spec_range_rule _ _ _ _ _ Hrun) as [Hlen Hrule].
  rewrite Hcolumn, <- (column_length (f_col f)), <- Hlen, flag_values_exact. done.
Qed.

Lemma range_flagged_of_refined na lib T d0 res :
  @refined_with (with_spec_flaggers na lib) T d0 res → range_flagged T d0 res.
Proof.
  intros (d & rep & Heq & Hflag & Hdata). exists d, rep.
  split; [done |]. split; [by apply (range_rows_of_flagged na lib) | done].
Qed.

(** C4. Under the Range Flagger with inclusive bounds, a value outside
    [lower, upper] is marked [True] and a value inside is marked [False],
    and on a column of numbers the flagger returns;
    the range flag columns the five refiners append with that flagger obey
    the rule on the data column of the frame they return, and that data
    column is the one of the deduplicated frame: no value is changed. *)
Theorem range_flags_follow_bounds :
  (∀ na data lower upper flags,
     spec_range_flag na data lower upper = inr flags →
     length flags = length data ∧ range_rule lower upper data (VBool <$> flags)) ∧
  (∀ na qs lower upper,
     ∃ flags, spec_range_flag na (VNum <$> qs) lower upper = inr flags) ∧
  (∀ na lib df tz tc idc pc wc tmpc freq pr wr tr thr,
     range_flagged (scada_flags pc wc tmpc pr wr tr thr)
       (@deduplicated (with_spec_flaggers na lib) df tc tz)
       (@refine_scada (with_spec_flaggers na lib)
          df tz tc idc pc wc tmpc freq pr wr tr thr)) ∧
  (∀ na lib df tz tc ec freq er,
     range_flagged (meter_flags ec er)
       (@deduplicated (with_spec_flaggers na lib) df tc tz)
       (@refine_meter (with_spec_flaggers na lib) df tz tc ec freq er)) ∧
  (∀ na lib df tz tc ac cc freq ar cr,
     range_flagged (curtail_flags ac cc ar cr)
       (@deduplicated (with_spec_flaggers na lib) df tc tz)
       (@refine_curtail (with_spec_flaggers na lib) df tz tc ac cc freq ar cr)) ∧
  (∀ na lib df lat lon rp,
     range_flagged (asset_flags lat lon rp) (df_copy df)
       (@refine_asset (with_spec_flaggers na lib) df lat lon rp)) ∧
  (∀ na lib df name tz tc wc wdc tmpc freq wr wdr tr thr,
     range_flagged (reanalysis_flags wc wdc tmpc wr wdr tr thr)
       (@deduplicated (with_spec_flaggers na lib) df tc tz)
       (@refine_reanalysis (with_spec_flaggers na lib)
          df name tz tc wc wdc tmpc freq wr wdr tr thr)).
Proof.
  split; [|split; [|split; [|split; [|split; [|split]]]]]; intros.
  - by eapply spec_range_rule.
  - apply spec_range_flag_numbers.
  - apply (range_flagged_of_refined na lib), scada_refined_with.
  - apply (range_flagged_of_refined na lib), meter_refined_with.
  - apply (range_flagged_of_refined na lib), curtail_refined_with.
  - apply (range_flagged_of_refined na lib), asset_refined_with.
  - apply (range_flagged_of_refined na lib), reanalysis_refined_with.
Qed.

(** ** Dropping duplicates, keeping the last *)

Section KeepLast.
Context {A K : Type} `{EqDecision K}.
Implicit Types (key : A → K) (l : list A).

Lemma keep_last_sublist key l : keep_last key l `sublist_of` l.
Proof.
  induction l as [|x l IH]; simpl; [done |].
  case_bool_decide; [by apply sublist_cons | by apply sublist_skip].
Qed.

Lemma keep_last_keys key l k : k ∈ map key (keep_last key l) ↔ k ∈ map key l.
Proof.
  induction l as [|x l IH]; simpl; [done |].
  case_bool_decide as Hin; simpl; rewrite !elem_of_cons, ?IH; [|done].
  split; [by right | intros [->|?]; done].
Qed.

(** The keys of the rows kept are pairwise distinct. *)
Lemma keep_last_NoDup key l : NoDup (map key (keep_last key l)).
Proof.
  induction l as [|x l IH]; simpl; [constructor |].
  case_bool_decide as Hin; [done |]. simpl. constructor; [|done].
  by rewrite keep_last_keys.
Qed.

(** Nothing is dropped from rows whose keys are pairwise distinct. *)
Lemma keep_last_id key l : NoDup (map key l) → keep_last key l = l.
Proof.
  induction l as [|x l IH]; simpl; [done |].
  intros [Hx Hl]%NoDup_cons. rewrite bool_decide_eq_false_2 by done.
  by rewrite IH.
Qed.

(** A row is dropped only when a later row has its key. *)
Lemma keep_last_dropped key l1 x l2 :
  x ∉ keep_last key (l1 ++ x :: l2) → key x ∈ map key l2.
Proof.
  induction l1 as [|y l1 IH]; simpl.
  - case_bool_decide; [done |]. rewrite elem_of_cons. tauto.
  - case_bool_decide; [done |]. rewrite elem_of_cons. tauto.
Qed.

(** The last row of each key is kept. *)
Lemma keep_last_kept key l1 x l2 :
  key x ∉ map key l2 → x ∈ keep_last key (l1 ++ x :: l2).
Proof.
  intros Hlast. induction l1 as [|y l1 IH]; simpl.
  - rewrite bool_decide_eq_false_2 by done. apply elem_of_cons. by left.
  - case_bool_decide; [done |]. apply elem_of_cons. by right.
Qed.

End KeepLast.

Lemma _drop_duplicates_eq d time_col :
  _drop_duplicates d time_col = mkDF (columns d) (keep_last (dup_key time_col d) (rows d)).
Proof. unfold _drop_duplicates, dup_key. by destruct (has_column time_col d). Qed.

Lemma _drop_duplicates_columns d time_col :
  columns (_drop_duplicates d time_col) = columns d.
Proof. by rewrite _drop_duplicates_eq. Qed.

Lemma _drop_duplicates_sublist d time_col :
  rows (_drop_duplicates d time_col) `sublist_of` rows d.
Proof. rewrite _drop_duplicates_eq. apply keep_last_sublist. Qed.

Lemma _drop_duplicates_unique d time_col : unique_keys time_col (_drop_duplicates d time_col).
Proof.
  rewrite _drop_duplicates_eq. unfold unique_keys, dup_key, has_column. simpl.
  fold (has_column time_col d). fold (dup_key time_col d). apply keep_last_NoDup.
Qed.

Lemma _drop_duplicates_id d time_col :
  unique_keys time_col d → _drop_duplicates d time_col = d.
Proof.
  intros Hu. rewrite _drop_duplicates_eq, keep_last_id by done. by destruct d.
Qed.

(** ** Refinement only annotates the frame it deduplicated *)

Section Annotates.
Context `{OpenOA}.

Lemma only_annotates_shape pre record T suf df d0 :
  Forall safe pre → bookkeeping closing_keys suf → table_fits T →
  (∀ r s1, seq_all pre (mkSt (df_copy df) ∅ []) = (r, s1) → st_df s1 = d0) →
  only_annotates (names T) d0
    (run_refiner df (seq_all (pre ++ map (row_step record) T ++ suf))).
Proof.
  intros Hpre Hsuf Hfit Hstart.
  destruct (refiner_rows pre record T suf df closing_keys Hpre Hsuf (proj1 Hfit))
    as (s1 & d & rep & H1 & Hres & Hext & _).
  { intros k. by apply table_fits_closing. }
  exists d, rep. split; [done |]. by rewrite <- (Hstart _ _ H1).
Qed.

Lemma annotates_deduplicated_shape tz tc idc freq b record T suf df :
  bookkeeping closing_keys suf → table_fits T →
  annotates_deduplicated (names T) df tz tc
    (run_refiner df (seq_all (time_checks tz tc idc freq b ++
                              map (row_step record) T ++ suf))).
Proof.
  intros Hsuf Hfit.
  assert (Hann : only_annotates (names T) (deduplicated df tc tz)
            (run_refiner df (seq_all (time_checks tz tc idc freq b ++
                                      map (row_step record) T ++ suf)))).
  { apply only_annotates_shape; auto using safe_time_checks.
    intros r s1 Heq. apply (time_checks_df _ _ _ _ _ _ _ _ Heq). }
  split; [exact Hann |].
  split; [apply _drop_duplicates_columns |].
  split; [apply _drop_duplicates_sublist |].
  intros Hkept. destruct Hann as (d & rep & Hres & Hext).
  exists d, rep. split; [exact Hres |].
  intros c Hc. destruct Hext as (Hcols & _). apply Hcols.
  unfold deduplicated. rewrite _drop_duplicates_columns. by apply Hkept.
Qed.

(** The amended C7.  Every refiner returns the frame it deduplicated with
    flag columns written and nothing else changed: no column of that frame
    is lost, a column that is new is a flag column of the refiner and holds
    booleans (or the missing value where the flagger returned none), every
    row is a row of that frame with only flag cells written, and the
    flagging steps leave the number of rows alone.  For a time-indexed
    refiner that frame has the columns of the frame the conversion step
    handed over (the frame the library returned, or the refiner's copy as
    the library left it when it raised) and a sub-list of its rows, so
    that rows are dropped and never added; the columns of the input are
    columns of the result whenever the conversion step kept them.  For
    asset data the deduplicated frame is the input. *)
Theorem refinement_only_annotates :
  (∀ df tz tc idc pc wc tmpc freq pr wr tr thr,
     annotates_deduplicated (names (scada_flags pc wc tmpc pr wr tr thr)) df tz tc
       (refine_scada df tz tc idc pc wc tmpc freq pr wr tr thr)) ∧
  (∀ df tz tc ec freq er,
     annotates_deduplicated (names (meter_flags ec er)) df tz tc
       (refine_meter df tz tc ec freq er)) ∧
  (∀ df tz tc ac cc freq ar cr,
     annotates_deduplicated (names (curtail_flags ac cc ar cr)) df tz tc
       (refine_curtail df tz tc ac cc freq ar cr)) ∧
  (∀ df lat lon rp,
     only_annotates (names (asset_flags lat lon rp)) df (refine_asset df lat lon rp)) ∧
  (∀ df name tz tc wc wdc tmpc freq wr wdr tr thr,
     annotates_deduplicated (names (reanalysis_flags wc wdc tmpc wr wdr tr thr)) df tz tc
       (refine_reanalysis df name tz tc wc wdc tmpc freq wr wdr tr thr)).
Proof.
  split; [|split; [|split; [|split]]]; intros.
  - rewrite refine_scada_steps.
    apply annotates_deduplicated_shape; auto using bookkeeping_scada, scada_flags_fit.
  - rewrite refine_meter_steps.
    apply annotates_deduplicated_shape; auto using bookkeeping_final, meter_flags_fit.
  - rewrite refine_curtail_steps.
    apply annotates_deduplicated_shape; auto using bookkeeping_final, curtail_flags_fit.
  - rewrite refine_asset_steps.
    apply only_annotates_shape;
      auto using safe_asset_opening, bookkeeping_final, asset_flags_fit.
    intros r s1 Heq. by destruct (asset_opening_inv _ _ _ Heq) as [-> _].
  - rewrite refine_reanalysis_steps.
    apply annotates_deduplicated_shape;
      auto using bookkeeping_reanalysis, reanalysis_flags_fit.
Qed.

End Annotates.

(** * Frames with columns removed *)

Lemma lookup_foldr_delete {V : Type} (m : gmap string V) cs c :
  c ∉ cs → foldr delete m cs !! c = m !! c.
Proof.
  induction cs as [|c' cs IH]; simpl; [done |].
  rewrite not_elem_of_cons. intros [Hne Hcs]. by rewrite lookup_delete_ne, IH.
Qed.

Lemma drop_columns_unique cs tc d :
  tc ∉ cs → unique_keys tc d → unique_keys tc (drop_columns cs d).
Proof.
  intros Hcs. unfold unique_keys, drop_columns. simpl.
  assert (dup_key tc (mkDF (filter (λ c, c ∉ cs) (columns d))
            (map (λ r, mkRow (label r) (foldr delete (cells r) cs)) (rows d)))
          = dup_key tc d) as ->.
  { unfold dup_key, has_column. simpl.
    rewrite (bool_decide_ext (tc ∈ filter (λ c, c ∉ cs) (columns d)) (tc ∈ columns d));
      [done |].
    rewrite list_elem_of_filter. tauto. }
  rewrite map_map. intros Hu. erewrite map_ext; [exact Hu |].
  intros r. unfold dup_key. destruct (has_column tc d); [|done].
  unfold get_cell. simpl. by rewrite lookup_foldr_delete.
Qed.

Lemma flag_ext_unique F tc d d' :
  flag_ext F d d' → tc ∉ F → unique_keys tc d → unique_keys tc d'.
Proof.
  intros Hext Htc. unfold unique_keys, dup_key.
  rewrite (flag_ext_has_column _ _ _ _ Hext Htc).
  destruct (has_column tc d).
  - pose proof (flag_ext_column _ _ _ _ Hext Htc) as Hc. unfold column in Hc.
    by rewrite Hc.
  - by rewrite (flag_ext_labels _ _ _ Hext).
Qed.

(** * The refiners at work *)

Lemma returned_inv {A : Type} (r : exn + A) (P : A → Prop) `{∀ a, Decision (P a)} :
  returned r (λ a, bool_decide (P a)) = true → ∃ a, r = inr a ∧ P a.
Proof.
  destruct r as [e|a]; simpl; [done |].
  intros Ha%bool_decide_eq_true. by exists a.
Qed.

(** The scenario of section 8 of the spec, with the library of the spec:
    one row is left at 09:00, the later one; one row was dropped; the five
    instants 09:10 to 09:50 are missing. *)
Example scenario_refined :
  ∃ d rep,
    @scada_call (spec_lib false false) default_names "UTC" scenario = inr (d, rep) ∧
    column "Date_time" d = [VTime 32400; VTime 36000] ∧
    column "P_avg" d = [VNum (Qc_of_Z 105); VNum (Qc_of_Z 110)] ∧
    rep !! "rows_dropped_duplicates" = Some (RInt 1) ∧
    rep !! "time_gaps_original_count" = Some (RInt 5) ∧
    rep !! "final_row_count" = Some (RInt 2).
Proof.
  destruct (returned_inv
    (@scada_call (spec_lib false false) default_names "UTC" scenario)
    (λ out, column "Date_time" out.1 = [VTime 32400; VTime 36000] ∧
            column "P_avg" out.1 = [VNum (Qc_of_Z 105); VNum (Qc_of_Z 110)] ∧
            out.2 !! "rows_dropped_duplicates" = Some (RInt 1) ∧
            out.2 !! "time_gaps_original_count" = Some (RInt 5) ∧
            out.2 !! "final_row_count" = Some (RInt 2)))
    as ([d rep] & Hcall & Hout); [vm_compute; reflexivity |].
  exists d, rep. split; [exact Hcall | exact Hout].
Qed.

(** C1, where the code departs from it.  Two turbines report at the same
    instant: their (time, identifier) keys differ, and the duplicate check,
    which is given the identifier column, counts no duplicate; yet
    [_drop_duplicates], which is given the time column only, drops the row
    of the first turbine, and [refine_scada] returns one row. *)
Theorem drop_ignores_the_identifier :
  _drop_duplicates two_turbines "Date_time"
    = mkDF scada_columns [scada_row 1 32400 "T2" 200] ∧
  ∃ d rep,
    @scada_call (spec_lib false false) default_names "UTC" two_turbines = inr (d, rep) ∧
    column "Wind_turbine_name" d = [VStr "T2"] ∧
    rep !! "duplicate_original_count" = Some (RInt 0) ∧
    rep !! "rows_dropped_duplicates" = Some (RInt 1) ∧
    rep !! "final_row_count" = Some (RInt 1).
Proof.
  split; [vm_compute; reflexivity |].
  destruct (returned_inv
    (@scada_call (spec_lib false false) default_names "UTC" two_turbines)
    (λ out, column "Wind_turbine_name" out.1 = [VStr "T2"] ∧
            out.2 !! "duplicate_original_count" = Some (RInt 0) ∧
            out.2 !! "rows_dropped_duplicates" = Some (RInt 1) ∧
            out.2 !! "final_row_count" = Some (RInt 1)))
    as ([d rep] & Hcall & Hout); [vm_compute; reflexivity |].
  exists d, rep. split; [exact Hcall | exact Hout].
Qed.

(** C7 as stated fails: with a normalizer that produces a new column, the
    frame [refine_scada] returns has a column that the input has not, that
    is no flag column of the refiner, and that holds the UTC instants of
    the rows kept. *)
Lemma conversion_column_is_added :
  ∃ d rep,
    @scada_call (spec_lib_column false) default_names "Europe/Paris" scenario
      = inr (d, rep) ∧
    "Date_time_utc" ∈ columns d ∧
    ("Date_time_utc" ∉ columns scenario) ∧
    ("Date_time_utc" ∉ names (scada_flags "P_avg" "Ws_avg" "Ot_avg" scada_power_range
                                scada_windspeed_range scada_temp_range
                                default_threshold)) ∧
    column "Date_time_utc" d = [VTime 28800; VTime 32400].
Proof.
  destruct (returned_inv
    (@scada_call (spec_lib_column false) default_names "Europe/Paris" scenario)
    (λ out, "Date_time_utc" ∈ columns out.1 ∧
            ("Date_time_utc" ∉ columns scenario) ∧
            ("Date_time_utc" ∉ names (scada_flags "P_avg" "Ws_avg" "Ot_avg"
                                        scada_power_range scada_windspeed_range
                                        scada_temp_range default_threshold)) ∧
            column "Date_time_utc" out.1 = [VTime 28800; VTime 32400]))
    as ([d rep] & Hcall & Hout); [vm_compute; reflexivity |].
  exists d, rep. split; [exact Hcall | exact Hout].
Qed.

(** The amended C7 at the scenario of section 8, with the normalizer that
    produces a new column: the conversion step keeps the columns of the
    input, and they are columns of the frame returned. *)
Lemma scenario_keeps_its_columns :
  (∀ c, c ∈ columns scenario →
        c ∈ columns (@handed_over (spec_lib_column false) scenario
                       "Date_time" "Europe/Paris")) ∧
  keeps_columns scenario
    (@scada_call (spec_lib_column false) default_names "Europe/Paris" scenario).
Proof.
  assert (∀ c, c ∈ columns scenario →
               c ∈ columns (@handed_over (spec_lib_column false) scenario
                              "Date_time" "Europe/Paris")) as Hkept.
  { apply Forall_forall. apply (bool_decide_unpack _). vm_compute. reflexivity. }
  split; [exact Hkept |].
  exact (proj2 (proj2 (proj2
           (proj1 (@refinement_only_annotates (spec_lib_column false))
              scenario "Europe/Paris" "Date_time" "Wind_turbine_name" "P_avg" "Ws_avg"
              "Ot_avg" "10min" scada_power_range scada_windspeed_range scada_temp_range
              default_threshold))) Hkept).
Defined.

(** ** The flaggers on sample columns *)

Lemma flag_lookup (flags : list bool) i b :
  (VBool <$> flags) !! i = Some (VBool b) → flags !! i = Some b.
Proof.
  rewrite list_lookup_fmap. destruct (flags !! i); simpl; congruence.
Defined.

(** With threshold 3 the run of three is flagged throughout and the run of
    two is not. *)
Lemma stuck_sensor_flagged :
  ∃ flags,
    spec_unresponsive_flag stuck_sensor 3 = inr flags ∧
    (∀ i, (i < 3)%nat → flags !! i = Some true) ∧
    (∀ i, (3 ≤ i < 5)%nat → flags !! i = Some false).
Proof.
  destruct (proj1 unresponsive_runs_are_flagged stuck_sensor 3)
    as (flags & Hflags & _ & Hrule).
  exists flags. split; [exact Hflags |]. split; intros i Hi.
  - apply flag_lookup.
    apply (Hrule 0%nat 3%nat (VNum (Qc_of_Z 5)) i); [|lia | lia].
    exists [], (VNum ∘ Qc_of_Z <$> [7; 7]).
    split; [reflexivity |]. split; [reflexivity |]. split; [lia |].
    split; apply (bool_decide_unpack _); vm_compute; reflexivity.
  - apply flag_lookup.
    apply (Hrule 3%nat 2%nat (VNum (Qc_of_Z 7)) i); [|lia | lia].
    exists (VNum ∘ Qc_of_Z <$> [5; 5; 5]), [].
    split; [reflexivity |]. split; [reflexivity |]. split; [lia |].
    split; apply (bool_decide_unpack _); vm_compute; reflexivity.
Defined.

(** Within [-20, 2200] the first reading is not flagged and the other two
    are. *)
Lemma power_readings_flagged :
  spec_range_flag false power_readings (Qc_of_Z (-20)) (Qc_of_Z 2200)
    = inr [false; true; true] ∧
  length [false; true; true] = length power_readings ∧
  range_rule (Qc_of_Z (-20)) (Qc_of_Z 2200) power_readings
    (VBool <$> [false; true; true]).
Proof.
  assert (spec_range_flag false power_readings (Qc_of_Z (-20)) (Qc_of_Z 2200)
          = inr [false; true; true]) as Hflags by (vm_compute; reflexivity).
  split; [exact Hflags |].
  exact (proj1 range_flags_follow_bounds false _ _ _ _ Hflags).
Defined.

(** ** Running twice *)

(** A shift of the timestamps keeps the keys apart. *)
Lemma spec_convert_unique d tc tz aware d' :
  spec_convert false d tc tz aware = inr d' →
  unique_keys tc d → unique_keys tc d'.
Proof.
  unfold spec_convert, unique_keys, dup_key.
  destruct (has_column tc d) eqn:Hcol; [|done].
  destruct (utc_offset tz) as [offset|]; [|done].
  destruct (mapM _ (rows d)) as [rs|] eqn:Hrows; [|done].
  intros [= <-]. unfold has_column in *. simpl. rewrite Hcol.
  apply mapM_Some in Hrows.
  set (shift := λ v, match v with VTime t => VTime (t - offset) | _ => v end).
  assert (Inj (=) (=) shift) as Hinj.
  { intros [] [] Heq; simpl in Heq; try congruence.
    injection Heq as Heq. f_equal. lia. }
  assert (map (get_cell tc) rs = shift <$> map (get_cell tc) (rows d)) as ->.
  { induction Hrows as [|r r' l l' Hr _ IH]; simpl; [done |].
    rewrite IH. f_equal. unfold convert_row in Hr.
    destruct (get_cell tc r) eqn:Hcell; try done.
    injection Hr as <-. unfold get_cell. simpl. by rewrite lookup_insert_eq. }
  by apply NoDup_fmap_2.
Qed.

(** The second run drops no row and the duplicate check finds nothing. *)
Example scenario_refined_twice :
  ∃ d rep,
    refined_twice = inr (d, rep) ∧
    column "P_avg" d = [VNum (Qc_of_Z 105); VNum (Qc_of_Z 110)] ∧
    rep !! "rows_dropped_duplicates" = Some (RInt 0) ∧
    rep !! "duplicate_original_count" = Some (RInt 0) ∧
    rep !! "final_row_count" = Some (RInt 2).
Proof.
  destruct (returned_inv refined_twice
    (λ out, column "P_avg" out.1 = [VNum (Qc_of_Z 105); VNum (Qc_of_Z 110)] ∧
            out.2 !! "rows_dropped_duplicates" = Some (RInt 0) ∧
            out.2 !! "duplicate_original_count" = Some (RInt 0) ∧
            out.2 !! "final_row_count" = Some (RInt 2)))
    as ([d rep] & Hcall & Hout); [vm_compute; reflexivity |].
  exists d, rep. split; [exact Hcall | exact Hout].
Qed.

(** * Further properties of [refine.py] *)

(** ** [_drop_duplicates] *)

Section KeepLastMore.
Context {A K : Type} `{EqDecision K}.
Implicit Types (key : A → K) (l : list A).

(** Every row kept is the last one of its key. *)
Lemma keep_last_is_last key l x :
  x ∈ keep_last key l → ∃ l1 l2, l = l1 ++ x :: l2 ∧ key x ∉ map key l2.
Proof.
  induction l as [|y l IH]; simpl; [by intros ?%elem_of_nil |].
  case_bool_decide as Hin.
  - intros (l1 & l2 & -> & Hlast)%IH. by exists (y :: l1), l2.
  - intros [->|Hx]%elem_of_cons; [by exists [], l |].
    destruct (IH Hx) as (l1 & l2 & -> & Hlast). by exists (y :: l1), l2.
Qed.

Lemma keep_last_fixpoint key l : keep_last key l = l → NoDup (map key l).
Proof. intros Heq. rewrite <- Heq. apply keep_last_NoDup. Qed.

Lemma keep_last_length key l : (length (keep_last key l) ≤ length l)%nat.
Proof. apply sublist_length, keep_last_sublist. Qed.

End KeepLastMore.

(** X1. [_drop_duplicates] keeps the columns and, of the rows, exactly the
    last one of every duplicate key (the time column when the frame has it,
    the index label otherwise), in their original order: the rows kept are
    a sub-list of the rows, their keys are pairwise distinct, a row no later
    row shares the key of is kept, and every row kept is such a row. *)
Theorem drop_duplicates_keeps_last_rows d time_col :
  columns (_drop_duplicates d time_col) = columns d ∧
  rows (_drop_duplicates d time_col) `sublist_of` rows d ∧
  NoDup (map (dup_key time_col d) (rows (_drop_duplicates d time_col))) ∧
  (∀ l1 r l2, rows d = l1 ++ r :: l2 →
     dup_key time_col d r ∉ map (dup_key time_col d) l2 →
     r ∈ rows (_drop_duplicates d time_col)) ∧
  (∀ r, r ∈ rows (_drop_duplicates d time_col) →
     ∃ l1 l2, rows d = l1 ++ r :: l2 ∧
              dup_key time_col d r ∉ map (dup_key time_col d) l2).
Proof.
  rewrite _drop_duplicates_eq. simpl. split; [done |].
  split; [apply keep_last_sublist |]. split; [apply keep_last_NoDup |]. split.
  - intros l1 r l2 -> Hlast. by apply keep_last_kept.
  - intros r. apply keep_last_is_last.
Qed.

(** X2. [_drop_duplicates] is idempotent, never adds a row, and leaves a
    frame as it is exactly when the duplicate keys of its rows are pairwise
    distinct. *)
Theorem drop_duplicates_idempotent d time_col :
  _drop_duplicates (_drop_duplicates d time_col) time_col = _drop_duplicates d time_col ∧
  len (_drop_duplicates d time_col) ≤ len d ∧
  (_drop_duplicates d time_col = d ↔ unique_keys time_col d).
Proof.
  split; [apply _drop_duplicates_id, _drop_duplicates_unique |]. split.
  - rewrite _drop_duplicates_eq. unfold len. simpl.
    apply inj_le, keep_last_length.
  - split; [|apply _drop_duplicates_id].
    rewrite _drop_duplicates_eq. intros Heq. unfold unique_keys.
    apply keep_last_fixpoint. by apply (f_equal rows) in Heq.
Qed.

(** ** The opening checks in the report *)

Ltac run_step :=
  intros;
  repeat progress
    (unfold duplicate_step, gap_step, gap_timestamps, try_except, mbind, M_bind,
       mret, M_ret, call, get_df, report_set, when in *;
     repeat case_match; simplify_eq/=).

Section OpeningChecks.
Context `{OpenOA}.

Lemma duplicate_step_returned time_col id_col s orig mid utc n m :
  duplicate_time_identification (st_df s) time_col id_col = inr (orig, mid, utc) →
  _safe_int (size orig) = inr n → _safe_int (size_or_zero utc) = inr m →
  duplicate_step time_col id_col s =
  (inr tt,
   mkSt (st_df s)
     (<["duplicate_utc_count" := RInt m]>
        (<["duplicate_original_count" := RInt n]> (st_report s)))
     (st_flag_cols s)).
Proof. run_step; congruence. Qed.

Lemma gap_step_returned time_col freq b s orig mid utc n m :
  gap_time_identification (st_df s) time_col freq = inr (orig, mid, utc) →
  _safe_int (size orig) = inr n → _safe_int (size_or_zero utc) = inr m →
  gap_step time_col freq b s =
  (inr tt,
   mkSt (st_df s)
     (listed (if b then utc else None)
        (<["time_gaps_utc_count" := RInt m]>
           (<["time_gaps_original_count" := RInt n]> (st_report s))))
     (st_flag_cols s)).
Proof. unfold listed. run_step; congruence. Qed.

Lemma time_checks_report tz tc idc freq b df r s1 :
  seq_all (time_checks tz tc idc freq b) (mkSt (df_copy df) ∅ []) = (r, s1) →
  conversion_reported df tz tc (st_report s1) ∧
  duplicates_reported df tz tc idc (st_report s1) ∧
  gaps_reported df tz tc freq b (st_report s1).
Proof.
  intros Heq.
  destruct (time_checks_inv _ _ _ _ _ _ _ _ Heq) as (sa & sb & sc & Ha & Hb & Hc & Hd).
  pose proof (convert_step_df _ _ _ _ _ Ha) as Hdfa. simpl in Hdfa.
  pose proof (same_df_duplicate_step _ _ _ _ _ Hb) as Hdfb. unfold same_df in Hdfb.
  pose proof (writes_duplicate_step _ _ _ _ _ Hb) as Wb.
  pose proof (writes_gap_step _ _ _ _ _ _ Hd) as Wd.
  rewrite convert_step_eq in Ha. simpl in Ha. injection Ha as Ha.
  rewrite drop_step_eq in Hc. injection Hc as Hc.
  (* the report before the duplicate check holds the conversion keys only *)
  assert (∀ k, k ∉ convert_keys → st_report sa !! k = None) as Hfresh.
  { intros k Hk. rewrite <- Ha.
    destruct (convert_datetime_column _ _ _ _); simpl;
      rewrite ?lookup_insert_ne, ?lookup_empty; try done;
      intros <-; apply Hk; unfold convert_keys; set_solver. }
  assert (∀ k, k ∉ duplicate_keys → k ≠ "rows_dropped_duplicates" →
               st_report sc !! k = st_report sa !! k) as Hsc.
  { intros k Hk Hne. rewrite <- Hc. simpl. rewrite lookup_insert_ne by done.
    by apply Wb. }
  assert (st_df sc = deduplicated df tc tz) as Hdfc.
  { rewrite <- Hc. simpl. by rewrite Hdfb, Hdfa. }
  split; [|split].
  - unfold conversion_reported.
    rewrite !(Wd _) by solve_key_out. rewrite !Hsc by (solve_key_out || done).
    rewrite <- Ha. destruct (convert_datetime_column _ _ _ _); simpl; by map_lookup.
  - unfold duplicates_reported. fold (handed_over df tc tz) in Hdfa. rewrite <- Hdfa.
    rewrite !(Wd _) by solve_key_out. rewrite <- Hc. simpl.
    rewrite !lookup_insert_ne by done.
    destruct (duplicate_time_identification (st_df sa) tc idc) as [e|[[orig mid] utc]] eqn:Hdup.
    + rewrite (duplicate_step_raised _ _ _ _ Hdup) in Hb. injection Hb as <-. simpl.
      map_lookup; rewrite ?lookup_insert_ne by done.
      split; [done |]. split; apply Hfresh; solve_key_out.
    + intros n m Hn Hm.
      rewrite (duplicate_step_returned _ _ _ _ _ _ _ _ Hdup Hn Hm) in Hb.
      injection Hb as <-. simpl. map_lookup.
      split; [done |]. split; [done |]. rewrite ?lookup_insert_ne by done.
      apply Hfresh. solve_key_out.
  - unfold gaps_reported. rewrite <- Hdfc.
    assert (∀ k, k ∈ gap_keys → st_report sc !! k = None) as Hgap.
    { intros k Hk. rewrite Hsc.
      - apply Hfresh. revert k Hk. apply Forall_forall.
        apply (bool_decide_unpack _). vm_compute. exact I.
      - revert k Hk. apply Forall_forall.
        apply (bool_decide_unpack _). vm_compute. exact I.
      - revert k Hk. apply Forall_forall.
        apply (bool_decide_unpack _). vm_compute. exact I. }
    destruct (gap_time_identification (st_df sc) tc freq) as [e|[[orig mid] utc]] eqn:Hgaps.
    + rewrite (gap_step_raised _ _ _ _ _ Hgaps) in Hd. injection Hd as <-. simpl.
      map_lookup; rewrite ?lookup_insert_ne by done.
      split; [done |]. repeat split; apply Hgap; solve_key_in.
    + intros n m Hn Hm.
      rewrite (gap_step_returned _ _ _ _ _ _ _ _ _ Hgaps Hn Hm) in Hd.
      injection Hd as <-. simpl.
      assert (st_report sc !! "time_gap_timestamps_utc" = None) as Hts
        by (apply Hgap; solve_key_in).
      assert (st_report sc !! "gap_check_error" = None) as Herr
        by (apply Hgap; solve_key_in).
      unfold listed, timestamps_reported.
      destruct (if b then utc else None) as [t|]; [|by map_lookup].
      destruct (py_gt0 (size t)) as [e|[|]]; [by map_lookup | | by map_lookup].
      destruct (astype_str t) as [e|l]; by map_lookup.
Qed.

Lemma checks_reported_shape tz tc idc freq b record T suf df :
  bookkeeping closing_keys suf → table_fits T →
  checks_reported df tz tc idc freq b
    (run_refiner df (seq_all (time_checks tz tc idc freq b ++
                              map (row_step record) T ++ suf))).
Proof.
  intros Hsuf Hfit.
  destruct (refiner_rows (time_checks tz tc idc freq b) record T suf df closing_keys
              (safe_time_checks _ _ _ _ _) Hsuf (proj1 Hfit))
    as (s1 & d & rep & H1 & Hres & _ & Hkept & _).
  { intros k. by apply table_fits_closing. }
  exists d, rep. split; [done |].
  assert (∀ k, k ∈ time_keys → rep !! k = st_report s1 !! k) as Hk.
  { intros k Hk. apply Hkept; [by apply time_key_not_in_table |
                               by apply time_keys_not_closing]. }
  destruct (time_checks_report _ _ _ _ _ _ _ _ H1) as (Hconv & Hdup & Hgap).
  unfold conversion_reported, duplicates_reported, gaps_reported, timestamps_reported in *.
  rewrite !Hk by (unfold time_keys; solve_key_in). done.
Qed.

(** X3. Each time-indexed refiner reports every step of its opening checks
    exactly, whatever the library does.  [datetime_converted] is [True] with
    no [datetime_error] when the conversion returned, [False] with the
    message when it raised.  When the duplicate check (run on the frame
    handed over) raised, the report has its message and neither count; when
    it returned sizes [int()] accepts, the report has the two counts and no
    error.  The same holds of the gap check, run on the deduplicated frame;
    only [refine_scada] lists the missing timestamps, and only when the UTC
    result has a positive size. *)
Theorem opening_checks_are_reported :
  (∀ df tz tc idc pc wc tmpc freq pr wr tr thr,
     checks_reported df tz tc idc freq true
       (refine_scada df tz tc idc pc wc tmpc freq pr wr tr thr)) ∧
  (∀ df tz tc ec freq er,
     checks_reported df tz tc tc freq false (refine_meter df tz tc ec freq er)) ∧
  (∀ df tz tc ac cc freq ar cr,
     checks_reported df tz tc tc freq false (refine_curtail df tz tc ac cc freq ar cr)) ∧
  (∀ df name tz tc wc wdc tmpc freq wr wdr tr thr,
     checks_reported df tz tc tc freq false
       (refine_reanalysis df name tz tc wc wdc tmpc freq wr wdr tr thr)).
Proof.
  split; [|split; [|split]]; intros.
  - rewrite refine_scada_steps.
    apply checks_reported_shape; auto using bookkeeping_scada, scada_flags_fit.
  - rewrite refine_meter_steps.
    apply checks_reported_shape; auto using bookkeeping_final, meter_flags_fit.
  - rewrite refine_curtail_steps.
    apply checks_reported_shape; auto using bookkeeping_final, curtail_flags_fit.
  - rewrite refine_reanalysis_steps.
    apply checks_reported_shape; auto using bookkeeping_reanalysis, reanalysis_flags_fit.
Qed.

End OpeningChecks.

(** * Running the second time *)

(** Keys that are pairwise distinct have none that occurred before. *)
Lemma duplicated_NoDup {K : Type} `{EqDecision K} (seen l : list K) :
  NoDup l → (∀ k, k ∈ l → k ∉ seen) → duplicated seen l = [].
Proof.
  revert seen. induction l as [|k l IH]; intros seen Hnd Hseen; simpl; [done |].
  apply NoDup_cons in Hnd as [Hk Hnd].
  rewrite bool_decide_eq_false_2 by (apply Hseen; left).
  apply IH; [done |].
  intros k' Hk' [->|Hin]%elem_of_cons; [done |].
  apply (Hseen k'); [by right | done].
Qed.

Lemma drop_columns_length cs d : len (drop_columns cs d) = len d.
Proof. unfold len, drop_columns. simpl. by rewrite length_map. Qed.

Section RerunShape.
Context `{OpenOA}.

(** What the second run needs of the library: the conversion step keeps
    the columns, the number of rows and the keys apart, and the duplicate
    check is the one of the spec. *)
Hypothesis converted_columns : ∀ d tc tz, columns (converted d tc tz) = columns d.
Hypothesis converted_length : ∀ d tc tz, len (converted d tc tz) = len d.
Hypothesis converted_unique :
  ∀ d tc tz, unique_keys tc d → unique_keys tc (converted d tc tz).
Hypothesis duplicates_spec :
  ∀ d tc idc, duplicate_time_identification d tc idc = spec_duplicates d tc idc.

Lemma rerun_clean_shape refiner tz tc idc freq b record T suf df :
  (∀ x, refiner x = run_refiner x (seq_all (time_checks tz tc idc freq b ++
                                            map (row_step record) T ++ suf))) →
  bookkeeping closing_keys suf → table_fits T → tc ∉ names T →
  rerun_is_clean refiner tc idc df.
Proof.
  intros Hsteps Hsuf Hfit Htc.
  (* the first run leaves pairwise distinct keys *)
  destruct (refiner_rows (time_checks tz tc idc freq b) record T suf df closing_keys
              (safe_time_checks _ _ _ _ _) Hsuf (proj1 Hfit))
    as (s1 & d1 & rep1 & H1 & Hres & Hext & _).
  { intros k. by apply table_fits_closing. }
  exists d1, rep1. split; [by rewrite Hsteps |]. intros cs Hcs.
  rewrite (time_checks_df _ _ _ _ _ _ _ _ H1) in Hext.
  assert (unique_keys tc (drop_columns cs d1)) as Hu1.
  { apply drop_columns_unique; [done |].
    eapply flag_ext_unique; [exact Hext | done |]. apply _drop_duplicates_unique. }
  (* so has the frame the second conversion hands over *)
  set (d1' := drop_columns cs d1) in *.
  assert (unique_keys tc (handed_over d1' tc tz)) as Hu2
    by (by apply converted_unique).
  (* the second run *)
  destruct (refiner_rows (time_checks tz tc idc freq b) record T suf d1' closing_keys
              (safe_time_checks _ _ _ _ _) Hsuf (proj1 Hfit))
    as (s2 & d2 & rep2 & H2 & Hres2 & Hext2 & Hkept & _).
  { intros k. by apply table_fits_closing. }
  destruct (checks_reported_shape tz tc idc freq b record T suf d1' Hsuf Hfit)
    as (d2' & rep2' & Hres2' & _ & Hdup & _).
  rewrite Hres2 in Hres2'. injection Hres2' as <- <-.
  exists d2, rep2. split; [by rewrite Hsteps |].
  rewrite (time_checks_df _ _ _ _ _ _ _ _ H2) in Hext2.
  split; [|split].
  - rewrite Hkept by
      (first [ apply time_key_not_in_table; [done | unfold time_keys; solve_key_in]
             | unfold closing_keys; solve_key_out ]).
    rewrite (time_checks_dropped _ _ _ _ _ _ _ _ H2). simpl.
    fold (handed_over d1' tc tz). rewrite _drop_duplicates_id by done.
    do 2 f_equal. lia.
  - unfold no_duplicates_detected. unfold duplicates_reported in Hdup.
    rewrite duplicates_spec in Hdup. unfold spec_duplicates in Hdup.
    assert (∀ c, has_column c (handed_over d1' tc tz) = has_column c d1') as Hcol.
    { intros c. unfold has_column, handed_over, df_copy.
      by rewrite converted_columns. }
    rewrite !Hcol in Hdup.
    destruct (has_column tc d1' && has_column idc d1') eqn:Hcols.
    + apply andb_true_iff in Hcols as [Htime _].
      rewrite duplicated_NoDup in Hdup.
      * by apply (Hdup 0 0).
      * apply (NoDup_fmap_1 snd). rewrite <- list_fmap_compose.
        unfold unique_keys, dup_key in Hu2. by rewrite Hcol, Htime in Hu2.
      * intros k _. apply not_elem_of_nil.
    + destruct Hdup as (He & Ho & Hu).
      split; [done |]. split; [done |]. rewrite He. eauto.
  - rewrite (flag_ext_length _ _ _ Hext2). simpl.
    fold (handed_over d1' tc tz). rewrite _drop_duplicates_id by done.
    unfold handed_over, df_copy. rewrite converted_length.
    apply drop_columns_length.
Qed.

End RerunShape.

(** The normalizer of the spec keeps the columns and the number of rows,
    and a shift of the timestamps keeps the keys apart. *)
Lemma spec_converted_columns lib d tc tz :
  columns (@converted (with_spec_times lib) d tc tz) = columns d.
Proof.
  unfold converted. cbn [convert_datetime_column convert_datetime_column_leaves
                         with_spec_times].
  destruct (spec_convert false d tc tz false) as [e|d'] eqn:Hc; [done |].
  unfold spec_convert in Hc. repeat case_match; try done. by injection Hc as <-.
Qed.

Lemma spec_converted_length lib d tc tz :
  len (@converted (with_spec_times lib) d tc tz) = len d.
Proof.
  unfold converted. cbn [convert_datetime_column convert_datetime_column_leaves
                         with_spec_times].
  destruct (spec_convert false d tc tz false) as [e|d'] eqn:Hc; [done |].
  unfold spec_convert in Hc. repeat case_match; try done. injection Hc as <-.
  unfold len. simpl. f_equal. symmetry. by eapply length_mapM.
Qed.

Lemma spec_converted_unique lib d tc tz :
  unique_keys tc d → unique_keys tc (@converted (with_spec_times lib) d tc tz).
Proof.
  unfold converted. cbn [convert_datetime_column convert_datetime_column_leaves
                         with_spec_times].
  destruct (spec_convert false d tc tz false) as [e|d'] eqn:Hc; [done |].
  by apply (spec_convert_unique _ _ _ _ _ Hc).
Qed.

(** C8. With the Timestamp Normalizer and the duplicate identification of
    the spec, whatever the gap check and the flaggers do: each time-indexed
    refiner returns on every input, and run again on its own output, any
    columns but the time column removed (the appended flag columns among
    them), it drops no row ([rows_dropped_duplicates] is 0 and the row
    count is that of the first output) and its duplicate check detects
    nothing (both duplicate counts are 0; when the time or the identifier
    column is missing the check raises and there is no count).  The time
    column must not bear the name of a flag column. *)
Theorem rerun_finds_no_duplicates (lib : OpenOA) :
  (∀ df tz tc idc pc wc tmpc freq pr wr tr thr,
     tc ∉ names (scada_flags pc wc tmpc pr wr tr thr) →
     rerun_is_clean
       (λ x, @refine_scada (with_spec_times lib) x tz tc idc pc wc tmpc freq pr wr tr thr)
       tc idc df) ∧
  (∀ df tz tc ec freq er,
     tc ∉ names (meter_flags ec er) →
     rerun_is_clean (λ x, @refine_meter (with_spec_times lib) x tz tc ec freq er)
       tc tc df) ∧
  (∀ df tz tc ac cc freq ar cr,
     tc ∉ names (curtail_flags ac cc ar cr) →
     rerun_is_clean (λ x, @refine_curtail (with_spec_times lib) x tz tc ac cc freq ar cr)
       tc tc df) ∧
  (∀ df name tz tc wc wdc tmpc freq wr wdr tr thr,
     tc ∉ names (reanalysis_flags wc wdc tmpc wr wdr tr thr) →
     rerun_is_clean
       (λ x, @refine_reanalysis (with_spec_times lib) x name tz tc wc wdc tmpc freq
               wr wdr tr thr)
       tc tc df).
Proof.
  pose proof (@rerun_clean_shape (with_spec_times lib) (spec_converted_columns lib)
                (spec_converted_length lib) (spec_converted_unique lib)
                (λ _ _ _, eq_refl)) as Hshape.
  split; [|split; [|split]]; intros.
  - eapply (Hshape _ tz tc idc freq true);
      [ intros x; apply refine_scada_steps | apply bookkeeping_scada
      | apply scada_flags_fit | done ].
  - eapply (Hshape _ tz tc tc freq false);
      [ intros x; apply refine_meter_steps | apply bookkeeping_final
      | apply meter_flags_fit | done ].
  - eapply (Hshape _ tz tc tc freq false);
      [ intros x; apply refine_curtail_steps | apply bookkeeping_final
      | apply curtail_flags_fit | done ].
  - eapply (Hshape _ tz tc tc freq false);
      [ intros x; apply refine_reanalysis_steps | apply bookkeeping_reanalysis
      | apply reanalysis_flags_fit | done ].
Qed.

(** The scenario of section 8, refined twice with the library of the
    spec. *)
Lemma scenario_rerun_is_clean :
  ("Date_time" ∉ names (scada_flags "P_avg" "Ws_avg" "Ot_avg" scada_power_range
                          scada_windspeed_range scada_temp_range default_threshold)) ∧
  rerun_is_clean
    (λ x, @refine_scada (with_spec_times (spec_lib false false)) x "UTC" "Date_time"
            "Wind_turbine_name" "P_avg" "Ws_avg" "Ot_avg" "10min" scada_power_range
            scada_windspeed_range scada_temp_range default_threshold)
    "Date_time" "Wind_turbine_name" scenario.
Proof.
  assert ("Date_time" ∉ names (scada_flags "P_avg" "Ws_avg" "Ot_avg" scada_power_range
                                 scada_windspeed_range scada_temp_range
                                 default_threshold)) as Hname.
  { apply (bool_decide_unpack _). vm_compute. reflexivity. }
  split; [exact Hname |].
  exact (proj1 (rerun_finds_no_duplicates (spec_lib false false))
           scenario "UTC" "Date_time" "Wind_turbine_name" "P_avg" "Ws_avg" "Ot_avg"
           "10min" scada_power_range scada_windspeed_range scada_temp_range
           default_threshold Hname).
Defined.

(** ** Rows dropped and rows returned *)

Section Accounting.
Context `{OpenOA}.

Lemma rows_accounted_shape tz tc idc freq b record T suf df :
  bookkeeping closing_keys suf → table_fits T →
  row_count_ok (run_refiner df (seq_all (time_checks tz tc idc freq b ++
                                         map (row_step record) T ++ suf))) →
  rows_accounted df tz tc
    (run_refiner df (seq_all (time_checks tz tc idc freq b ++
                              map (row_step record) T ++ suf))).
Proof.
  intros Hsuf Hfit (d' & rep' & Hres' & Hfinal).
  destruct (refiner_rows (time_checks tz tc idc freq b) record T suf df closing_keys
              (safe_time_checks _ _ _ _ _) Hsuf (proj1 Hfit))
    as (s1 & d & rep & H1 & Hres & Hext & Hkept & _).
  { intros k. by apply table_fits_closing. }
  rewrite Hres in Hres'. injection Hres' as <- <-.
  exists d, rep, (len (handed_over df tc tz) - len (deduplicated df tc tz)).
  split; [done |].
  rewrite (time_checks_df _ _ _ _ _ _ _ _ H1) in Hext. simpl in Hext.
  fold (handed_over df tc tz) in Hext. fold (deduplicated df tc tz) in Hext.
  split.
  { rewrite Hkept by
      (first [ apply time_key_not_in_table; [done | unfold time_keys; solve_key_in]
             | unfold closing_keys; solve_key_out ]).
    by rewrite (time_checks_dropped _ _ _ _ _ _ _ _ H1). }
  split; [done |]. rewrite (flag_ext_length _ _ _ Hext).
  assert (len (deduplicated df tc tz) ≤ len (handed_over df tc tz)).
  { unfold deduplicated. rewrite _drop_duplicates_eq. unfold len. simpl.
    apply inj_le, sublist_length, keep_last_sublist. }
  lia.
Qed.

(** X4. For each time-indexed refiner and every input, whatever the library
    does: [rows_dropped_duplicates] is in the report, it is not negative,
    and together with [final_row_count] it adds up to the number of rows of
    the frame the conversion step handed over (the frame the library
    returned, or the refiner's copy as the library left it when the
    conversion raised). *)
Theorem dropped_and_kept_rows_add_up :
  (∀ df tz tc idc pc wc tmpc freq pr wr tr thr,
     rows_accounted df tz tc (refine_scada df tz tc idc pc wc tmpc freq pr wr tr thr)) ∧
  (∀ df tz tc ec freq er,
     rows_accounted df tz tc (refine_meter df tz tc ec freq er)) ∧
  (∀ df tz tc ac cc freq ar cr,
     rows_accounted df tz tc (refine_curtail df tz tc ac cc freq ar cr)) ∧
  (∀ df name tz tc wc wdc tmpc freq wr wdr tr thr,
     rows_accounted df tz tc
       (refine_reanalysis df name tz tc wc wdc tmpc freq wr wdr tr thr)).
Proof.
  split; [|split; [|split]]; intros.
  - assert (row_count_ok (refine_scada df tz tc idc pc wc tmpc freq pr wr tr thr))
      as Hcount by (apply run_refiner_final_ok; solve_final_ok).
    rewrite refine_scada_steps in *.
    apply rows_accounted_shape; auto using bookkeeping_scada, scada_flags_fit.
  - assert (row_count_ok (refine_meter df tz tc ec freq er))
      as Hcount by (apply run_refiner_final_ok; solve_final_ok).
    rewrite refine_meter_steps in *.
    apply rows_accounted_shape; auto using bookkeeping_final, meter_flags_fit.
  - assert (row_count_ok (refine_curtail df tz tc ac cc freq ar cr))
      as Hcount by (apply run_refiner_final_ok; solve_final_ok).
    rewrite refine_curtail_steps in *.
    apply rows_accounted_shape; auto using bookkeeping_final, curtail_flags_fit.
  - assert (row_count_ok (refine_reanalysis df name tz tc wc wdc tmpc freq wr wdr tr thr))
      as Hcount by (apply run_refiner_final_ok; solve_final_ok).
    rewrite refine_reanalysis_steps in *.
    apply rows_accounted_shape; auto using bookkeeping_reanalysis, reanalysis_flags_fit.
Qed.

End Accounting.

(** ** One outcome per flag *)

Section FlagOutcomes.
Context `{OpenOA}.

Lemma flags_settled_shape pre record T suf df d0 :
  Forall safe pre → bookkeeping closing_keys suf → table_fits T →
  (∀ r s1, seq_all pre (mkSt (df_copy df) ∅ []) = (r, s1) →
           st_df s1 = d0 ∧ ∀ k, k ∈ keys T → st_report s1 !! k = None) →
  flags_settled T d0 (run_refiner df (seq_all (pre ++ map (row_step record) T ++ suf))).
Proof.
  intros Hpre Hsuf Hfit Hstart.
  destruct (refiner_rows pre record T suf df closing_keys Hpre Hsuf (proj1 Hfit))
    as (s1 & d & rep & H1 & Hres & _ & _ & Hrows & _).
  { intros k. by apply table_fits_closing. }
  destruct (Hstart _ _ H1) as [<- Hfresh].
  exists d, rep. split; [done |]. intros f Hf Hcol.
  specialize (Hrows f Hf Hcol). unfold row_result in Hrows. unfold flag_outcome.
  by rewrite !(Hfresh _ (count_key_in_keys _ _ Hf)),
             !(Hfresh _ (error_key_in_keys _ _ Hf)) in Hrows.
Qed.

(** X5. Every flag of every refiner has exactly one outcome, whatever the
    library does.  When its data column is not a column of the frame the
    flags are computed on, the flag is skipped without a trace: the report
    has neither its count nor its error.  When the check raised, the report
    has the message and no count.  When the check returned, the report has
    the count and no error, and the flag column holds the verdicts.  (A data
    column that bears the name of a flag column of the same refiner is left
    out.) *)
Theorem every_flag_has_one_outcome :
  (∀ df tz tc idc pc wc tmpc freq pr wr tr thr,
     flags_settled (scada_flags pc wc tmpc pr wr tr thr) (deduplicated df tc tz)
       (refine_scada df tz tc idc pc wc tmpc freq pr wr tr thr)) ∧
  (∀ df tz tc ec freq er,
     flags_settled (meter_flags ec er) (deduplicated df tc tz)
       (refine_meter df tz tc ec freq er)) ∧
  (∀ df tz tc ac cc freq ar cr,
     flags_settled (curtail_flags ac cc ar cr) (deduplicated df tc tz)
       (refine_curtail df tz tc ac cc freq ar cr)) ∧
  (∀ df lat lon rp,
     flags_settled (asset_flags lat lon rp) (df_copy df) (refine_asset df lat lon rp)) ∧
  (∀ df name tz tc wc wdc tmpc freq wr wdr tr thr,
     flags_settled (reanalysis_flags wc wdc tmpc wr wdr tr thr) (deduplicated df tc tz)
       (refine_reanalysis df name tz tc wc wdc tmpc freq wr wdr tr thr)).
Proof.
  split; [|split; [|split; [|split]]]; intros.
  - rewrite refine_scada_steps. apply flags_settled_shape;
      auto using safe_time_checks, bookkeeping_scada, scada_flags_fit.
    apply time_start, scada_flags_fit.
  - rewrite refine_meter_steps. apply flags_settled_shape;
      auto using safe_time_checks, bookkeeping_final, meter_flags_fit.
    apply time_start, meter_flags_fit.
  - rewrite refine_curtail_steps. apply flags_settled_shape;
      auto using safe_time_checks, bookkeeping_final, curtail_flags_fit.
    apply time_start, curtail_flags_fit.
  - rewrite refine_asset_steps. apply flags_settled_shape;
      auto using safe_asset_opening, bookkeeping_final, asset_flags_fit.
    apply asset_start, asset_flags_fit.
  - rewrite refine_reanalysis_steps. apply flags_settled_shape;
      auto using safe_time_checks, bookkeeping_reanalysis, reanalysis_flags_fit.
    apply time_start, reanalysis_flags_fit.
Qed.

End FlagOutcomes.

(** ** The columns appended *)

Lemma filter_ext_in {A : Type} (P Q : A → Prop)
    `{∀ x, Decision (P x)} `{∀ x, Decision (Q x)} (l : list A) :
  (∀ x, x ∈ l → P x ↔ Q x) → filter P l = filter Q l.
Proof.
  induction l as [|x l IH]; intros Hl; [done |].
  rewrite !filter_cons.
  assert (P x ↔ Q x) as Hx by (apply Hl; apply elem_of_cons; by left).
  rewrite IH by (intros y Hy; apply Hl; apply elem_of_cons; by right).
  destruct (decide (P x)), (decide (Q x)); tauto.
Qed.

Lemma appended_cons f T rep :
  appended (f :: T) rep =
  ((if decide (is_Some (rep !! f_count_key f)) then [f_name f] else []) ++ appended T rep)%list.
Proof. unfold appended. rewrite filter_cons. by destruct (decide _). Qed.

Lemma appended_ext T rep rep' :
  (∀ f, f ∈ T → rep' !! f_count_key f = rep !! f_count_key f) →
  appended T rep' = appended T rep.
Proof.
  intros Heq. unfold appended. f_equal. apply filter_ext_in.
  intros f Hf. by rewrite (Heq f Hf).
Qed.

Lemma appended_names T rep c : c ∈ appended T rep → c ∈ names T.
Proof.
  unfold appended, names. intros (f & -> & [_ Hf]%list_elem_of_filter)%list_elem_of_fmap.
  by apply list_elem_of_fmap_2.
Qed.

#[local] Instance same_flag_cols_preorder : PreOrder same_flag_cols.
Proof.
  split; [by intros s | intros s1 s2 s3 H1 H2; unfold same_flag_cols in *; congruence].
Qed.

Lemma same_flag_cols_report_set key v : st_rel same_flag_cols (report_set key v).
Proof. by intros s r s' [= <- <-]. Qed.

Lemma same_flag_cols_set_df d : st_rel same_flag_cols (set_df d).
Proof. by intros s r s' [= <- <-]. Qed.

Section Appended.
Context `{OpenOA}.

Lemma same_flag_cols_time_checks tz tc idc freq b :
  st_rel same_flag_cols (seq_all (time_checks tz tc idc freq b)).
Proof.
  apply st_rel_seq_all; [apply _ |]. unfold time_checks.
  repeat constructor.
  - intros s r s'. rewrite convert_step_eq. intros [= _ <-].
    unfold same_flag_cols. by destruct (convert_datetime_column _ _ _ _).
  - unfold duplicate_step. st_rel_descend; apply same_flag_cols_report_set.
  - intros s r s'. rewrite drop_step_eq. by intros [= _ <-].
  - unfold gap_step, gap_timestamps. st_rel_descend; apply same_flag_cols_report_set.
Qed.

Lemma rows_appended record T : ∀ s r s',
  NoDup (names T) → NoDup (keys T) →
  (∀ f, f ∈ T → st_report s !! f_count_key f = None) →
  seq_all (map (row_step record) T) s = (r, s') →
  columns (st_df s') =
    (columns (st_df s) ++
     filter (λ c, c ∉ columns (st_df s)) (appended T (st_report s')))%list ∧
  st_flag_cols s' =
    (st_flag_cols s ++ if record then appended T (st_report s') else [])%list.
Proof.
  induction T as [|f T IH]; intros s r s' Hnames Hkeys Hfresh Heq.
  { injection Heq as _ <-. unfold appended. simpl.
    rewrite !app_nil_r. by destruct record; rewrite ?app_nil_r. }
  apply NoDup_cons in Hnames as [Hname Hnames].
  unfold keys in Hkeys. simpl in Hkeys. fold (keys T) in Hkeys.
  apply NoDup_cons in Hkeys as [Hck Hkeys]. apply NoDup_cons in Hkeys as [Hek Hkeys].
  assert (f_count_key f ≠ f_error_key f) as Hne
    by (intros Heq'; apply Hck; rewrite Heq'; apply elem_of_cons; by left).
  assert (f_count_key f ∉ keys T) as Hck'
    by (intros Hin; apply Hck; apply elem_of_cons; by right).
  simpl in Heq.
  destruct (seq_all_cons_inv _ _ _ _ _ (safe_row_step record f) Heq) as (sm & Hstep & Hrest).
  rewrite row_step_eq in Hstep. injection Hstep as Hsm.
  pose proof (rows_writes record T _ _ _ Hrest) as Hw.
  assert (∀ f', f' ∈ T → st_report sm !! f_count_key f' = None) as Hfresh'.
  { intros f' Hf'.
    assert (f_count_key f' ∈ keys T) as Hin by by apply count_key_in_keys.
    assert (st_report s !! f_count_key f' = None) as Hnone
      by (apply Hfresh; apply elem_of_cons; by right).
    rewrite <- Hsm. destruct (has_column (f_col f) (st_df s)); [|done].
    destruct (run_check _ _); simpl; rewrite lookup_insert_ne; try done;
      intros Heq'; [apply Hek | apply Hck']; by rewrite Heq'. }
  destruct (IH sm r s' Hnames Hkeys Hfresh' Hrest) as [Hcols Hfc].
  rewrite appended_cons, (Hw _ Hck'). rewrite Hcols, Hfc.
  assert (st_report s !! f_count_key f = None) as Hnone
    by (apply Hfresh; apply elem_of_cons; by left).
  assert (∀ cs, filter (λ c, c ∉ (cs ++ [f_name f])%list) (appended T (st_report s'))
                = filter (λ c, c ∉ cs) (appended T (st_report s'))) as Hfilter.
  { intros cs. apply filter_ext_in. intros c Hc%appended_names.
    rewrite elem_of_app, list_elem_of_singleton.
    split; [tauto |]. intros Hcs [?| ->]; done. }
  rewrite <- Hsm. destruct (has_column (f_col f) (st_df s)) eqn:Hcol.
  - destruct (run_check _ _) as [e|flags]; simpl.
    + rewrite lookup_insert_ne, Hnone by done.
      rewrite decide_False by (by intros [? ?]). by destruct record.
    + rewrite lookup_insert_eq. rewrite decide_True by done. split.
      * unfold has_column. case_bool_decide as Hin; simpl.
        -- by rewrite filter_cons_False by (by intros ?).
        -- rewrite filter_cons_True by done. rewrite Hfilter.
           by rewrite <- app_assoc.
      * destruct record; [by rewrite <- app_assoc | done].
  - rewrite Hnone. rewrite decide_False by (by intros [? ?]). by destruct record.
Qed.

Lemma columns_appended_shape pre record T suf df d0 :
  Forall safe pre → bookkeeping closing_keys suf → table_fits T →
  (∀ r s1, seq_all pre (mkSt (df_copy df) ∅ []) = (r, s1) →
           st_df s1 = d0 ∧ ∀ k, k ∈ keys T → st_report s1 !! k = None) →
  columns_appended T d0
    (run_refiner df (seq_all (pre ++ map (row_step record) T ++ suf))).
Proof.
  intros Hpre (Hsafe & Hsame & Hwrites) Hfit Hstart.
  destruct (shape_inv pre record T suf df Hpre Hsafe) as (s1 & s2 & s3 & H1 & H2 & H3 & Hres).
  destruct (Hstart _ _ H1) as [<- Hfresh].
  exists (st_df s3), (st_report s3). split; [done |].
  destruct (rows_appended record T s1 (inr tt) s2 (proj1 (proj1 Hfit)) (proj2 (proj1 Hfit)))
    as [Hcols _]; [|done |].
  { intros f Hf. by apply Hfresh, count_key_in_keys. }
  pose proof (st_rel_seq_all same_df suf Hsame _ _ _ H3) as Hdf. unfold same_df in Hdf.
  pose proof (st_rel_seq_all (writes closing_keys) suf Hwrites _ _ _ H3) as Hw.
  rewrite Hdf, Hcols. do 2 f_equal. symmetry. apply appended_ext.
  intros f Hf. apply Hw. by apply (table_fits_closing T), count_key_in_keys.
Qed.

(** X6. The frame a refiner returns has the columns of the frame the flags
    were computed on, in their order, followed by the flag columns that
    were appended (those whose count is in the report) and that the frame
    did not already have, in the order of the refiner's table.  A flag that
    was skipped or whose check raised adds no column. *)
Theorem flag_columns_are_appended_in_order :
  (∀ df tz tc idc pc wc tmpc freq pr wr tr thr,
     columns_appended (scada_flags pc wc tmpc pr wr tr thr) (deduplicated df tc tz)
       (refine_scada df tz tc idc pc wc tmpc freq pr wr tr thr)) ∧
  (∀ df tz tc ec freq er,
     columns_appended (meter_flags ec er) (deduplicated df tc tz)
       (refine_meter df tz tc ec freq er)) ∧
  (∀ df tz tc ac cc freq ar cr,
     columns_appended (curtail_flags ac cc ar cr) (deduplicated df tc tz)
       (refine_curtail df tz tc ac cc freq ar cr)) ∧
  (∀ df lat lon rp,
     columns_appended (asset_flags lat lon rp) (df_copy df) (refine_asset df lat lon rp)) ∧
  (∀ df name tz tc wc wdc tmpc freq wr wdr tr thr,
     columns_appended (reanalysis_flags wc wdc tmpc wr wdr tr thr) (deduplicated df tc tz)
       (refine_reanalysis df name tz tc wc wdc tmpc freq wr wdr tr thr)).
Proof.
  split; [|split; [|split; [|split]]]; intros.
  - rewrite refine_scada_steps. apply columns_appended_shape;
      auto using safe_time_checks, bookkeeping_scada, scada_flags_fit.
    apply time_start, scada_flags_fit.
  - rewrite refine_meter_steps. apply columns_appended_shape;
      auto using safe_time_checks, bookkeeping_final, meter_flags_fit.
    apply time_start, meter_flags_fit.
  - rewrite refine_curtail_steps. apply columns_appended_shape;
      auto using safe_time_checks, bookkeeping_final, curtail_flags_fit.
    apply time_start, curtail_flags_fit.
  - rewrite refine_asset_steps. apply columns_appended_shape;
      auto using safe_asset_opening, bookkeeping_final, asset_flags_fit.
    apply asset_start, asset_flags_fit.
  - rewrite refine_reanalysis_steps. apply columns_appended_shape;
      auto using safe_time_checks, bookkeeping_reanalysis, reanalysis_flags_fit.
    apply time_start, reanalysis_flags_fit.
Qed.

(** X7. [flag_columns_added] in the report of [refine_scada] lists exactly
    the flag columns whose check returned (those whose count is in the
    report), in the order of the table: range flags of power, wind speed
    and temperature, then the unresponsive flags of power and wind speed. *)
Theorem flag_columns_added_lists_the_appended df tz tc idc pc wc tmpc freq pr wr tr thr :
  ∃ d rep,
    refine_scada df tz tc idc pc wc tmpc freq pr wr tr thr = inr (d, rep) ∧
    rep !! "flag_columns_added"
      = Some (RList (appended (scada_flags pc wc tmpc pr wr tr thr) rep)).
Proof.
  rewrite refine_scada_steps. unfold scada_steps.
  set (T := scada_flags pc wc tmpc pr wr tr thr).
  pose proof (scada_flags_fit pc wc tmpc pr wr tr thr) as Hfit. fold T in Hfit.
  destruct bookkeeping_scada as (Hsafe & _ & _).
  destruct (shape_inv (time_checks tz tc idc freq true) true T
              [record_flag_cols; final_step] df (safe_time_checks _ _ _ _ _) Hsafe)
    as (s1 & s2 & s3 & H1 & H2 & H3 & Hres).
  exists (st_df s3), (st_report s3). split; [done |].
  destruct (time_start tz tc idc freq true df T Hfit _ _ H1) as [_ Hfresh].
  destruct (rows_appended true T s1 (inr tt) s2 (proj1 (proj1 Hfit)) (proj2 (proj1 Hfit)))
    as [_ Hfc]; [|done |].
  { intros f Hf. by apply Hfresh, count_key_in_keys. }
  pose proof (same_flag_cols_time_checks _ _ _ _ _ _ _ _ H1) as Hnil.
  unfold same_flag_cols in Hnil. simpl in Hnil. rewrite Hnil in Hfc. simpl in Hfc.
  injection H3 as <-. simpl. rewrite lookup_insert_ne, lookup_insert_eq by done.
  rewrite Hfc. do 2 f_equal. symmetry. apply appended_ext.
  intros f Hf. simpl.
  assert (f_count_key f ∉ closing_keys) as Hc
    by by apply (table_fits_closing T), count_key_in_keys.
  assert (f_count_key f ≠ "final_row_count") as Hne1
    by (intros Heq; apply Hc; rewrite Heq; unfold closing_keys; solve_key_in).
  assert (f_count_key f ≠ "flag_columns_added") as Hne2
    by (intros Heq; apply Hc; rewrite Heq; unfold closing_keys; solve_key_in).
  by rewrite !lookup_insert_ne by done.
Qed.

End Appended.

(** ** The keys of a report *)

Section ReportKeys.
Context `{OpenOA}.

Lemma writes_gap_step_quiet time_col freq :
  st_rel (writes ["time_gaps_original_count"; "time_gaps_utc_count"; "gap_check_error"])
    (gap_step time_col freq false).
Proof. unfold gap_step, when. solve_writes. Qed.

Lemma writes_time_checks_each tz tc idc freq :
  Forall (st_rel (writes time_keys)) (time_checks tz tc idc freq true).
Proof.
  unfold time_checks. repeat constructor.
  - eapply st_rel_writes_mono; [|apply writes_convert_step].
    unfold convert_keys, time_keys. solve_keys_incl.
  - eapply st_rel_writes_mono; [|apply writes_duplicate_step].
    unfold duplicate_keys, time_keys. solve_keys_incl.
  - eapply st_rel_writes_mono; [|apply writes_drop_step].
    unfold time_keys. solve_keys_incl.
  - eapply st_rel_writes_mono; [|apply writes_gap_step].
    unfold gap_keys, time_keys. solve_keys_incl.
Qed.

Lemma writes_quiet_time_checks_each tz tc idc freq :
  Forall (st_rel (writes quiet_time_keys)) (time_checks tz tc idc freq false).
Proof.
  unfold time_checks. repeat constructor.
  - eapply st_rel_writes_mono; [|apply writes_convert_step].
    unfold convert_keys, quiet_time_keys. solve_keys_incl.
  - eapply st_rel_writes_mono; [|apply writes_duplicate_step].
    unfold duplicate_keys, quiet_time_keys. solve_keys_incl.
  - eapply st_rel_writes_mono; [|apply writes_drop_step].
    unfold quiet_time_keys. solve_keys_incl.
  - eapply st_rel_writes_mono; [|apply writes_gap_step_quiet].
    unfold quiet_time_keys. solve_keys_incl.
Qed.

Lemma only_keys_shape pre record T suf df Kp Ks :
  Forall safe pre → Forall safe suf →
  Forall (st_rel (writes Kp)) pre → Forall (st_rel (writes Ks)) suf →
  only_keys (Kp ++ keys T ++ Ks)
    (run_refiner df (seq_all (pre ++ map (row_step record) T ++ suf))).
Proof.
  intros Hpre Hsuf Hwp Hws.
  destruct (shape_inv pre record T suf df Hpre Hsuf) as (s1 & s2 & s3 & H1 & H2 & H3 & Hres).
  exists (st_df s3), (st_report s3). split; [done |]. intros k Hk.
  destruct (decide (k ∈ (Kp ++ keys T ++ Ks)%list)) as [|Hout]; [done |].
  rewrite !elem_of_app in Hout.
  rewrite (st_rel_seq_all (writes Ks) suf Hws _ _ _ H3 k) in Hk by tauto.
  rewrite (rows_writes record T _ _ _ H2 k) in Hk by tauto.
  rewrite (st_rel_seq_all (writes Kp) pre Hwp _ _ _ H1 k) in Hk by tauto.
  simpl in Hk. rewrite lookup_empty in Hk. by destruct Hk.
Qed.

(** X8. A report has no key but those of the refiner's own steps.  For
    [refine_scada]: the keys of the opening checks, the count and error
    keys of its five flags, [flag_columns_added] and [final_row_count].
    The other reports never hold [time_gap_timestamps_utc] nor
    [flag_columns_added], and only the reanalysis report holds [product];
    the asset report has none of the keys of the opening checks. *)
Theorem reports_hold_known_keys_only :
  (∀ df tz tc idc pc wc tmpc freq pr wr tr thr,
     only_keys (time_keys ++ keys (scada_flags pc wc tmpc pr wr tr thr) ++
                ["flag_columns_added"; "final_row_count"])
       (refine_scada df tz tc idc pc wc tmpc freq pr wr tr thr)) ∧
  (∀ df tz tc ec freq er,
     only_keys (quiet_time_keys ++ keys (meter_flags ec er) ++ ["final_row_count"])
       (refine_meter df tz tc ec freq er)) ∧
  (∀ df tz tc ac cc freq ar cr,
     only_keys (quiet_time_keys ++ keys (curtail_flags ac cc ar cr) ++ ["final_row_count"])
       (refine_curtail df tz tc ac cc freq ar cr)) ∧
  (∀ df lat lon rp,
     only_keys (["missing_asset_id_count"] ++ keys (asset_flags lat lon rp) ++
                ["final_row_count"])
       (refine_asset df lat lon rp)) ∧
  (∀ df name tz tc wc wdc tmpc freq wr wdr tr thr,
     only_keys (quiet_time_keys ++ keys (reanalysis_flags wc wdc tmpc wr wdr tr thr) ++
                ["product"; "final_row_count"])
       (refine_reanalysis df name tz tc wc wdc tmpc freq wr wdr tr thr)).
Proof.
  assert (st_rel (writes ["final_row_count"]) final_step) as Hfinal
    by apply writes_final_step.
  split; [|split; [|split; [|split]]]; intros.
  - rewrite refine_scada_steps. apply only_keys_shape.
    + apply safe_time_checks.
    + repeat constructor; auto with safe.
    + apply writes_time_checks_each.
    + repeat constructor.
      * unfold record_flag_cols. solve_writes.
      * eapply st_rel_writes_mono; [|apply Hfinal]. solve_keys_incl.
  - rewrite refine_meter_steps. apply only_keys_shape.
    + apply safe_time_checks.
    + repeat constructor; auto with safe.
    + apply writes_quiet_time_checks_each.
    + by repeat constructor.
  - rewrite refine_curtail_steps. apply only_keys_shape.
    + apply safe_time_checks.
    + repeat constructor; auto with safe.
    + apply writes_quiet_time_checks_each.
    + by repeat constructor.
  - rewrite refine_asset_steps. apply only_keys_shape.
    + apply safe_asset_opening.
    + repeat constructor; auto with safe.
    + repeat constructor. unfold missing_id_step. solve_writes.
    + by repeat constructor.
  - rewrite refine_reanalysis_steps. apply only_keys_shape.
    + apply safe_time_checks.
    + repeat constructor; auto with safe.
    + apply writes_quiet_time_checks_each.
    + repeat constructor.
      * solve_writes.
      * eapply st_rel_writes_mono; [|apply Hfinal]. solve_keys_incl.
Qed.

(** ** Asset identifiers *)

Lemma missing_id_step_eq s :
  missing_id_step s =
  (inr tt,
   if has_column "asset_id" (st_df s) then
     mkSt (st_df s)
       (<["missing_asset_id_count" := RInt (count_na "asset_id" (st_df s))]> (st_report s))
       (st_flag_cols s)
   else s).
Proof.
  unfold missing_id_step, mbind, M_bind, get_df, when. simpl.
  by destruct (has_column "asset_id" (st_df s)).
Qed.

(** X9. [refine_asset] drops no row, whatever the library does: the frame
    returned and [final_row_count] have the length of the input.  When the
    input has an [asset_id] column, [missing_asset_id_count] is the number
    of its missing values; when it has none, the key is absent. *)
Theorem asset_rows_and_identifiers_are_counted df lat lon rp :
  asset_ids_counted df (refine_asset df lat lon rp).
Proof.
  assert (row_count_ok (refine_asset df lat lon rp)) as (d' & rep' & Hres' & Hfinal)
    by (apply run_refiner_final_ok; solve_final_ok).
  rewrite refine_asset_steps in *. unfold asset_steps in *.
  pose proof (asset_flags_fit lat lon rp) as Hfit.
  destruct (refiner_rows [missing_id_step] false (asset_flags lat lon rp) [final_step]
              df closing_keys safe_asset_opening bookkeeping_final (proj1 Hfit))
    as (s1 & d & rep & H1 & Hres & Hext & Hkept & _).
  { intros k. by apply table_fits_closing. }
  rewrite Hres in Hres'. injection Hres' as <- <-.
  exists d, rep. split; [done |].
  simpl in H1. unfold mbind, M_bind in H1. rewrite missing_id_step_eq in H1.
  simpl in H1. injection H1 as <-.
  assert (len d = len df) as Hlen.
  { rewrite (flag_ext_length _ _ _ Hext). by destruct (has_column _ _). }
  split; [|split; [done | by rewrite <- Hlen]].
  rewrite Hkept.
  - unfold df_copy. destruct (has_column "asset_id" df); simpl;
      [by rewrite lookup_insert_eq | by rewrite lookup_empty].
  - intros Hin. apply (table_fits_other _ _ Hfit Hin).
    unfold other_keys. rewrite !elem_of_app. right. right. apply list_elem_of_singleton.
    done.
  - unfold closing_keys. solve_key_out.
Qed.

(** ** The product of a reanalysis report *)

Lemma reanalysis_product df name tz tc wc wdc tmpc freq wr wdr tr thr :
  ∃ d rep,
    refine_reanalysis df name tz tc wc wdc tmpc freq wr wdr tr thr = inr (d, rep) ∧
    rep !! "product" = Some (RStr name).
Proof.
  rewrite refine_reanalysis_steps. unfold reanalysis_steps.
  destruct (bookkeeping_reanalysis name) as (Hsafe & _ & _).
  destruct (shape_inv (time_checks tz tc tc freq false) false
              (reanalysis_flags wc wdc tmpc wr wdr tr thr)
              [report_set "product" (RStr name); final_step] df
              (safe_time_checks _ _ _ _ _) Hsafe)
    as (s1 & s2 & s3 & H1 & H2 & H3 & Hres).
  exists (st_df s3), (st_report s3). split; [done |].
  injection H3 as <-. simpl. by rewrite lookup_insert_ne, lookup_insert_eq.
Qed.

(** X10. The report of a reanalysis product names the product: [product]
    holds the name [refine_reanalysis] was called with, and in the result
    of [refine_all] every report of the inner reanalysis dictionary holds
    under [product] the key it is stored under. *)
Theorem product_reports_carry_their_name :
  (∀ df name tz tc wc wdc tmpc freq wr wdr tr thr,
     ∃ d rep,
       refine_reanalysis df name tz tc wc wdc tmpc freq wr wdr tr thr = inr (d, rep) ∧
       rep !! "product" = Some (RStr name)) ∧
  (∀ scada_df tz n meter_df curtail_df asset_df reanalysis_dfs,
     ∃ res pq,
       refine_all scada_df tz n meter_df curtail_df asset_df reanalysis_dfs = inr res ∧
       qa_report res !! "reanalysis" = Some (Products pq) ∧
       ∀ name rep, pq !! name = Some (Some rep) → rep !! "product" = Some (RStr name)).
Proof.
  split; [intros; apply reanalysis_product |]. intros.
  destruct (refine_all_refines scada_df tz n meter_df curtail_df asset_df reanalysis_dfs)
    as (res & Hres & _ & _ & _ & _ & (pd & pq & _ & Hpq & Hall) & _).
  exists res, pq. split; [done |]. split; [done |]. intros name rep Hname.
  specialize (Hall name). unfold product_is in Hall.
  destruct (default ∅ reanalysis_dfs !! name) as [[input|]|].
  - destruct Hall as (d & rep' & Hcall & _ & Hrep). rewrite Hname in Hrep.
    injection Hrep as ->. unfold reanalysis_call in Hcall.
    destruct (reanalysis_product input name tz (reanalysis_time_col n)
                (reanalysis_windspeed_col n) (reanalysis_winddir_col n)
                (reanalysis_temp_col n) default_reanalysis_freq
                reanalysis_windspeed_range reanalysis_winddir_range
                reanalysis_temp_range default_threshold) as (d2 & rep2 & Heq & Hp).
    rewrite Hcall in Heq. by injection Heq as -> ->.
  - destruct Hall as [_ Hnone]. by rewrite Hname in Hnone.
  - destruct Hall as [_ Hnone]. by rewrite Hname in Hnone.
Qed.

End ReportKeys.

(** ** [_safe_int] *)

(** X11. [_safe_int] returns an integer as it is and a finite float
    truncated towards zero; NaN and [None], on which [int()] raises
    [ValueError] and [TypeError], give 0; an infinite float is not
    covered by the [except] clause: its [OverflowError] is raised again. *)
Theorem safe_int_truncates_or_gives_zero :
  (∀ z, _safe_int (PyInt z) = inr z) ∧
  (∀ q, (0 ≤ q)%Qc →
     ∃ z, _safe_int (PyFloat q) = inr z ∧ 0 ≤ z ∧
          (Qc_of_Z z ≤ q)%Qc ∧ (q < Qc_of_Z (z + 1))%Qc) ∧
  (∀ q, (q ≤ 0)%Qc →
     ∃ z, _safe_int (PyFloat q) = inr z ∧ z ≤ 0 ∧
          (q ≤ Qc_of_Z z)%Qc ∧ (Qc_of_Z (z - 1) < q)%Qc) ∧
  _safe_int PyNaN = inr 0 ∧
  _safe_int PyNone = inr 0 ∧
  (∀ negative, ∃ e, _safe_int (PyInf negative) = inl e ∧ kind e = OverflowError).
Proof.
  split; [done |]. split; [|split; [|split; [done | split; [done |]]]].
  - intros [[n d] Hc] Hq. unfold Qcle, Qle in Hq. simpl in Hq.
    exists (Z.quot n (Z.pos d)). split; [done |].
    assert (0 ≤ n) as Hn by lia.
    pose proof (Z.quot_rem n (Z.pos d) ltac:(lia)) as Hqr.
    pose proof (Z.rem_bound_pos n (Z.pos d) Hn ltac:(lia)) as Hr.
    pose proof (Z.quot_pos n (Z.pos d) Hn ltac:(lia)) as Hz.
    split; [done |]. unfold Qcle, Qclt, Qle, Qlt. simpl. split; nia.
  - intros [[n d] Hc] Hq. unfold Qcle, Qle in Hq. simpl in Hq.
    exists (Z.quot n (Z.pos d)). split; [done |].
    assert (0 ≤ - n) as Hn by lia.
    pose proof (Z.quot_rem (- n) (Z.pos d) ltac:(lia)) as Hqr.
    pose proof (Z.rem_bound_pos (- n) (Z.pos d) Hn ltac:(lia)) as Hr.
    pose proof (Z.quot_pos (- n) (Z.pos d) Hn ltac:(lia)) as Hz.
    rewrite Z.quot_opp_l in Hqr, Hz by lia.
    split; [lia |]. unfold Qcle, Qclt, Qle, Qlt. simpl. split; nia.
  - intros negative. by eexists.
Qed.

(** * The web layer *)

(** ** Parsing the uploads *)

Lemma _parse_csv_eq file key :
  _parse_csv file key =
  match read_csv file with
  | inr df => inr df
  | inl e => inl (parse_error key file e)
  end.
Proof. done. Qed.

Lemma first_failure_app l1 l2 :
  first_failure (l1 ++ l2) =
  match first_failure l1 with
  | Some h => Some h
  | None => first_failure l2
  end.
Proof.
  induction l1 as [|[key file] l1 IH]; simpl; [done |].
  by destruct (read_csv file).
Qed.

Lemma first_failure_optional key (file : option UploadFile) :
  first_failure ((key,.) <$> option_list file) =
  match parse_optional file key with
  | inl h => Some h
  | inr _ => None
  end.
Proof.
  destruct file as [f|]; simpl; [|done].
  unfold mbind, H_bind. rewrite _parse_csv_eq. by destruct (read_csv f).
Qed.

Lemma parse_files_first_failure files :
  match parse_files files with
  | inl h => first_failure (supplied files) = Some h
  | inr _ => first_failure (supplied files) = None
  end.
Proof.
  unfold supplied, parse_files. rewrite !first_failure_app, !first_failure_optional.
  simpl. rewrite _parse_csv_eq.
  unfold mbind, H_bind, mret, H_ret.
  destruct (read_csv (file_scada files)); simpl; [done |].
  repeat (match goal with
          | |- context [parse_optional ?f ?k] => destruct (parse_optional f k); simpl
          end; [done |]).
  done.
Qed.

Lemma first_failure_found l h :
  first_failure l = Some h →
  ∃ pre key file e post,
    l = pre ++ (key, file) :: post ∧
    Forall (λ kf, ∃ df, read_csv kf.2 = inr df) pre ∧
    read_csv file = inl e ∧ h = parse_error key file e.
Proof.
  induction l as [|[key file] l IH]; simpl; [done |].
  destruct (read_csv file) as [e|df] eqn:Hf.
  - intros [= <-]. by exists [], key, file, e, l.
  - intros (pre & k & f & e & post & -> & Hpre & He & ->)%IH.
    exists ((key, file) :: pre), k, f, e, post. split; [done |].
    split; [|done]. constructor; [by exists df | done].
Qed.

Lemma first_failure_none l :
  first_failure l = None ↔ Forall (λ kf, ∃ df, read_csv kf.2 = inr df) l.
Proof.
  induction l as [|[key file] l IH]; simpl; [done |].
  rewrite Forall_cons. simpl. destruct (read_csv file) as [e|df].
  - split; [done | by intros [[? ?] _]].
  - rewrite IH. split; [by split; [eexists |] | by intros [_ ?]].
Qed.

(** X12. The uploads are parsed in the order SCADA, meter, tower,
    curtailment, status, asset, ERA5, MERRA2, the files not supplied being
    skipped.  Parsing fails exactly when a supplied file cannot be read,
    tower and status included although they are never refined; the failure
    is the 400 of the first such file in that order, with its key, its name
    and the message of the reader. *)
Theorem parsing_stops_at_the_first_bad_file files :
  match parse_files files with
  | inl h =>
      ∃ pre key file e post,
        supplied files = pre ++ (key, file) :: post ∧
        Forall (λ kf, ∃ df, read_csv kf.2 = inr df) pre ∧
        read_csv file = inl e ∧
        h = mkHTTP 400
              ("[" +:+ key +:+ "] Cannot parse '" +:+ filename file +:+ "': " +:+ str e)
  | inr _ => Forall (λ kf, ∃ df, read_csv kf.2 = inr df) (supplied files)
  end.
Proof.
  pose proof (parse_files_first_failure files) as Hfirst.
  destruct (parse_files files) as [h|p].
  - by apply first_failure_found.
  - by apply first_failure_none.
Qed.

(** ** Requests *)

Section Requests.
Context `{OpenOA} `{PlantLibrary}.

Lemma refine_uploaded_returns form p :
  ∃ result frames,
    refine_uploaded form p = inr result ∧
    dataframes result !! "reanalysis" = Some (Products frames).
Proof.
  unfold refine_uploaded.
  destruct (refine_all_refines (scada_frame p) (form_local_tz form)
              (call_names (form_columns form)) (meter_frame p) (curtail_frame p)
              (asset_frame p) (or_none (reanalysis_dict p)))
    as (res & Hres & _ & _ & _ & _ & (pd & pq & Hpd & _) & _).
  by exists res, pd.
Qed.

(** X13. Whatever the libraries do, a request to [upload_and_refine] ends in
    a response or in an [HTTPException] of status 400 or 500, never in an
    uncaught exception.  A failed request leaves the session store as it
    was.  The status is 400 when a file cannot be parsed; it is 500 only
    when the construction of the plant raised: the refinement never fails
    the request.  A successful request writes the session of its own id and
    no other. *)
Theorem failed_uploads_leave_no_session form files uuid4 store :
  match upload_and_refine form files uuid4 store with
  | (Ok resp, store') =>
      resp_session_id resp = uuid4 ∧ is_Some (store' !! uuid4) ∧
      ∀ sid, sid ≠ uuid4 → store' !! sid = store !! sid
  | (Http h, store') =>
      store' = store ∧
      ((status_code h = 400 ∧ parse_files files = inl h) ∨
       (status_code h = 500 ∧
        ∃ p e, parse_files files = inr p ∧ build_plant form files p = inl e ∧
               detail h = "PlantData construction failed: " +:+ str e))
  | (Uncaught _, _) => False
  end.
Proof.
  unfold upload_and_refine.
  pose proof (parse_files_first_failure files) as Hfirst.
  destruct (parse_files files) as [h|p].
  { split; [done |]. left. split; [|done].
    by apply first_failure_found in Hfirst as (? & ? & ? & ? & ? & _ & _ & _ & ->). }
  destruct (refine_uploaded_returns form p) as (result & frames & -> & ->).
  destruct (build_plant form files p) as [e|plant_obj] eqn:Hplant.
  - split; [done |]. right. split; [done |]. by exists p, e.
  - simpl. unfold Store, Session in *.
    split; [done |]. split; [by rewrite lookup_insert_eq |].
    intros sid Hsid. by rewrite lookup_insert_ne.
Qed.

End Requests.
